(** * Invoicing and cash reconciliation core of the bus operations platform

    Shallow embedding of the business logic of [operations/models.py],
    [operations/services.py] and of the cash and voiding views of
    [operations/views.py], with the forms of [operations/forms.py] they use.

    - Money is Python's [decimal.Decimal] under the default context
      (28 significant digits, ROUND_HALF_EVEN); a DecimalField column keeps
      two decimal places.
    - Database tables are lists of rows in insertion order; a queryset is a
      filtered and ordered list; aggregates are exact.
    - Operations that raise return a [result]; a [Raise] out of an atomic
      service or of a view leaves the database as it was.
    - [timezone.now()] is one instant [now] per operation; today's date is
      [hoy]. *)

From Stdlib Require Import ZArith List String Ascii Bool Lia Znumtheory.
From Equations Require Import Equations.
Import ListNotations.
Open Scope Z_scope.

(* ===================================================================== *)
(** ** Exceptions *)
(* ===================================================================== *)

Inductive Error : Type :=
| ValueError (msg : string)
| IndexError
| DoesNotExist
| MultipleObjectsReturned
| InvalidOperation.

Inductive result (A : Type) : Type :=
| Ok (a : A)
| Raise (e : Error).
Arguments Ok {A} a.
Arguments Raise {A} e.

Definition bind {A B : Type} (r : result A) (k : A -> result B) : result B :=
  match r with
  | Ok a => k a
  | Raise e => Raise e
  end.

Notation "'do' x <- r ; k" := (bind r (fun x => k))
  (at level 10, x name, r at level 100, k at level 200).

(* ===================================================================== *)
(** ** decimal.Decimal, default context *)
(* ===================================================================== *)

(** A finite decimal [coef * 10 ^ expo].  The sign lives in [coef]; NaN,
    infinities and the negative zero cannot be stored in a DecimalField and
    are left out.  Exponents of this application stay far away from the
    context limits Emin/Emax, which are not modelled. *)
Record Decimal : Type := mkDec { coef : Z; expo : Z }.

Module Dec.

(** [getcontext().prec] *)
Definition prec : Z := 28.

(** [len(str(n))] for [0 <= n]. *)
Fixpoint ndigits_fuel (fuel : nat) (n : Z) : Z :=
  match fuel with
  | O => 1
  | S f => if n <? 10 then 1 else 1 + ndigits_fuel f (n / 10)
  end.

Definition ndigits (n : Z) : Z := ndigits_fuel (Z.to_nat (Z.log2 n)) n.

(** ROUND_HALF_EVEN: drop the last [k] digits of [0 <= n]. *)
Definition round_half_even (n k : Z) : Z :=
  let q := n / 10 ^ k in
  let r := n mod 10 ^ k in
  if (2 * r >? 10 ^ k) || ((2 * r =? 10 ^ k) && Z.odd q) then q + 1 else q.

(** [Decimal._fix]: round to the context precision. *)
Definition fix_ (d : Decimal) : Decimal :=
  let a := Z.abs (coef d) in
  let len := ndigits a in
  if len <=? prec then d
  else
    let k := len - prec in
    let c := round_half_even a k in
    if ndigits c >? prec
    then mkDec (Z.sgn (coef d) * (c / 10)) (expo d + k + 1)
    else mkDec (Z.sgn (coef d) * c) (expo d + k).

(** [Decimal(n)] for an integer literal. *)
Definition of_Z (n : Z) : Decimal := mkDec n 0.

(** [Decimal('0.00')] *)
Definition zero2 : Decimal := mkDec 0 (-2).

(** [bool(d)] *)
Definition truthy (d : Decimal) : bool := negb (coef d =? 0).

(** Both coefficients brought to the smaller exponent. *)
Definition align (a b : Decimal) : Z * Z * Z :=
  let e := Z.min (expo a) (expo b) in
  (coef a * 10 ^ (expo a - e), coef b * 10 ^ (expo b - e), e).

(** [a + b]: the exact sum, rounded to the context precision. *)
Definition add (a b : Decimal) : Decimal :=
  let '(x, y, e) := align a b in fix_ (mkDec (x + y) e).

Definition neg (a : Decimal) : Decimal := mkDec (- coef a) (expo a).

(** [a - b] *)
Definition sub (a b : Decimal) : Decimal := add a (neg b).

(** [a * b] *)
Definition mul (a b : Decimal) : Decimal :=
  fix_ (mkDec (coef a * coef b) (expo a + expo b)).

(** The loop of [__truediv__] for an exact quotient: strip trailing zeros
    while the exponent is below the ideal one. *)
Fixpoint strip (fuel : nat) (c e ideal : Z) : Z * Z :=
  match fuel with
  | O => (c, e)
  | S f =>
      if (e <? ideal) && (c mod 10 =? 0) then strip f (c / 10) (e + 1) ideal
      else (c, e)
  end.

(** [a / b] ([Decimal.__truediv__]).  Python raises on a zero divisor; the
    code only divides by the literals 105 and 110, and the model returns
    zero there. *)
Definition div (a b : Decimal) : Decimal :=
  if coef b =? 0 then mkDec 0 0
  else if coef a =? 0 then fix_ (mkDec 0 (expo a - expo b))
  else
    let sign := Z.sgn (coef a) * Z.sgn (coef b) in
    let ca := Z.abs (coef a) in
    let cb := Z.abs (coef b) in
    let shift := ndigits cb - ndigits ca + prec + 1 in
    let e := expo a - expo b - shift in
    let '(q, r) :=
      if 0 <=? shift
      then (ca * 10 ^ shift / cb, (ca * 10 ^ shift) mod cb)
      else (ca / (cb * 10 ^ (- shift)), ca mod (cb * 10 ^ (- shift))) in
    let '(c, e') :=
      if r =? 0
      then strip (Z.to_nat (expo a - expo b - e)) q e (expo a - expo b)
      else (if q mod 5 =? 0 then q + 1 else q, e) in
    fix_ (mkDec (sign * c) e').

(** [a == b]: comparison of the numerical values. *)
Definition eqb (a b : Decimal) : bool :=
  let '(x, y, _) := align a b in x =? y.

(** [a > b] *)
Definition gtb (a b : Decimal) : bool :=
  let '(x, y, _) := align a b in x >? y.

(** [d.quantize(Decimal(1).scaleb(e))] with ROUND_HALF_EVEN. *)
Definition quantize (d : Decimal) (e : Z) : Decimal :=
  if e <=? expo d then mkDec (coef d * 10 ^ (expo d - e)) e
  else mkDec (Z.sgn (coef d) * round_half_even (Z.abs (coef d)) (e - expo d)) e.

(** What a [DecimalField(decimal_places=2)] column holds after a save. *)
Definition stored (d : Decimal) : Decimal := quantize d (-2).

End Dec.

(* ===================================================================== *)
(** ** Rows of the database *)
(* ===================================================================== *)

(** Primary keys, user ids and company ids. *)
Definition pk := Z.

(** Dates are day numbers, timestamps are instants; both are ordered
    integers. *)
Definition date := Z.
Definition datetime := Z.

Inductive PasajeEstado : Type :=
| pasaje_reservado | pasaje_vendido | pasaje_abordado
| pasaje_cancelado | pasaje_no_show.

Inductive EncomiendaEstado : Type :=
| enc_registrado | enc_en_transito | enc_en_destino
| enc_entregado | enc_devuelto | enc_cancelado.

Inductive Condicion : Type := contado | credito.

Inductive FacturaEstado : Type := emitida | anulada.

Inductive SesionEstado : Type := abierta | cerrada.

Inductive MovimientoTipo : Type := ingreso | egreso.

Inductive Concepto : Type :=
| venta_pasaje | venta_encomienda | anulacion | devolucion
| gasto | retiro | deposito | otro.

Record Pasaje : Type := mkPasaje {
  pasaje_id : pk;
  pasaje_origen : string;          (* parada_origen.nombre *)
  pasaje_destino : string;         (* parada_destino.nombre *)
  pasaje_precio : Decimal;
  pasaje_estado : PasajeEstado;
  pasaje_fecha_cancelacion : option datetime;
  pasaje_motivo_cancelacion : option string
}.

Record Encomienda : Type := mkEncomienda {
  enc_id : pk;
  enc_tipo : string;
  enc_codigo : string;
  enc_precio : Decimal;
  enc_estado : EncomiendaEstado
}.

Record Timbrado : Type := mkTimbrado {
  timbrado_id : pk;
  empresa : pk;
  timbrado_numero : string;
  fecha_inicio : date;
  fecha_fin : date;
  numero_desde : Z;
  numero_hasta : Z;
  punto_expedicion : string;
  activo : bool
}.

Record Factura : Type := mkFactura {
  factura_id : pk;
  timbrado : pk;
  numero_factura : Z;
  cliente : pk;
  condicion : Condicion;
  fecha_emision : datetime;
  subtotal_exenta : Decimal;
  subtotal_iva5 : Decimal;
  subtotal_iva10 : Decimal;
  total : Decimal;
  iva_5 : Decimal;
  iva_10 : Decimal;
  total_iva : Decimal;
  estado : FacturaEstado;
  cajero : pk;
  sesion_caja : option pk;
  motivo_anulacion : option string;
  fecha_anulacion : option datetime
}.

Record DetalleFactura : Type := mkDetalle {
  detalle_id : pk;
  detalle_factura : pk;
  cantidad : Decimal;
  descripcion : string;
  precio_unitario : Decimal;
  tasa_iva : Z;
  subtotal : Decimal;
  detalle_pasaje : option pk;
  detalle_encomienda : option pk
}.

Record SesionCaja : Type := mkSesion {
  sesion_id : pk;
  sesion_cajero : pk;
  fecha_apertura : datetime;
  monto_apertura : Decimal;
  fecha_cierre : option datetime;
  monto_cierre_esperado : option Decimal;
  monto_cierre_real : option Decimal;
  diferencia : option Decimal;
  sesion_estado : SesionEstado;
  observaciones : option string
}.

Record MovimientoCaja : Type := mkMovimiento {
  mov_id : pk;
  mov_sesion : pk;
  mov_tipo : MovimientoTipo;
  mov_concepto : Concepto;
  monto : Decimal;
  mov_descripcion : string;
  mov_factura : option pk;
  mov_fecha : datetime
}.

(** The tables the core reads and writes, each in insertion order, and the
    source of fresh primary keys. *)
Record DB : Type := mkDB {
  timbrados : list Timbrado;
  facturas : list Factura;
  detalles : list DetalleFactura;
  sesiones : list SesionCaja;
  movimientos : list MovimientoCaja;
  pasajes : list Pasaje;
  encomiendas : list Encomienda;
  next_pk : pk
}.

Definition FacturaEstado_eqb (a b : FacturaEstado) : bool :=
  match a, b with
  | emitida, emitida | anulada, anulada => true
  | _, _ => false
  end.

Definition SesionEstado_eqb (a b : SesionEstado) : bool :=
  match a, b with
  | abierta, abierta | cerrada, cerrada => true
  | _, _ => false
  end.

Definition MovimientoTipo_eqb (a b : MovimientoTipo) : bool :=
  match a, b with
  | ingreso, ingreso | egreso, egreso => true
  | _, _ => false
  end.

Definition isSome {A : Type} (o : option A) : bool :=
  match o with Some _ => true | None => false end.

(** [QuerySet.first()] *)
Definition first {A : Type} (l : list A) : option A :=
  match l with [] => None | x :: _ => Some x end.

(** [QuerySet.get()] *)
Definition get {A : Type} (l : list A) : result A :=
  match l with
  | [] => Raise DoesNotExist
  | [x] => Ok x
  | _ :: _ :: _ => Raise MultipleObjectsReturned
  end.

(** [QuerySet.exists()] *)
Definition exists_ {A : Type} (l : list A) : bool :=
  match l with [] => false | _ :: _ => true end.

(** [order_by] as a stable insertion sort on an integer key: a row goes in
    front of the first row that need not precede it. *)
Fixpoint insert_by {A : Type} (before : A -> A -> bool) (x : A) (l : list A)
  : list A :=
  match l with
  | [] => [x]
  | y :: l' => if before y x then y :: insert_by before x l' else x :: l
  end.

Definition order_by {A : Type} (before : A -> A -> bool) (l : list A) : list A :=
  fold_right (insert_by before) [] l.

(** Ascending and descending order on a key: [before y x] tells whether the
    row [y], which comes later in the table, must stand in front of [x]; on
    equal keys the rows keep their order. *)
Definition asc {A : Type} (key : A -> Z) (y x : A) : bool := key y <? key x.
Definition desc {A : Type} (key : A -> Z) (y x : A) : bool := key x <? key y.

(** [Model.save()] of a row that has a primary key: UPDATE the row with
    that key, INSERT when there is none. *)
Definition save_row {A : Type} (key : A -> pk) (x : A) (l : list A) : list A :=
  if existsb (fun y => key y =? key x) l
  then map (fun y => if key y =? key x then x else y) l
  else l ++ [x].

(* ===================================================================== *)
(** ** Text helpers *)
(* ===================================================================== *)

Definition digit_char (d : Z) : ascii := ascii_of_nat (48 + Z.to_nat d).

(** The decimal digits of [0 <= n], least significant first. *)
Fixpoint digits_rev (fuel : nat) (n : Z) : list ascii :=
  match fuel with
  | O => []
  | S f => digit_char (n mod 10) :: (if n <? 10 then [] else digits_rev f (n / 10))
  end.

(** [str(n)] for [0 <= n]. *)
Definition str_nat (n : Z) : string :=
  string_of_list_ascii (rev (digits_rev (S (Z.to_nat (Z.log2 n))) n)).

Fixpoint zeros (k : nat) : string :=
  match k with O => EmptyString | S k' => String "0" (zeros k') end.

(** [f"{n:07d}"]: zero padding to width 7, the sign in front. *)
Definition format_07d (n : Z) : string :=
  if n <? 0
  then let s := str_nat (- n) in ("-" ++ zeros (6 - String.length s) ++ s)%string
  else let s := str_nat n in (zeros (7 - String.length s) ++ s)%string.

(** A [str] is kept as its UTF-8 bytes. *)
Definition byte (c : ascii) : Z := Z.of_N (N_of_ascii c).

(** [c.isspace()] for the characters of one byte (TAB to CR, FS to US and
    the space), of two bytes (U+0085, U+00A0) and of three bytes (U+1680,
    U+2000 to U+200A, U+2028, U+2029, U+202F, U+205F, U+3000). *)
Definition espacio1 (a : ascii) : bool :=
  ((9 <=? byte a) && (byte a <=? 13)) || ((28 <=? byte a) && (byte a <=? 32)).

Definition espacio2 (a b : ascii) : bool :=
  (byte a =? 194) && ((byte b =? 133) || (byte b =? 160)).

Definition espacio3 (a b c : ascii) : bool :=
  ((byte a =? 225) && (byte b =? 154) && (byte c =? 128))
  || ((byte a =? 226) && (byte b =? 128)
      && (((128 <=? byte c) && (byte c <=? 138))
          || (byte c =? 168) || (byte c =? 169) || (byte c =? 175)))
  || ((byte a =? 226) && (byte b =? 129) && (byte c =? 159))
  || ((byte a =? 227) && (byte b =? 128) && (byte c =? 128)).

(** [s.lstrip()] *)
Fixpoint lstrip (s : string) : string :=
  match s with
  | EmptyString => EmptyString
  | String a r =>
      if espacio1 a then lstrip r
      else
        match r with
        | EmptyString => s
        | String b r' =>
            if espacio2 a b then lstrip r'
            else
              match r' with
              | EmptyString => s
              | String c r'' => if espacio3 a b c then lstrip r'' else s
              end
        end
  end.

(** [s.rstrip()] on the reversed bytes of [s]: the last byte comes first. *)
Fixpoint rstrip_rev (s : string) : string :=
  match s with
  | EmptyString => EmptyString
  | String c r =>
      if espacio1 c then rstrip_rev r
      else
        match r with
        | EmptyString => s
        | String b r' =>
            if espacio2 b c then rstrip_rev r'
            else
              match r' with
              | EmptyString => s
              | String a r'' => if espacio3 a b c then rstrip_rev r'' else s
              end
        end
  end.

Definition reverse (s : string) : string :=
  string_of_list_ascii (rev (list_ascii_of_string s)).

(** [s.strip()] *)
Definition strip (s : string) : string :=
  reverse (rstrip_rev (reverse (lstrip s))).

(** [len(s)]: the characters of [s], one per byte that is not a
    continuation byte. *)
Fixpoint len (s : string) : nat :=
  match s with
  | EmptyString => O
  | String a r =>
      if (128 <=? byte a) && (byte a <=? 191) then len r else S (len r)
  end.

(** ['\x00' in s] *)
Fixpoint has_null (s : string) : bool :=
  match s with
  | EmptyString => false
  | String a r => (byte a =? 0) || has_null r
  end.

(* ===================================================================== *)
(** ** Timbrado *)
(* ===================================================================== *)

(** [Timbrado.esta_vigente], with today's date [hoy]. *)
Definition esta_vigente (hoy : date) (t : Timbrado) : bool :=
  (fecha_inicio t <=? hoy) && (hoy <=? fecha_fin t) && activo t.

(** The reverse relation [timbrado.facturas]. *)
Definition timbrado_facturas (db : DB) (t : Timbrado) : list Factura :=
  filter (fun f => timbrado f =? timbrado_id t) (facturas db).

Definition msg_agotado : string :=
  "Se agotaron los números de factura para este timbrado"%string.

(** [Timbrado.get_siguiente_numero] *)
Definition get_siguiente_numero (db : DB) (t : Timbrado) : result Z :=
  let ultima := first (order_by (desc numero_factura) (timbrado_facturas db t)) in
  let siguiente :=
    match ultima with
    | Some u => numero_factura u + 1
    | None => numero_desde t
    end in
  if siguiente >? numero_hasta t then Raise (ValueError msg_agotado)
  else Ok siguiente.

(** [Factura.numero_completo], the license row being [t]. *)
Definition numero_completo (t : Timbrado) (f : Factura) : string :=
  (punto_expedicion t ++ "-" ++ format_07d (numero_factura f))%string.

(** Following the foreign key [factura.timbrado]. *)
Definition factura_timbrado (db : DB) (f : Factura) : result Timbrado :=
  get (filter (fun t => timbrado_id t =? timbrado f) (timbrados db)).

(* ===================================================================== *)
(** ** Factura and DetalleFactura *)
(* ===================================================================== *)

(** The reverse relation [factura.detalles], in the model's ordering
    [['id']]. *)
Definition factura_detalles (db : DB) (f : Factura) : list DetalleFactura :=
  order_by (asc detalle_id)
    (filter (fun d => detalle_factura d =? factura_id f) (detalles db)).

Definition set_totales (f : Factura)
  (ex s5 s10 tot i5 i10 ti : Decimal) : Factura :=
  mkFactura (factura_id f) (timbrado f) (numero_factura f) (cliente f)
    (condicion f) (fecha_emision f) ex s5 s10 tot i5 i10 ti
    (estado f) (cajero f) (sesion_caja f) (motivo_anulacion f)
    (fecha_anulacion f).

Definition set_anulada (f : Factura) (motivo : string) (now : datetime)
  : Factura :=
  mkFactura (factura_id f) (timbrado f) (numero_factura f) (cliente f)
    (condicion f) (fecha_emision f) (subtotal_exenta f) (subtotal_iva5 f)
    (subtotal_iva10 f) (total f) (iva_5 f) (iva_10 f) (total_iva f)
    anulada (cajero f) (sesion_caja f) (Some motivo) (Some now).

(** The three running sums of the loop of [calcular_totales]. *)
Definition acumular (acc : Decimal * Decimal * Decimal) (d : DetalleFactura)
  : Decimal * Decimal * Decimal :=
  let '(ex, s5, s10) := acc in
  if tasa_iva d =? 0 then (Dec.add ex (subtotal d), s5, s10)
  else if tasa_iva d =? 5 then (ex, Dec.add s5 (subtotal d), s10)
  else if tasa_iva d =? 10 then (ex, s5, Dec.add s10 (subtotal d))
  else (ex, s5, s10).

(** [Factura.calcular_totales]: the object after the call. *)
Definition calcular_totales (db : DB) (f : Factura) : Factura :=
  let '(ex, s5, s10) :=
    fold_left acumular (factura_detalles db f)
      (Dec.zero2, Dec.zero2, Dec.zero2) in
  let i5 := Dec.div (Dec.mul s5 (Dec.of_Z 5)) (Dec.of_Z 105) in
  let i10 := Dec.div (Dec.mul s10 (Dec.of_Z 10)) (Dec.of_Z 110) in
  let ti := Dec.add i5 i10 in
  let tot := Dec.add (Dec.add ex s5) s10 in
  set_totales f ex s5 s10 tot i5 i10 ti.

(** The row written by [factura.save()]: every DecimalField column keeps
    two decimal places. *)
Definition factura_row (f : Factura) : Factura :=
  set_totales f
    (Dec.stored (subtotal_exenta f)) (Dec.stored (subtotal_iva5 f))
    (Dec.stored (subtotal_iva10 f)) (Dec.stored (total f))
    (Dec.stored (iva_5 f)) (Dec.stored (iva_10 f)) (Dec.stored (total_iva f)).

Definition set_facturas (db : DB) (l : list Factura) : DB :=
  mkDB (timbrados db) l (detalles db) (sesiones db) (movimientos db)
    (pasajes db) (encomiendas db) (next_pk db).

Definition set_detalles (db : DB) (l : list DetalleFactura) : DB :=
  mkDB (timbrados db) (facturas db) l (sesiones db) (movimientos db)
    (pasajes db) (encomiendas db) (next_pk db).

Definition set_sesiones (db : DB) (l : list SesionCaja) : DB :=
  mkDB (timbrados db) (facturas db) (detalles db) l (movimientos db)
    (pasajes db) (encomiendas db) (next_pk db).

Definition set_movimientos (db : DB) (l : list MovimientoCaja) : DB :=
  mkDB (timbrados db) (facturas db) (detalles db) (sesiones db) l
    (pasajes db) (encomiendas db) (next_pk db).

Definition set_pasajes (db : DB) (l : list Pasaje) : DB :=
  mkDB (timbrados db) (facturas db) (detalles db) (sesiones db)
    (movimientos db) l (encomiendas db) (next_pk db).

(** A fresh primary key for an INSERT. *)
Definition fresh (db : DB) : pk * DB :=
  (next_pk db,
   mkDB (timbrados db) (facturas db) (detalles db) (sesiones db)
     (movimientos db) (pasajes db) (encomiendas db) (next_pk db + 1)).

(** [factura.save()] *)
Definition Factura_save (db : DB) (f : Factura) : DB :=
  set_facturas db (save_row factura_id (factura_row f) (facturas db)).

(** [DetalleFactura.objects.create(...)]: [save] recomputes the subtotal
    as [cantidad * precio_unitario] before the INSERT. *)
Definition DetalleFactura_create (db : DB) (f : Factura) (cant : Decimal)
  (desc_ : string) (precio : Decimal) (tasa : Z)
  (p : option pk) (e : option pk) : DB :=
  let '(id, db) := fresh db in
  let sub := Dec.mul cant precio in
  set_detalles db
    (detalles db ++
     [mkDetalle id (factura_id f) (Dec.stored cant) desc_ (Dec.stored precio)
        tasa (Dec.stored sub) p e]).

(** [MovimientoCaja.objects.create(...)] *)
Definition MovimientoCaja_create (db : DB) (now : datetime) (s : pk)
  (tipo : MovimientoTipo) (c : Concepto) (m : Decimal) (desc_ : string)
  (f : option pk) : DB :=
  let '(id, db) := fresh db in
  set_movimientos db
    (movimientos db ++ [mkMovimiento id s tipo c (Dec.stored m) desc_ f now]).

(* ===================================================================== *)
(** ** SesionCaja *)
(* ===================================================================== *)

(** The reverse relation [sesion.movimientos]. *)
Definition sesion_movimientos (db : DB) (s : SesionCaja) : list MovimientoCaja :=
  filter (fun m => mov_sesion m =? sesion_id s) (movimientos db).

(** [Sum('monto')] is computed by the database and handed back by its
    driver: a NUMERIC column is added exactly (PostgreSQL), SQLite adds
    floats and its driver keeps 15 significant digits, at the exponent the
    conversion yields.  The program sees the Decimal it is handed; which
    one is the backend's business, so the operations that aggregate take
    the backend's sum of a non-empty column as an argument. *)
Definition Suma : Type := list Decimal -> Decimal.

(** The exact sum of two column values. *)
Definition sql_add (a b : Decimal) : Decimal :=
  let '(x, y, e) := Dec.align a b in mkDec (x + y) e.

(** The backend that adds a NUMERIC column exactly. *)
Definition suma_exacta : Suma :=
  fun ds =>
    match ds with
    | [] => Dec.zero2
    | d :: ds' => fold_left sql_add ds' d
    end.

(** [aggregate(total=Sum('monto'))['total']]: NULL over no rows. *)
Definition sum_monto (Sum : Suma) (ms : list MovimientoCaja) : option Decimal :=
  match ms with
  | [] => None
  | _ :: _ => Some (Sum (map monto ms))
  end.

(** [x or Decimal('0.00')] *)
Definition or_zero (x : option Decimal) : Decimal :=
  match x with
  | Some d => if Dec.truthy d then d else Dec.zero2
  | None => Dec.zero2
  end.

(** [SesionCaja.total_ingresos] *)
Definition total_ingresos (Sum : Suma) (db : DB) (s : SesionCaja) : Decimal :=
  or_zero (sum_monto Sum
    (filter (fun m => MovimientoTipo_eqb (mov_tipo m) ingreso)
       (sesion_movimientos db s))).

(** [SesionCaja.total_egresos] *)
Definition total_egresos (Sum : Suma) (db : DB) (s : SesionCaja) : Decimal :=
  or_zero (sum_monto Sum
    (filter (fun m => MovimientoTipo_eqb (mov_tipo m) egreso)
       (sesion_movimientos db s))).

Definition set_esperado (s : SesionCaja) (e : Decimal) : SesionCaja :=
  mkSesion (sesion_id s) (sesion_cajero s) (fecha_apertura s)
    (monto_apertura s) (fecha_cierre s) (Some e) (monto_cierre_real s)
    (diferencia s) (sesion_estado s) (observaciones s).

(** [SesionCaja.calcular_cierre]: the returned amount and the object after
    the call. *)
Definition calcular_cierre (Sum : Suma) (db : DB) (s : SesionCaja)
  : Decimal * SesionCaja :=
  let e := Dec.sub (Dec.add (monto_apertura s) (total_ingresos Sum db s))
                   (total_egresos Sum db s) in
  (e, set_esperado s e).

Definition opt_stored (o : option Decimal) : option Decimal :=
  match o with Some d => Some (Dec.stored d) | None => None end.

(** The row of a session: every DecimalField column keeps two decimal
    places. *)
Definition sesion_row (s : SesionCaja) : SesionCaja :=
  mkSesion (sesion_id s) (sesion_cajero s) (fecha_apertura s)
    (Dec.stored (monto_apertura s)) (fecha_cierre s)
    (opt_stored (monto_cierre_esperado s)) (opt_stored (monto_cierre_real s))
    (opt_stored (diferencia s)) (sesion_estado s) (observaciones s).

(** What a [DecimalField(max_digits, decimal_places=2)] column is handed on
    a save: the value quantized to two places under a context of
    [max_digits] digits, which raises [decimal.InvalidOperation] when the
    result needs more digits. *)
Definition db_decimal (max_digits : Z) (d : Decimal) : result Decimal :=
  if Dec.ndigits (Z.abs (coef (Dec.stored d))) <=? max_digits
  then Ok (Dec.stored d)
  else Raise InvalidOperation.

Definition opt_db_decimal (max_digits : Z) (o : option Decimal)
  : result (option Decimal) :=
  match o with
  | Some d => do q <- db_decimal max_digits d; Ok (Some q)
  | None => Ok None
  end.

(** [sesion.save()] of a session that has a primary key: the four amounts
    are columns of [max_digits=15]. *)
Definition SesionCaja_save (db : DB) (s : SesionCaja) : result DB :=
  do apertura <- db_decimal 15 (monto_apertura s);
  do esperado <- opt_db_decimal 15 (monto_cierre_esperado s);
  do real <- opt_db_decimal 15 (monto_cierre_real s);
  do dif <- opt_db_decimal 15 (diferencia s);
  Ok (set_sesiones db
        (save_row sesion_id
           (mkSesion (sesion_id s) (sesion_cajero s) (fecha_apertura s)
              apertura (fecha_cierre s) esperado real dif (sesion_estado s)
              (observaciones s))
           (sesiones db))).

(** [SesionCaja.cerrar]: the database and the object after the call; the
    method looks at no status. *)
Definition cerrar (Sum : Suma) (db : DB) (now : datetime) (s : SesionCaja)
  (monto_real : Decimal) (obs : string) : result (DB * SesionCaja) :=
  let '(esperado, s1) := calcular_cierre Sum db s in
  let s2 :=
    mkSesion (sesion_id s1) (sesion_cajero s1) (fecha_apertura s1)
      (monto_apertura s1) (Some now) (Some esperado) (Some monto_real)
      (Some (Dec.sub monto_real esperado)) cerrada (Some obs) in
  do db' <- SesionCaja_save db s2;
  Ok (db', s2).

(** [SesionCaja.objects.filter(cajero=user, estado='abierta')] *)
Definition sesiones_abiertas (db : DB) (user : pk) : list SesionCaja :=
  filter (fun s => (sesion_cajero s =? user)
                   && SesionEstado_eqb (sesion_estado s) abierta)
    (sesiones db).

(* ===================================================================== *)
(** ** FacturacionService *)
(* ===================================================================== *)

(** [FacturacionService.obtener_timbrado_vigente]; [Timbrado] rows come in
    the model's ordering [['-fecha_inicio']]. *)
Definition obtener_timbrado_vigente (db : DB) (hoy : date) (emp : option pk)
  : option Timbrado :=
  let queryset :=
    filter (fun t => activo t && (fecha_inicio t <=? hoy) && (hoy <=? fecha_fin t))
      (timbrados db) in
  let queryset :=
    match emp with
    | Some e => filter (fun t => empresa t =? e) queryset
    | None => queryset
    end in
  first (order_by (desc fecha_inicio) queryset).

(** [FacturacionService.validar_timbrado] *)
Definition validar_timbrado (db : DB) (hoy : date) (t : option Timbrado)
  : result (bool * option string) :=
  match t with
  | None => Ok (false, Some "No se encontró un timbrado válido."%string)
  | Some t =>
      if negb (esta_vigente hoy t)
      then Ok (false,
               Some ("El timbrado " ++ timbrado_numero t ++ " no está vigente.")%string)
      else
        match get_siguiente_numero db t with
        | Ok _ => Ok (true, None)
        | Raise (ValueError e) => Ok (false, Some e)
        | Raise e => Raise e
        end
  end.

(** [FacturacionService._registrar_movimiento_caja] *)
Definition registrar_movimiento_caja (db : DB) (now : datetime)
  (sesion : SesionCaja) (t : Timbrado) (f : Factura) (tipo : MovimientoTipo)
  : DB :=
  let tiene_pasajes :=
    exists_ (filter (fun d => isSome (detalle_pasaje d)) (factura_detalles db f)) in
  let tiene_encomiendas :=
    exists_ (filter (fun d => isSome (detalle_encomienda d)) (factura_detalles db f)) in
  let '(concepto, descr) :=
    if tiene_pasajes && tiene_encomiendas
    then (otro, ("Venta " ++ numero_completo t f)%string)
    else if tiene_pasajes
    then (venta_pasaje, ("Pasaje " ++ numero_completo t f)%string)
    else (venta_encomienda, ("Encomienda " ++ numero_completo t f)%string) in
  MovimientoCaja_create db now (sesion_id sesion) tipo concepto (total f) descr
    (Some (factura_id f)).

(** [Factura.objects.create(...)] as [crear_factura] calls it: the totals
    and the status take their defaults. *)
Definition Factura_create (db : DB) (now : datetime) (t : Timbrado) (n : Z)
  (cliente_ : pk) (cond : Condicion) (cajero_ : pk)
  (sesion : option SesionCaja) : DB * Factura :=
  let '(id, db) := fresh db in
  let factura :=
    mkFactura id (timbrado_id t) n cliente_ cond now
      Dec.zero2 Dec.zero2 Dec.zero2 Dec.zero2 Dec.zero2 Dec.zero2
      Dec.zero2 emitida cajero_
      (match sesion with Some s => Some (sesion_id s) | None => None end)
      None None in
  (set_facturas db (facturas db ++ [factura]), factura).

(** [FacturacionService.crear_factura]; the whole body runs in one
    transaction, so a raise leaves the database as it was. *)
Definition crear_factura (db : DB) (hoy : date) (now : datetime)
  (t : option Timbrado) (cliente_ cajero_ : pk)
  (ps : list Pasaje) (es : list Encomienda) (cond : Condicion)
  (sesion : option SesionCaja) (tasa : Z) : result (DB * Factura) :=
  do v <- validar_timbrado db hoy t;
  match v, t with
  | (true, _), Some t =>
      match ps, es with
      | [], [] =>
          Raise (ValueError "Debe incluir al menos un pasaje o encomienda."%string)
      | _, _ =>
          do n <- get_siguiente_numero db t;
          let '(db, factura) :=
            Factura_create db now t n cliente_ cond cajero_ sesion in
          let db :=
            fold_left (fun db p =>
              DetalleFactura_create db factura (Dec.of_Z 1)
                ("Pasaje " ++ pasaje_origen p ++ " - " ++ pasaje_destino p)%string
                (pasaje_precio p) tasa (Some (pasaje_id p)) None) ps db in
          let db :=
            fold_left (fun db e =>
              DetalleFactura_create db factura (Dec.of_Z 1)
                ("Encomienda " ++ enc_tipo e ++ " - " ++ enc_codigo e)%string
                (enc_precio e) 10 None (Some (enc_id e))) es db in
          let factura := calcular_totales db factura in
          let db := Factura_save db factura in
          let db :=
            match sesion with
            | Some s =>
                if SesionEstado_eqb (sesion_estado s) abierta
                then registrar_movimiento_caja db now s t factura ingreso
                else db
            | None => db
            end in
          Ok (db, factura)
      end
  | (_, e), _ =>
      Raise (ValueError (match e with Some m => m | None => "None"%string end))
  end.

(** The ticket row after the assignments of the last loop of
    [anular_factura] and [pasaje.save()]. *)
Definition Pasaje_cancelado (now : datetime) (motivo : string) (p : Pasaje)
  : Pasaje :=
  mkPasaje (pasaje_id p) (pasaje_origen p) (pasaje_destino p)
    (Dec.stored (pasaje_precio p)) pasaje_cancelado (Some now)
    (Some ("Factura anulada: " ++ motivo)%string).

(** The body of the last loop of [anular_factura] for one line. *)
Definition cancelar_pasaje (now : datetime) (motivo : string) (db : DB)
  (d : DetalleFactura) : result DB :=
  match detalle_pasaje d with
  | None => Ok db
  | Some pid =>
      do p <- get (filter (fun p => pasaje_id p =? pid) (pasajes db));
      Ok (set_pasajes db
            (save_row pasaje_id (Pasaje_cancelado now motivo p) (pasajes db)))
  end.

Fixpoint for_each {A : Type} (body : DB -> A -> result DB) (l : list A) (db : DB)
  : result DB :=
  match l with
  | [] => Ok db
  | x :: l' => do db' <- body db x; for_each body l' db'
  end.

(** [FacturacionService.anular_factura]; atomic as well. *)
Definition anular_factura (db : DB) (now : datetime) (factura : Factura)
  (motivo : string) (usuario : pk) (revertir_caja : bool)
  : result (DB * Factura) :=
  match estado factura with
  | anulada => Raise (ValueError "La factura ya está anulada."%string)
  | emitida =>
      let factura := set_anulada factura motivo now in
      let db := Factura_save db factura in
      do db <-
        (if revertir_caja then
           match get (sesiones_abiertas db usuario) with
           | Ok sesion =>
               do t <- factura_timbrado db factura;
               Ok (MovimientoCaja_create db now (sesion_id sesion) egreso
                     anulacion (total factura)
                     ("Anulación factura " ++ numero_completo t factura)%string
                     (Some (factura_id factura)))
           | Raise DoesNotExist => Ok db
           | Raise e => Raise e
           end
         else Ok db);
      do db <-
        for_each (cancelar_pasaje now motivo)
          (filter (fun d => isSome (detalle_pasaje d)) (factura_detalles db factura))
          db;
      Ok (db, factura)
  end.

(* ===================================================================== *)
(** ** Cash and voiding views *)
(* ===================================================================== *)

(** The levels of [django.contrib.messages]. *)
Inductive Level : Type := SUCCESS | INFO | WARNING | ERROR.

(** A flash message; [msg_monto] is a text that ends with an amount
    formatted by [{:,.0f}]. *)
Inductive Message : Type :=
| msg (lvl : Level) (text : string)
| msg_monto (lvl : Level) (text : string) (amount : Decimal).

Definition level (m : Message) : Level :=
  match m with msg l _ | msg_monto l _ _ => l end.

Inductive Response : Type :=
| Redirect (url_name : string) (arg : option pk)
| Render (template : string).

Definition dashboard : Response := Redirect "operations:caja_dashboard" None.

(** [AperturaCajaView.get] *)
Definition AperturaCajaView_get (db : DB) (user : pk) : list Message * Response :=
  if exists_ (sesiones_abiertas db user)
  then ([msg WARNING "Ya tiene una caja abierta."], dashboard)
  else ([], Render "operations/caja_apertura.html").

(** [AperturaCajaView.form_valid], with the cleaned form data. *)
Definition AperturaCajaView_form_valid (db : DB) (now : datetime) (user : pk)
  (monto_apertura_ : Decimal) (obs : string) : DB * list Message * Response :=
  let '(id, db) := fresh db in
  let sesion :=
    mkSesion id user now monto_apertura_ None None None None abierta (Some obs) in
  (set_sesiones db (sesiones db ++ [sesion_row sesion]),
   [msg_monto SUCCESS "Caja abierta con Gs. " (monto_apertura sesion)],
   dashboard).

(** [CierreCajaView.form_valid], with the cleaned form data; what the
    save raises is not caught. *)
Definition CierreCajaView_form_valid (Sum : Suma) (db : DB) (now : datetime)
  (user : pk) (monto_real : Decimal) (obs : string)
  : result (DB * list Message * Response) :=
  match get (sesiones_abiertas db user) with
  | Ok sesion =>
      do r <- cerrar Sum db now sesion monto_real obs;
      let '(db, sesion) := r in
      let dif := match diferencia sesion with Some d => d | None => Dec.zero2 end in
      let m :=
        if Dec.eqb dif (Dec.of_Z 0)
        then msg SUCCESS "Caja cerrada correctamente. Sin diferencias."
        else if Dec.gtb dif (Dec.of_Z 0)
        then msg_monto WARNING "Caja cerrada con sobrante de Gs. " dif
        else msg_monto ERROR "Caja cerrada con faltante de Gs. "
               (mkDec (Z.abs (coef dif)) (expo dif)) in
      Ok (db, [m], Redirect "operations:sesion_caja_detail" (Some (sesion_id sesion)))
  | Raise DoesNotExist =>
      Ok (db, [msg ERROR "No se encontró sesión de caja abierta."], dashboard)
  | Raise e => Raise e
  end.

(** The bound data of [MovimientoCajaForm]: the choices and the amount as
    the fields parse them, the description as it was submitted. *)
Record MovimientoCajaForm : Type := mkMovForm {
  form_tipo : MovimientoTipo;
  form_concepto : Concepto;
  form_monto : Decimal;
  form_descripcion : string
}.

(** [DecimalValidator(max_digits, decimal_places)] of a DecimalField. *)
Definition DecimalValidator (max_digits decimal_places : Z) (d : Decimal) : bool :=
  let len := Dec.ndigits (Z.abs (coef d)) in
  let '(digits, decimals) :=
    if 0 <=? expo d
    then (if coef d =? 0 then len else len + expo d, 0)
    else if - expo d >? len then (- expo d, - expo d)
    else (len, - expo d) in
  (digits <=? max_digits) && (decimals <=? decimal_places)
  && (digits - decimals <=? max_digits - decimal_places).

(** The concepts offered for manual movements ([__init__] of the form). *)
Definition concepto_manual (c : Concepto) : bool :=
  match c with
  | gasto | retiro | deposito | otro => true
  | _ => false
  end.

(** [CharField(max_length, required=True).clean]: the text is stripped,
    must not be empty, holds at most [max_length] characters and no null
    character; [None] stands for a ValidationError. *)
Definition CharField_clean (max_length : nat) (raw : string) : option string :=
  let value := strip raw in
  if (String.length value =? 0)%nat then None
  else if (max_length <? len value)%nat then None
  else if has_null value then None
  else Some value.

(** [MovimientoCajaForm.is_valid()]: the checks that the declared fields
    carry ([tipo] and [concepto] choices, [monto] with [max_digits=15] and
    [decimal_places=2], [descripcion] required with [max_length=255]). *)
Definition MovimientoCajaForm_is_valid (form : MovimientoCajaForm) : bool :=
  concepto_manual (form_concepto form)
  && DecimalValidator 15 2 (form_monto form)
  && isSome (CharField_clean 255 (form_descripcion form)).

(** [MovimientoCajaCreateView.form_valid]: the movement is built from the
    cleaned data of the form. *)
Definition MovimientoCajaCreateView_form_valid (db : DB) (now : datetime)
  (user : pk) (form : MovimientoCajaForm)
  : result (DB * list Message * Response) :=
  match get (sesiones_abiertas db user) with
  | Ok sesion =>
      let db :=
        MovimientoCaja_create db now (sesion_id sesion) (form_tipo form)
          (form_concepto form) (form_monto form)
          (strip (form_descripcion form)) None in
      Ok (db, [msg SUCCESS "Movimiento registrado exitosamente."], dashboard)
  | Raise DoesNotExist => Ok (db, [msg ERROR "No tiene caja abierta."], dashboard)
  | Raise e => Raise e
  end.

(** [MovimientoCajaCreateView.post]: an invalid form is rendered again,
    with the context of [get_context_data], which looks the open session
    up and catches [DoesNotExist] only. *)
Definition MovimientoCajaCreateView_post (db : DB) (now : datetime)
  (user : pk) (form : MovimientoCajaForm)
  : result (DB * list Message * Response) :=
  if MovimientoCajaForm_is_valid form
  then MovimientoCajaCreateView_form_valid db now user form
  else
    match get (sesiones_abiertas db user) with
    | Ok _ => Ok (db, [], Render "operations/movimiento_caja_form.html")
    | Raise DoesNotExist =>
        Ok (db, [], Render "operations/movimiento_caja_form.html")
    | Raise e => Raise e
    end.

(** [FacturaAnularView.post] for a valid form ([motivo], [revertir_caja])
    and the invoice row [factura] found by [get_object_or_404]. *)
Definition FacturaAnularView_post (db : DB) (now : datetime) (factura : Factura)
  (user : pk) (motivo : string) (revertir_caja : bool)
  : result (DB * list Message * Response) :=
  match anular_factura db now factura motivo user revertir_caja with
  | Ok (db', f) =>
      do t <- factura_timbrado db' f;
      let m1 := msg SUCCESS ("Factura " ++ numero_completo t f ++ " anulada.") in
      let ms :=
        if revertir_caja
        then [m1; msg INFO "Se registró un egreso en caja para revertir el pago."]
        else [m1] in
      Ok (db', ms, Redirect "operations:factura_detail" (Some (factura_id f)))
  | Raise (ValueError e) =>
      Ok (db, [msg ERROR e], Render "operations/factura_anulacion.html")
  | Raise e => Raise e
  end.

(* ===================================================================== *)
(** ** Amount in words *)
(* ===================================================================== *)

(** [l[i]] on a Python list, negative indices included. *)
Definition getitem {A : Type} (l : list A) (i : Z) : result A :=
  let n := Z.of_nat (List.length l) in
  let j := if i <? 0 then i + n else i in
  if (0 <=? j) && (j <? n)
  then match nth_error l (Z.to_nat j) with
       | Some x => Ok x
       | None => Raise IndexError
       end
  else Raise IndexError.

(** [s.replace(old, new)] for a non-empty [old]: [skip] counts the
    characters of a match that remain to be dropped. *)
Fixpoint replace_from (old new : string) (skip : nat) (s : string) : string :=
  match s with
  | EmptyString => EmptyString
  | String c s' =>
      match skip with
      | S k => replace_from old new k s'
      | O =>
          if String.prefix old s
          then (new ++ replace_from old new (String.length old - 1) s')%string
          else String c (replace_from old new O s')
      end
  end.

Definition replace (old new s : string) : string := replace_from old new 0 s.

Definition unidades : list string :=
  [""; "UN"; "DOS"; "TRES"; "CUATRO"; "CINCO"; "SEIS"; "SIETE"; "OCHO"; "NUEVE"]%string.

Definition decenas : list string :=
  [""; "DIEZ"; "VEINTE"; "TREINTA"; "CUARENTA"; "CINCUENTA";
   "SESENTA"; "SETENTA"; "OCHENTA"; "NOVENTA"]%string.

Definition especiales : list (Z * string) :=
  [(11, "ONCE"); (12, "DOCE"); (13, "TRECE"); (14, "CATORCE"); (15, "QUINCE");
   (16, "DIECISÉIS"); (17, "DIECISIETE"); (18, "DIECIOCHO");
   (19, "DIECINUEVE")]%string.

Definition centenas : list string :=
  [""; "CIENTO"; "DOSCIENTOS"; "TRESCIENTOS"; "CUATROCIENTOS";
   "QUINIENTOS"; "SEISCIENTOS"; "SETECIENTOS"; "OCHOCIENTOS"; "NOVECIENTOS"]%string.

(** [especiales.get(n)]: [Some] exactly when [n in especiales]. *)
Fixpoint lookup (n : Z) (d : list (Z * string)) : option string :=
  match d with
  | [] => None
  | (k, v) :: d' => if k =? n then Some v else lookup n d'
  end.

(** The part of [convertir_grupo] below the hundreds. *)
Definition convertir_resto (resultado : string) (n : Z) : result string :=
  match lookup n especiales with
  | Some e => Ok (resultado ++ e)%string
  | None =>
      if n >=? 10 then
        if n =? 20 then Ok (resultado ++ "VEINTE")%string
        else if (21 <=? n) && (n <=? 29)
        then do u <- getitem unidades (n - 20);
             Ok (resultado ++ ("VEINTI" ++ u))%string
        else
          do d <- getitem decenas (n / 10);
          let resultado := (resultado ++ d)%string in
          if n mod 10 >? 0
          then do u <- getitem unidades (n mod 10);
               Ok (resultado ++ (" Y " ++ u))%string
          else Ok resultado
      else if n >? 0
      then do u <- getitem unidades n; Ok (resultado ++ u)%string
      else Ok resultado
  end.

(** The inner function [convertir_grupo]. *)
Definition convertir_grupo (n : Z) : result string :=
  if n =? 0 then Ok ""%string
  else if n =? 100 then Ok "CIEN"%string
  else if n >=? 100 then
    do c <- getitem centenas (n / 100);
    let n := n mod 100 in
    let resultado := if n >? 0 then (c ++ " ")%string else c in
    convertir_resto resultado n
  else convertir_resto ""%string n.

Definition GUARANIES : string := " GUARANÍES"%string.

(** [FacturacionService.numero_a_letras]: the recursion of the millions
    branch is on [numero % 1000000]. *)
Equations? numero_a_letras (numero : Z) : result string
  by wf (Z.to_nat numero) lt :=
  numero_a_letras numero with Z.eq_dec numero 0 := {
    | left _ => Ok "CERO GUARANÍES"%string
    | right _ with Z_lt_dec numero 1000 := {
      | left _ =>
          do texto <- convertir_grupo numero;
          Ok (texto ++ GUARANIES)%string
      | right _ with Z_lt_dec numero 1000000 := {
        | left _ =>
            let miles := numero / 1000 in
            let resto := numero mod 1000 in
            do texto <-
              (if miles =? 1 then Ok "MIL"%string
               else do g <- convertir_grupo miles; Ok (g ++ " MIL")%string);
            do texto <-
              (if resto >? 0
               then do g <- convertir_grupo resto; Ok (texto ++ (" " ++ g))%string
               else Ok texto);
            Ok (texto ++ GUARANIES)%string
        | right _ =>
            let millones := numero / 1000000 in
            let resto := numero mod 1000000 in
            do texto <-
              (if millones =? 1 then Ok "UN MILLÓN"%string
               else do g <- convertir_grupo millones; Ok (g ++ " MILLONES")%string);
            do texto <-
              (if resto >? 0
               then do r <- numero_a_letras resto;
                    Ok (texto ++ (" " ++ replace GUARANIES "" r))%string
               else Ok texto);
            Ok (texto ++ GUARANIES)%string } } }.
Proof.
  assert (0 <= numero mod 1000000 < 1000000) by (apply Z.mod_pos_bound; lia).
  lia.
Qed.

(** The arguments of one call of [crear_factura]. *)
Record Pedido : Type := mkPedido {
  pedido_now : datetime;
  pedido_cliente : pk;
  pedido_cajero : pk;
  pedido_pasajes : list Pasaje;
  pedido_encomiendas : list Encomienda;
  pedido_condicion : Condicion;
  pedido_sesion : option SesionCaja;
  pedido_tasa : Z
}.

(** Calls of [crear_factura] on the license [t], one after the other: the
    number each call allocates, or what it raises.  A call that raises
    leaves the database as it was (the transaction is rolled back). *)
Fixpoint emitir (db : DB) (hoy : date) (t : Timbrado) (reqs : list Pedido)
  : list (result Z) :=
  match reqs with
  | [] => []
  | r :: reqs' =>
      match crear_factura db hoy (pedido_now r) (Some t) (pedido_cliente r)
              (pedido_cajero r) (pedido_pasajes r) (pedido_encomiendas r)
              (pedido_condicion r) (pedido_sesion r) (pedido_tasa r) with
      | Ok (db', f) => Ok (numero_factura f) :: emitir db' hoy t reqs'
      | Raise e => Raise e :: emitir db hoy t reqs'
      end
  end.

(** Stated from the specification of [next_number]: the candidate is
    [max(existing sequence numbers) + 1] when the license has invoices and
    its [from] value otherwise. *)
Definition spec_candidate (db : DB) (t : Timbrado) : Z :=
  match map numero_factura (timbrado_facturas db t) with
  | [] => numero_desde t
  | x :: l => fold_left Z.max l x + 1
  end.

(** Stated from the specification: [SequenceExhausted] when the candidate
    exceeds the [to] value. *)
Definition spec_next_number (db : DB) (t : Timbrado) : result Z :=
  if spec_candidate db t >? numero_hasta t
  then Raise (ValueError msg_agotado)
  else Ok (spec_candidate db t).

(** The contiguous integers [from; from + 1; ...; from + n - 1]. *)
Definition contiguos (from : Z) (n : nat) : list Z :=
  map (fun i => from + Z.of_nat i) (seq 0 n).

(** Stated from the specification: what the call number [k] (counted from
    zero) on an initially invoice-free license yields. *)
Definition spec_allocation (t : Timbrado) (k : nat) : result Z :=
  if numero_desde t + Z.of_nat k <=? numero_hasta t
  then Ok (numero_desde t + Z.of_nat k)
  else Raise (ValueError msg_agotado).

(** Every call brings at least one ticket or parcel. *)
Definition con_items (r : Pedido) : Prop :=
  pedido_pasajes r <> [] \/ pedido_encomiendas r <> [].

(** What a [DecimalField(max_digits=15, decimal_places=2)] column can
    hold. *)
Definition stored_amount (d : Decimal) : Prop :=
  expo d = -2 /\ Z.abs (coef d) < 10 ^ 15.

(** What a row of [Factura] holds: its seven amounts are column values. *)
Definition factura_guardada (f : Factura) : Prop :=
  stored_amount (subtotal_exenta f) /\ stored_amount (subtotal_iva5 f)
  /\ stored_amount (subtotal_iva10 f) /\ stored_amount (total f)
  /\ stored_amount (iva_5 f) /\ stored_amount (iva_10 f)
  /\ stored_amount (total_iva f).

(** What a row of [Pasaje] holds: [precio] is a
    [DecimalField(max_digits=12, decimal_places=2)]. *)
Definition pasaje_guardado (p : Pasaje) : Prop :=
  expo (pasaje_precio p) = -2 /\ Z.abs (coef (pasaje_precio p)) < 10 ^ 12.

(** The sum of the coefficients of the line subtotals of one tax band. *)
Definition suma_banda (tasa : Z) (ds : list DetalleFactura) : Z :=
  fold_right Z.add 0
    (map (fun d => coef (subtotal d)) (filter (fun d => tasa_iva d =? tasa) ds)).

(** The sum of the magnitudes of all line subtotals. *)
Definition suma_abs (ds : list DetalleFactura) : Z :=
  fold_right Z.add 0 (map (fun d => Z.abs (coef (subtotal d))) ds).

(** The tax bands of the model. *)
Definition banda (d : DetalleFactura) : Prop :=
  tasa_iva d = 0 \/ tasa_iva d = 5 \/ tasa_iva d = 10.

(** [q] is the quotient of [n] hundredths by the integer [b], rounded to
    at most 28 significant digits: it lies at an exponent [e <= -2] and
    differs from [n / b] hundredths by at most half a unit of its last
    digit. *)
Definition quotient_at_precision (n b : Z) (q : Decimal) : Prop :=
  Z.abs (coef q) < 10 ^ 28
  /\ expo q <= -2
  /\ 2 * Z.abs (coef q * b - n * 10 ^ (-2 - expo q)) <= b.

(** Stated from the specification: an amount "rounded to 2 decimals" is a
    whole number of hundredths. *)
Definition two_decimals (d : Decimal) : Prop :=
  exists c : Z, Dec.eqb d (mkDec c (-2)) = true.

(** The licenses the lookup may return: active, today inside the validity
    window, of the given company when one is supplied. *)
Definition candidato_vigente (hoy : date) (emp : option pk) (t : Timbrado) : Prop :=
  activo t = true
  /\ fecha_inicio t <= hoy <= fecha_fin t
  /\ (forall e, emp = Some e -> empresa t = e).

(** The sum, in hundredths, of the movements of one direction. *)
Definition suma_montos (tipo : MovimientoTipo) (ms : list MovimientoCaja) : Z :=
  fold_right Z.add 0
    (map (fun m => coef (monto m))
       (filter (fun m => MovimientoTipo_eqb (mov_tipo m) tipo) ms)).

(** The sum of the magnitudes of the movements. *)
Definition magnitud (ms : list MovimientoCaja) : Z :=
  fold_right Z.add 0 (map (fun m => Z.abs (coef (monto m))) ms).

(** The Decimal [d] is numerically [n] hundredths. *)
Definition vale (d : Decimal) (n : Z) : Prop :=
  Dec.eqb d (mkDec n (-2)) = true.

(** What the operations ask of the backend: its sum over the movements
    [ms] is numerically their exact sum. *)
Definition suma_fiel (Sum : Suma) (ms : list MovimientoCaja) : Prop :=
  ms <> [] ->
  vale (Sum (map monto ms))
       (fold_right Z.add 0 (map (fun m => coef (monto m)) ms)).

(** Stated from the specification of [compute_expected_close], in
    hundredths: [opening_amount + sum(income) - sum(egress)]. *)
Definition spec_expected_close (db : DB) (s : SesionCaja) : Z :=
  coef (monto_apertura s)
  + suma_montos ingreso (sesion_movimientos db s)
  - suma_montos egreso (sesion_movimientos db s).

(** The line [d] refers to the ticket [p]. *)
Definition refiere (p : Pasaje) (d : DetalleFactura) : bool :=
  match detalle_pasaje d with
  | Some pid => pid =? pasaje_id p
  | None => false
  end.

(** Some line of [ds] refers to the ticket [p]. *)
Definition referenced (ds : list DetalleFactura) (p : Pasaje) : bool :=
  existsb (refiere p) ds.

(** The ticket table after voiding an invoice with the lines [ds]. *)
Definition cancelar_referidos (now : datetime) (motivo : string)
  (ds : list DetalleFactura) (p : Pasaje) : Pasaje :=
  if referenced ds p then Pasaje_cancelado now motivo p else p.

(** Referential integrity of the foreign key [detalle.pasaje]: the ticket a
    line refers to is one row of the ticket table. *)
Definition fk_pasaje_ok (db : DB) (d : DetalleFactura) : Prop :=
  match detalle_pasaje d with
  | Some pid => exists p, filter (fun p => pasaje_id p =? pid) (pasajes db) = [p]
  | None => True
  end.

(** The egress movement that reverses the invoice [f] of the license [t]
    in the session [s]. *)
Definition movimiento_anulacion (db : DB) (now : datetime) (s : SesionCaja)
  (t : Timbrado) (f : Factura) : MovimientoCaja :=
  mkMovimiento (next_pk db) (sesion_id s) egreso anulacion
    (Dec.stored (total f))
    ("Anulación factura " ++ numero_completo t f)%string
    (Some (factura_id f)) now.

(** Two databases that differ in the ticket table at most. *)
Definition solo_pasajes (db db' : DB) : Prop :=
  timbrados db' = timbrados db /\ facturas db' = facturas db
  /\ detalles db' = detalles db /\ sesiones db' = sesiones db
  /\ movimientos db' = movimientos db /\ encomiendas db' = encomiendas db
  /\ next_pk db' = next_pk db.

Definition is_ok {A : Type} (r : result A) : bool :=
  match r with Ok _ => true | Raise _ => false end.

(** [max] of a non-empty list of numbers. *)
Definition maximo (x : Z) (l : list Z) : Z := fold_left Z.max l x.

(** Primary keys in use lie below the next one to be handed out. *)
Definition facturas_pk_ok (db : DB) : Prop :=
  forall f, In f (facturas db) -> factura_id f < next_pk db.

(** The license [t] has issued exactly the first [n] numbers of its range,
    in order. *)
Definition issued (t : Timbrado) (db : DB) (n : nat) : Prop :=
  facturas_pk_ok db
  /\ map numero_factura (timbrado_facturas db t) = contiguos (numero_desde t) n.

(** A step that leaves the invoice table alone and hands out keys in
    increasing order. *)
Definition keeps_facturas (db db' : DB) : Prop :=
  facturas db' = facturas db /\ next_pk db <= next_pk db'.

(* ===================================================================== *)
(** ** Scenarios *)
(* ===================================================================== *)

Definition db_vacia : DB := mkDB [] [] [] [] [] [] [] 1.

(** Scenario A: a license with the range [1, 3], current on day 100, and
    four invoices of one ticket each. *)
Definition timbrado_A : Timbrado :=
  mkTimbrado 1 1 "12345678" 1 365 1 3 "001-001" true.

Definition pasaje_A : Pasaje :=
  mkPasaje 1 "Asunción" "Encarnación" (mkDec 8000000 (-2)) pasaje_vendido
    None None.

Definition db_A : DB := mkDB [timbrado_A] [] [] [] [] [pasaje_A] [] 2.

Definition pedido_A : Pedido :=
  mkPedido 1000 5 7 [pasaje_A] [] contado None 0.

(** Scenario B: a session opened with 100000, an income of 50000 and an
    egress of 20000. *)
Definition sesion_B : SesionCaja :=
  mkSesion 1 7 500 (mkDec 10000000 (-2)) None None None None abierta (Some ""%string).

Definition db_B : DB :=
  mkDB [] [] [] [sesion_B]
    [mkMovimiento 2 1 ingreso venta_pasaje (mkDec 5000000 (-2)) "Pasaje" None 510;
     mkMovimiento 3 1 egreso gasto (mkDec 2000000 (-2)) "Combustible" None 520]
    [] [] 4.

(** A manual movement of minus 5000 and one of zero. *)
Definition form_negativo : MovimientoCajaForm :=
  mkMovForm egreso gasto (mkDec (-500000) (-2)) "ajuste".

Definition form_cero : MovimientoCajaForm :=
  mkMovForm ingreso otro (mkDec 0 (-2)) "nada".

Definition form_negar (form : MovimientoCajaForm) : MovimientoCajaForm :=
  mkMovForm (form_tipo form) (form_concepto form) (Dec.neg (form_monto form))
    (form_descripcion form).

(** Scenario D: an issued invoice of one ticket and one parcel; the
    cashier 7 of scenario B has an open session, the cashier 8 has none. *)
Definition encomienda_D : Encomienda :=
  mkEncomienda 1 "paquete" "ENC-20250101-AB12" (mkDec 5500000 (-2)) enc_en_transito.

Definition factura_D : Factura :=
  mkFactura 10 1 1 5 contado 400
    (mkDec 8000000 (-2)) (mkDec 0 (-2)) (mkDec 5500000 (-2))
    (mkDec 13500000 (-2)) (mkDec 0 (-2)) (mkDec 500000 (-2)) (mkDec 500000 (-2))
    emitida 7 None None None.

Definition db_D : DB :=
  mkDB [timbrado_A] [factura_D]
    [mkDetalle 11 10 (mkDec 100 (-2)) "Pasaje Asunción - Encarnación"
       (mkDec 8000000 (-2)) 0 (mkDec 8000000 (-2)) (Some 1) None;
     mkDetalle 12 10 (mkDec 100 (-2)) "Encomienda paquete - ENC-20250101-AB12"
       (mkDec 5500000 (-2)) 10 (mkDec 5500000 (-2)) None (Some 1)]
    [sesion_B] [] [pasaje_A] [encomienda_D] 20.

(** Scenario C: an invoice of one line in the 10% band, 110000 tax
    included. *)
Definition factura_C : Factura :=
  mkFactura 30 1 2 5 contado 400
    Dec.zero2 Dec.zero2 Dec.zero2 Dec.zero2 Dec.zero2 Dec.zero2 Dec.zero2
    emitida 7 None None None.

Definition db_C : DB :=
  mkDB [timbrado_A] [factura_C]
    [mkDetalle 31 30 (mkDec 100 (-2)) "Encomienda carga - ENC-20250101-CD34"
       (mkDec 11000000 (-2)) 10 (mkDec 11000000 (-2)) None (Some 1)]
    [] [] [] [encomienda_D] 40.

(** Scenario E: an invoice of two lines, 0.09 in the 5% band and 0.05 in
    the 10% band. *)
Definition db_E : DB :=
  mkDB [timbrado_A] [factura_C]
    [mkDetalle 31 30 (mkDec 100 (-2)) "Pasaje A - B"
       (mkDec 9 (-2)) 5 (mkDec 9 (-2)) (Some 1) None;
     mkDetalle 32 30 (mkDec 100 (-2)) "Encomienda paquete - ENC-20250101-AB12"
       (mkDec 5 (-2)) 10 (mkDec 5 (-2)) None (Some 1)]
    [] [] [pasaje_A] [encomienda_D] 40.

(* ===================================================================== *)
(** ** Further operations *)
(* ===================================================================== *)

(** The step of the first loop of [crear_factura]: the line of one ticket. *)
Definition agregar_pasaje (factura : Factura) (tasa : Z) (db : DB) (p : Pasaje)
  : DB :=
  DetalleFactura_create db factura (Dec.of_Z 1)
    ("Pasaje " ++ pasaje_origen p ++ " - " ++ pasaje_destino p)%string
    (pasaje_precio p) tasa (Some (pasaje_id p)) None.

(** The step of the second loop: the line of one parcel. *)
Definition agregar_encomienda (factura : Factura) (db : DB) (e : Encomienda)
  : DB :=
  DetalleFactura_create db factura (Dec.of_Z 1)
    ("Encomienda " ++ enc_tipo e ++ " - " ++ enc_codigo e)%string
    (enc_precio e) 10 None (Some (enc_id e)).

(** The invoice line of the ticket [p]: quantity 1.00, the ticket's price as
    unit price and as subtotal, the tax band [tasa]. *)
Definition linea_pasaje (fid : pk) (tasa : Z) (id : pk) (p : Pasaje)
  : DetalleFactura :=
  mkDetalle id fid (mkDec 100 (-2))
    ("Pasaje " ++ pasaje_origen p ++ " - " ++ pasaje_destino p)%string
    (pasaje_precio p) tasa (pasaje_precio p) (Some (pasaje_id p)) None.

(** The invoice line of the parcel [e], in the 10% band. *)
Definition linea_encomienda (fid : pk) (id : pk) (e : Encomienda)
  : DetalleFactura :=
  mkDetalle id fid (mkDec 100 (-2))
    ("Encomienda " ++ enc_tipo e ++ " - " ++ enc_codigo e)%string
    (enc_precio e) 10 (enc_precio e) None (Some (enc_id e)).

(** Rows made from the items of [l], with consecutive primary keys from
    [id] on. *)
Fixpoint numeradas {A B : Type} (mk : pk -> A -> B) (id : pk) (l : list A)
  : list B :=
  match l with
  | [] => []
  | x :: l' => mk id x :: numeradas mk (id + 1) l'
  end.

(** The sums, in hundredths, of the prices of tickets and of parcels. *)
Definition suma_pasajes (ps : list Pasaje) : Z :=
  fold_right Z.add 0 (map (fun p => coef (pasaje_precio p)) ps).

Definition suma_encomiendas (es : list Encomienda) : Z :=
  fold_right Z.add 0 (map (fun e => coef (enc_precio e)) es).

(** Referential integrity of [detalle.factura]: lines belong to invoices
    that exist, whose keys lie below the next one to be handed out. *)
Definition detalles_fk_ok (db : DB) : Prop :=
  forall d, In d (detalles db) -> detalle_factura d < next_pk db.

(** The concept and the prefix of the description of the movement of a
    sale, by what the invoice holds. *)
Definition concepto_venta (ps : list Pasaje) (es : list Encomienda)
  : Concepto * string :=
  match ps, es with
  | _ :: _, _ :: _ => (otro, "Venta ")
  | _ :: _, [] => (venta_pasaje, "Pasaje ")
  | [], _ => (venta_encomienda, "Encomienda ")
  end%string.

(** The movements that [crear_factura] posts for the session handed in. *)
Definition movimiento_venta (db : DB) (now : datetime) (ses : option SesionCaja)
  (t : Timbrado) (f : Factura) (ps : list Pasaje) (es : list Encomienda)
  : list MovimientoCaja :=
  match ses with
  | Some s =>
      if SesionEstado_eqb (sesion_estado s) abierta
      then [mkMovimiento
              (next_pk db + 1 + Z.of_nat (List.length ps + List.length es))
              (sesion_id s) ingreso (fst (concepto_venta ps es)) (total f)
              (snd (concepto_venta ps es) ++ numero_completo t f)
              (Some (factura_id f)) now]
      else []
  | None => []
  end.

(** The invoice that [crear_factura] returns for the number [n]. *)
Definition factura_emitida (db : DB) (now : datetime) (t : Timbrado) (n : Z)
  (cl : pk) (cond : Condicion) (cj : pk) (ses : option SesionCaja)
  (ps : list Pasaje) (es : list Encomienda) (tasa : Z) : Factura :=
  let sp := suma_pasajes ps in
  let se := suma_encomiendas es in
  let ex := if tasa =? 0 then sp else 0 in
  let s5 := if tasa =? 5 then sp else 0 in
  let s10 := (if tasa =? 10 then sp else 0) + se in
  mkFactura (next_pk db) (timbrado_id t) n cl cond now
    (mkDec ex (-2)) (mkDec s5 (-2)) (mkDec s10 (-2)) (mkDec (ex + s5 + s10) (-2))
    (Dec.div (mkDec (s5 * 5) (-2)) (Dec.of_Z 105))
    (Dec.div (mkDec (s10 * 10) (-2)) (Dec.of_Z 110))
    (Dec.add (Dec.div (mkDec (s5 * 5) (-2)) (Dec.of_Z 105))
             (Dec.div (mkDec (s10 * 10) (-2)) (Dec.of_Z 110)))
    emitida cj
    (match ses with Some s => Some (sesion_id s) | None => None end)
    None None.

(** The lines that [crear_factura] writes for the tickets [ps] and the
    parcels [es], in the order and with the keys of their INSERTs. *)
Definition lineas_factura (db : DB) (ps : list Pasaje) (es : list Encomienda)
  (tasa : Z) : list DetalleFactura :=
  numeradas (linea_pasaje (next_pk db) tasa) (next_pk db + 1) ps
  ++ numeradas (linea_encomienda (next_pk db))
       (next_pk db + 1 + Z.of_nat (List.length ps)) es.

(** The sum of the magnitudes of the prices of the items, in hundredths. *)
Definition magnitud_items (ps : list Pasaje) (es : list Encomienda) : Z :=
  fold_right Z.add 0 (map (fun p => Z.abs (coef (pasaje_precio p))) ps)
  + fold_right Z.add 0 (map (fun e => Z.abs (coef (enc_precio e))) es).

(** The constraint [unique_together = ['timbrado', 'numero_factura']]. *)
Definition numeros_unicos (db : DB) : Prop :=
  NoDup (map (fun f => (timbrado f, numero_factura f)) (facturas db)).

(** The invoices of the license [t] carry numbers of its range. *)
Definition numeros_en_rango (db : DB) (t : Timbrado) : Prop :=
  forall f, In f (timbrado_facturas db t) ->
    numero_desde t <= numero_factura f <= numero_hasta t.

(** Scenario F: scenario A with the open session of scenario B and a
    parcel. *)
Definition db_F : DB :=
  mkDB [timbrado_A] [] [] [sesion_B] [] [pasaje_A] [encomienda_D] 5.


(** The JSON answers of [TimbradoSiguienteNumeroView.get]: the number,
    with status 200, or an error with its status. *)
Inductive JsonResponse : Type :=
| JsonNumero (numero : string) (numero_raw : Z)
| JsonError (error : string) (status : Z).

(** [TimbradoSiguienteNumeroView.get] for the license row [t] found by
    [get_object_or_404]. *)
Definition TimbradoSiguienteNumeroView_get (db : DB) (t : Timbrado)
  : result JsonResponse :=
  match get_siguiente_numero db t with
  | Ok numero =>
      Ok (JsonNumero (punto_expedicion t ++ "-" ++ format_07d numero) numero)
  | Raise (ValueError e) => Ok (JsonError e 400)
  | Raise e => Raise e
  end.

(** The entries of the context of [CajaDashboardView] about the open
    session: [sesion_abierta], [sesion] and [total_actual]. *)
Record CajaContext : Type := mkCajaContext {
  ctx_sesion_abierta : bool;
  ctx_sesion : option SesionCaja;
  ctx_total_actual : option Decimal
}.

(** [CajaDashboardView.get_context_data], without its two listings
    ([movimientos] and [sesiones_recientes]). *)
Definition CajaDashboardView_get_context_data (Sum : Suma) (db : DB) (user : pk)
  : result CajaContext :=
  match get (sesiones_abiertas db user) with
  | Ok sesion =>
      Ok (mkCajaContext true (Some sesion)
            (Some (Dec.sub (Dec.add (monto_apertura sesion)
                                    (total_ingresos Sum db sesion))
                           (total_egresos Sum db sesion))))
  | Raise DoesNotExist => Ok (mkCajaContext false None None)
  | Raise e => Raise e
  end.

(** [int(d)]: the integral part, truncated towards zero. *)
Definition int_ (d : Decimal) : Z :=
  if 0 <=? expo d then coef d * 10 ^ expo d
  else Z.quot (coef d) (10 ^ (- expo d)).

(** The entry [total_letras] of the context that
    [TicketService.preparar_contexto_ticket] and
    [FacturacionService.generar_pdf_factura] build. *)
Definition total_letras (f : Factura) : result string :=
  numero_a_letras (int_ (total f)).

(** [PasajeCancelacionView.post] for a valid form ([motivo],
    [devolver_dinero]) and the ticket row [pasaje] found by
    [get_object_or_404]; [codigo] is [pasaje.codigo], which the record of
    the model does not carry.  The view looks at no status of the
    ticket. *)
Definition PasajeCancelacionView_post (db : DB) (now : datetime) (user : pk)
  (pasaje : Pasaje) (codigo : string) (motivo : string)
  (devolver_dinero : bool) : result (DB * list Message * Response) :=
  let pasaje :=
    mkPasaje (pasaje_id pasaje) (pasaje_origen pasaje) (pasaje_destino pasaje)
      (pasaje_precio pasaje) pasaje_cancelado (Some now) (Some motivo) in
  let db :=
    set_pasajes db
      (save_row pasaje_id
         (mkPasaje (pasaje_id pasaje) (pasaje_origen pasaje)
            (pasaje_destino pasaje) (Dec.stored (pasaje_precio pasaje))
            (pasaje_estado pasaje) (pasaje_fecha_cancelacion pasaje)
            (pasaje_motivo_cancelacion pasaje))
         (pasajes db)) in
  if devolver_dinero then
    match get (sesiones_abiertas db user) with
    | Ok sesion_caja =>
        let db :=
          MovimientoCaja_create db now (sesion_id sesion_caja) egreso
            devolucion (pasaje_precio pasaje)
            ("Devolución pasaje " ++ codigo)%string None in
        Ok (db,
            [msg_monto SUCCESS "Pasaje cancelado y dinero devuelto: Gs. "
               (pasaje_precio pasaje)],
            Redirect "operations:pasaje_list" None)
    | Raise DoesNotExist =>
        Ok (db,
            [msg WARNING
               "Pasaje cancelado pero no hay caja abierta para registrar devolución."],
            Redirect "operations:pasaje_list" None)
    | Raise e => Raise e
    end
  else
    Ok (db, [msg SUCCESS "Pasaje cancelado exitosamente."],
        Redirect "operations:pasaje_list" None).

(** [TimbradoForm.clean]: the checks across the fields of the cleaned
    data, where a field that failed its own validation is missing
    ([None]); the tests are Python truth tests, so a number that is zero
    counts as missing.  [Some m] stands for [ValidationError(m)]. *)
Definition TimbradoForm_clean (fecha_inicio_ fecha_fin_ : option date)
  (numero_desde_ numero_hasta_ : option Z) : option string :=
  if match fecha_inicio_, fecha_fin_ with
     | Some fi, Some ff => fi >? ff
     | _, _ => false
     end
  then Some "La fecha de inicio debe ser anterior a la fecha de fin."%string
  else if match numero_desde_, numero_hasta_ with
          | Some nd, Some nh => negb (nd =? 0) && negb (nh =? 0) && (nd >? nh)
          | _, _ => false
          end
  then Some "El número inicial debe ser menor al número final."%string
  else None.

(** [FacturaForm.clean]: at least one ticket or parcel must be chosen. *)
Definition FacturaForm_clean (pasajes_ : list Pasaje)
  (encomiendas_ : list Encomienda) : option string :=
  if negb (exists_ pasajes_) && negb (exists_ encomiendas_)
  then Some "Debe seleccionar al menos un pasaje o encomienda para facturar."%string
  else None.

(** Scenario G: the cashier 7 of scenario B has POSTed the opening form
    again and holds two open sessions. *)
Definition db_G : DB :=
  fst (fst (AperturaCajaView_form_valid db_B 700 7 (mkDec 5000000 (-2)) "")).

(** An invoice of one thousand million, and the database that holds it. *)
Definition factura_H : Factura :=
  mkFactura 50 1 3 5 contado 400
    (mkDec 100000000000 (-2)) (mkDec 0 (-2)) (mkDec 0 (-2))
    (mkDec 100000000000 (-2)) (mkDec 0 (-2)) (mkDec 0 (-2)) (mkDec 0 (-2))
    emitida 7 None None None.

(* ===================================================================== *)
(** * Properties *)
(* ===================================================================== *)

(** ** Querysets *)

Section Querysets.
Context {A : Type}.

Lemma insert_by_In (before : A -> A -> bool) (x y : A) (l : list A) :
  In y (insert_by before x l) <-> y = x \/ In y l.
Proof.
  induction l as [|z l IH]; simpl.
  - intuition.
  - destruct (before z x); simpl; [rewrite IH|]; intuition.
Qed.

Lemma order_by_In (before : A -> A -> bool) (y : A) (l : list A) :
  In y (order_by before l) <-> In y l.
Proof.
  induction l as [|x l IH]; simpl; [tauto|].
  unfold order_by in *. simpl. rewrite insert_by_In, IH. intuition.
Qed.

Lemma first_None (l : list A) : first l = None <-> l = [].
Proof. destruct l; simpl; split; congruence. Qed.

Lemma order_by_nil (before : A -> A -> bool) (l : list A) :
  order_by before l = [] <-> l = [].
Proof.
  split; intros H; [|subst; reflexivity].
  destruct l as [|x l]; [reflexivity|].
  assert (In x (order_by before (x :: l))) as Hin
      by (apply order_by_In; left; reflexivity).
  rewrite H in Hin. destruct Hin.
Qed.

Variable key : A -> Z.

(** The head of a list sorted in descending order is a maximum. *)
Lemma insert_desc_head (x : A) (l : list A) (u : A) :
  (forall h, first l = Some h -> forall y, In y l -> key y <= key h) ->
  first (insert_by (desc key) x l) = Some u ->
  forall y, In y (insert_by (desc key) x l) -> key y <= key u.
Proof.
  intros Hl Hu y Hy.
  destruct l as [|z l]; simpl in *.
  - inversion Hu; subst. destruct Hy as [->|[]]. lia.
  - unfold desc in *. destruct (key x <? key z) eqn:E.
    + simpl in Hu. inversion Hu; subst u.
      apply Z.ltb_lt in E.
      simpl in Hy. destruct Hy as [->|Hy]; [lia|].
      apply insert_by_In in Hy. destruct Hy as [->|Hy]; [lia|].
      apply (Hl z eq_refl). right. exact Hy.
    + simpl in Hu. inversion Hu; subst u.
      apply Z.ltb_ge in E.
      simpl in Hy. destruct Hy as [->|Hy]; [lia|].
      specialize (Hl z eq_refl y Hy). lia.
Qed.

Lemma order_by_desc_first (l : list A) (u : A) :
  first (order_by (desc key) l) = Some u ->
  In u l /\ forall y, In y l -> key y <= key u.
Proof.
  revert u. induction l as [|x l IH]; intros u Hu; [discriminate|].
  split.
  - apply (order_by_In (desc key)).
    destruct (order_by (desc key) (x :: l)); inversion Hu; subst. left; reflexivity.
  - intros y Hy. unfold order_by in Hu. simpl in Hu.
    apply (insert_desc_head x (order_by (desc key) l) u); auto.
    + intros h Hh y' Hy'. apply IH in Hh. apply Hh.
      apply (order_by_In (desc key)). exact Hy'.
    + apply insert_by_In. destruct Hy as [->|Hy]; [left; reflexivity|].
      right. apply (order_by_In (desc key)). exact Hy.
Qed.

(** The maximum of the keys, written as a fold. *)
Lemma maximo_spec (x : Z) (l : list Z) :
  In (maximo x l) (x :: l) /\ forall y, In y (x :: l) -> y <= maximo x l.
Proof.
  unfold maximo. revert x. induction l as [|z l IH]; intros x; simpl.
  - split; [auto|]. intros y [->|[]]. lia.
  - destruct (IH (Z.max x z)) as [Hin Hmax]. split.
    + simpl in Hin. destruct Hin as [Hin|Hin]; [|auto].
      rewrite <- Hin. destruct (Z.max_spec x z) as [[_ ->]|[_ ->]]; auto.
    + intros y Hy. 
      assert (Z.max x z <= fold_left Z.max l (Z.max x z))
        by (apply Hmax; left; reflexivity).
      destruct Hy as [->|[->|Hy]]; [lia|lia|].
      apply Hmax. right. exact Hy.
Qed.

End Querysets.

(** ** Fiscal sequence *)

Section FiscalSequence.

Lemma get_siguiente_numero_refines (db : DB) (t : Timbrado) :
  get_siguiente_numero db t = spec_next_number db t.
Proof.
  unfold get_siguiente_numero, spec_next_number, spec_candidate.
  destruct (first (order_by (desc numero_factura) (timbrado_facturas db t)))
    as [u|] eqn:Hu.
  - apply (order_by_desc_first numero_factura) in Hu. destruct Hu as [Hin Hmax].
    destruct (timbrado_facturas db t) as [|f fs] eqn:Hfs; [destruct Hin|].
    simpl map. cbv iota.
    destruct (maximo_spec (numero_factura f) (map numero_factura fs)) as [Min Mmax].
    unfold maximo in *.
    enough (numero_factura u = fold_left Z.max (map numero_factura fs) (numero_factura f))
      as -> by reflexivity.
    apply Z.le_antisymm.
    + apply Mmax. change (In (numero_factura u) (map numero_factura (f :: fs))).
      apply in_map. exact Hin.
    + change (In (fold_left Z.max (map numero_factura fs) (numero_factura f))
                (map numero_factura (f :: fs))) in Min.
      apply in_map_iff in Min. destruct Min as [y [<- Hy]]. apply Hmax, Hy.
  - apply first_None, order_by_nil in Hu. rewrite Hu. reflexivity.
Qed.

Lemma contiguos_snoc (from : Z) (n : nat) :
  contiguos from (S n) = contiguos from n ++ [from + Z.of_nat n].
Proof.
  unfold contiguos. rewrite seq_S, map_app. reflexivity.
Qed.

Lemma fold_max_contiguos (from : Z) (n : nat) :
  fold_left Z.max (map (fun i => from + Z.of_nat i) (seq 1 n)) from
  = from + Z.of_nat n.
Proof.
  induction n as [|n IH].
  - simpl. lia.
  - rewrite seq_S, map_app, fold_left_app, IH. simpl. lia.
Qed.

(** After [n] allocations from an invoice-free license the candidate is
    [from + n]. *)
Lemma spec_candidate_contiguos (db : DB) (t : Timbrado) (n : nat) :
  map numero_factura (timbrado_facturas db t) = contiguos (numero_desde t) n ->
  spec_candidate db t = numero_desde t + Z.of_nat n.
Proof.
  intros H. unfold spec_candidate. rewrite H.
  destruct n as [|n]; simpl.
  - lia.
  - unfold contiguos. simpl. rewrite Z.add_0_r.
    rewrite fold_max_contiguos. lia.
Qed.

End FiscalSequence.

(** ** Invoice creation *)

Section Creation.

Lemma keeps_facturas_refl db : keeps_facturas db db.
Proof. split; [reflexivity|lia]. Qed.

Lemma keeps_facturas_trans db1 db2 db3 :
  keeps_facturas db1 db2 -> keeps_facturas db2 db3 -> keeps_facturas db1 db3.
Proof. intros [H1 H2] [H3 H4]. split; [congruence|lia]. Qed.

Lemma DetalleFactura_create_keeps db f c d p tasa a b :
  keeps_facturas db (DetalleFactura_create db f c d p tasa a b).
Proof. split; simpl; [reflexivity|lia]. Qed.

Lemma MovimientoCaja_create_keeps db now s tipo c m d f :
  keeps_facturas db (MovimientoCaja_create db now s tipo c m d f).
Proof. split; simpl; [reflexivity|lia]. Qed.

Lemma registrar_movimiento_caja_keeps db now s t f tipo :
  keeps_facturas db (registrar_movimiento_caja db now s t f tipo).
Proof.
  unfold registrar_movimiento_caja.
  destruct (_ && _); [|destruct (exists_ _)]; apply MovimientoCaja_create_keeps.
Qed.

Lemma fold_keeps {A : Type} (step : DB -> A -> DB) (l : list A) :
  (forall db x, keeps_facturas db (step db x)) ->
  forall db, keeps_facturas db (fold_left step l db).
Proof.
  intros Hstep. induction l as [|x l IH]; intros db; simpl.
  - apply keeps_facturas_refl.
  - eapply keeps_facturas_trans; [apply Hstep|apply IH].
Qed.

(** Saving a row whose key is the last one of the table and occurs
    nowhere else replaces that row. *)
Lemma save_row_last {A : Type} (key : A -> pk) (x y : A) (l : list A) :
  key x = key y ->
  (forall z, In z l -> key z <> key y) ->
  save_row key x (l ++ [y]) = l ++ [x].
Proof.
  intros Hk Hl. unfold save_row.
  replace (existsb (fun z => key z =? key x) (l ++ [y])) with true.
  - rewrite map_app. simpl. rewrite Hk, Z.eqb_refl. f_equal.
    rewrite <- (map_id l) at 2. apply map_ext_in. intros z Hz.
    destruct (key z =? key y) eqn:E; [|reflexivity].
    apply Z.eqb_eq in E. destruct (Hl z Hz E).
  - symmetry. apply existsb_exists. exists y. split.
    + apply in_or_app. right. left. reflexivity.
    + rewrite Hk. apply Z.eqb_refl.
Qed.

Lemma calcular_totales_fields db f :
  factura_id (calcular_totales db f) = factura_id f
  /\ timbrado (calcular_totales db f) = timbrado f
  /\ numero_factura (calcular_totales db f) = numero_factura f
  /\ estado (calcular_totales db f) = estado f.
Proof.
  unfold calcular_totales.
  destruct (fold_left acumular _ _) as [[ex s5] s10]. simpl. auto.
Qed.

Lemma Factura_create_spec db now t0 n cl cond cj ses :
  let '(db1, f0) := Factura_create db now t0 n cl cond cj ses in
  facturas db1 = facturas db ++ [f0]
  /\ next_pk db1 = next_pk db + 1
  /\ factura_id f0 = next_pk db
  /\ numero_factura f0 = n
  /\ timbrado f0 = timbrado_id t0
  /\ estado f0 = emitida.
Proof. simpl. auto 10. Qed.

Variables (hoy : date) (t : Timbrado).
Hypothesis vigente : esta_vigente hoy t = true.

Lemma validar_timbrado_vigente db :
  validar_timbrado db hoy (Some t) =
  match get_siguiente_numero db t with
  | Ok _ => Ok (true, None)
  | Raise (ValueError e) => Ok (false, Some e)
  | Raise e => Raise e
  end.
Proof. unfold validar_timbrado. rewrite vigente. reflexivity. Qed.

(** An exhausted license: [crear_factura] raises and nothing is written. *)
Lemma crear_factura_agotado db now cl cj ps es cond ses tasa :
  get_siguiente_numero db t = Raise (ValueError msg_agotado) ->
  crear_factura db hoy now (Some t) cl cj ps es cond ses tasa
  = Raise (ValueError msg_agotado).
Proof.
  intros H. unfold crear_factura. rewrite validar_timbrado_vigente, H.
  reflexivity.
Qed.

(** A successful call appends one invoice row, carrying the number that
    [get_siguiente_numero] returned. *)
Lemma crear_factura_ok db now cl cj ps es cond ses tasa n :
  facturas_pk_ok db ->
  (ps <> [] \/ es <> []) ->
  get_siguiente_numero db t = Ok n ->
  exists db' f,
    crear_factura db hoy now (Some t) cl cj ps es cond ses tasa = Ok (db', f)
    /\ numero_factura f = n
    /\ timbrado f = timbrado_id t
    /\ estado f = emitida
    /\ facturas db' = facturas db ++ [factura_row f]
    /\ facturas_pk_ok db'.
Proof.
  intros Hpk Hitems Hn. unfold crear_factura.
  rewrite validar_timbrado_vigente, Hn. cbn [bind].
  assert (forall X (k : result X),
    match ps, es with
    | [], [] => Raise (ValueError "Debe incluir al menos un pasaje o encomienda."%string)
    | _, _ => k
    end = k) as Hskip.
  { intros X k. destruct ps; [destruct es|]; try reflexivity.
    destruct Hitems as [H|H]; congruence. }
  rewrite Hskip. clear Hskip. cbn [bind].
  pose proof (Factura_create_spec db now t n cl cond cj ses) as Hcreate.
  destruct (Factura_create db now t n cl cond cj ses) as [db1 f0].
  destruct Hcreate as (Hf1 & Hp1 & Hid0 & Hnu0 & Hti0 & Hes0).
  set (db2 := fold_left _ ps db1).
  set (db3 := fold_left _ es db2).
  set (f := calcular_totales db3 f0).
  assert (keeps_facturas db1 db3) as [Hf3 Hp3].
  { apply (keeps_facturas_trans db1 db2 db3); [subst db2|subst db3];
      apply fold_keeps; intros; apply DetalleFactura_create_keeps. }
  destruct (calcular_totales_fields db3 f0) as (Hid & Hti & Hnu & Hes).
  fold f in Hid, Hti, Hnu, Hes.
  assert (facturas (Factura_save db3 f) = facturas db ++ [factura_row f]) as Hsave.
  { unfold Factura_save. simpl. rewrite Hf3, Hf1.
    apply save_row_last.
    - simpl. exact Hid.
    - intros z Hz. apply Hpk in Hz. lia. }
  assert (next_pk db < next_pk (Factura_save db3 f)) as Hnext.
  { simpl. lia. }
  set (db4 := Factura_save db3 f) in *.
  match goal with |- exists db' f', Ok (?d, _) = _ /\ _ =>
    assert (keeps_facturas db4 d) as [Hf5 Hp5] end.
  { destruct ses as [s|]; [|apply keeps_facturas_refl].
    destruct (SesionEstado_eqb _ _); [|apply keeps_facturas_refl].
    apply registrar_movimiento_caja_keeps. }
  eexists. exists f. split; [reflexivity|].
  split; [congruence|].
  split; [congruence|].
  split; [congruence|].
  split.
  - rewrite Hf5. exact Hsave.
  - intros z Hz. rewrite Hf5, Hsave in Hz.
    apply in_app_or in Hz. destruct Hz as [Hz|[<-|[]]].
    + apply Hpk in Hz. lia.
    + simpl. lia.
Qed.

End Creation.

(** ** Sequential allocation *)

Section Allocation.

Variables (hoy : date) (t : Timbrado).
Hypothesis vigente : esta_vigente hoy t = true.

Lemma get_siguiente_numero_issued db n :
  issued t db n ->
  get_siguiente_numero db t = spec_allocation t n.
Proof.
  intros [_ H]. rewrite get_siguiente_numero_refines.
  unfold spec_next_number, spec_allocation.
  rewrite (spec_candidate_contiguos db t n H).
  rewrite Z.gtb_ltb. destruct (Z.leb_spec (numero_desde t + Z.of_nat n) (numero_hasta t));
    destruct (Z.ltb_spec (numero_hasta t) (numero_desde t + Z.of_nat n));
    try reflexivity; lia.
Qed.

Lemma emitir_issued reqs :
  Forall con_items reqs ->
  forall db n k,
    issued t db n ->
    (k = n \/ (numero_hasta t < numero_desde t + Z.of_nat n /\ (n <= k)%nat)) ->
    emitir db hoy t reqs = map (spec_allocation t) (seq k (List.length reqs)).
Proof.
  induction 1 as [|r reqs Hr _ IH]; intros db n k Hinv Hk; [reflexivity|].
  simpl. pose proof (get_siguiente_numero_issued db n Hinv) as Hget.
  unfold spec_allocation in Hget.
  destruct (Z.leb_spec (numero_desde t + Z.of_nat n) (numero_hasta t)) as [Hle|Hgt].
  - destruct Hk as [->|[Hk _]]; [|lia].
    destruct Hinv as [Hpk Hnums].
    destruct (crear_factura_ok hoy t vigente db (pedido_now r) (pedido_cliente r)
                (pedido_cajero r) (pedido_pasajes r) (pedido_encomiendas r)
                (pedido_condicion r) (pedido_sesion r) (pedido_tasa r)
                _ Hpk Hr Hget)
      as (db' & f & -> & Hnum & Htim & _ & Hfs & Hpk').
    unfold spec_allocation at 1.
    destruct (Z.leb_spec (numero_desde t + Z.of_nat n) (numero_hasta t)); [|lia].
    rewrite Hnum. f_equal.
    apply (IH db' (S n) (S n)); [|left; reflexivity].
    split; [exact Hpk'|].
    unfold timbrado_facturas in *. rewrite Hfs, filter_app, map_app, Hnums.
    simpl. rewrite Htim, Z.eqb_refl. simpl. rewrite Hnum.
    symmetry. apply contiguos_snoc.
  - rewrite (crear_factura_agotado hoy t vigente db _ _ _ _ _ _ _ _ Hget).
    assert (spec_allocation t k = Raise (ValueError msg_agotado)) as ->.
    { unfold spec_allocation.
      destruct (Z.leb_spec (numero_desde t + Z.of_nat k) (numero_hasta t));
        [|reflexivity].
      destruct Hk as [->|[_ Hk]]; lia. }
    f_equal. apply (IH db n (S k) Hinv). right. split; [lia|].
    destruct Hk as [->|[_ Hk]]; lia.
Qed.

End Allocation.

(** C1. [get_siguiente_numero] returns [max(existing numbers) + 1] when the
    license has invoices and its [numero_desde] otherwise, and raises when
    that candidate exceeds [numero_hasta].  Hence [N] calls of
    [crear_factura], one after the other, on a license that is current and
    has no invoice yet allocate [numero_desde], [numero_desde + 1], ... in
    order, and raise from the call on whose candidate exceeds
    [numero_hasta]. *)
Theorem fiscal_sequence_allocation :
  forall (db : DB) (t : Timbrado),
    get_siguiente_numero db t = spec_next_number db t
    /\ forall (hoy : date) (reqs : list Pedido),
         facturas_pk_ok db ->
         esta_vigente hoy t = true ->
         timbrado_facturas db t = [] ->
         Forall con_items reqs ->
         emitir db hoy t reqs
         = map (spec_allocation t) (seq 0 (List.length reqs)).
Proof.
  intros db t. split; [apply get_siguiente_numero_refines|].
  intros hoy reqs Hpk Hvig Hnone Hitems.
  apply (emitir_issued hoy t Hvig reqs Hitems db 0%nat 0%nat).
  - split; [exact Hpk|]. rewrite Hnone. reflexivity.
  - left. reflexivity.
Qed.

(** ** Decimal arithmetic within the context precision *)

Section DecimalExact.

Lemma ndigits_fuel_le (fuel : nat) :
  forall n k, 1 <= k -> n < 10 ^ k -> Dec.ndigits_fuel fuel n <= k.
Proof.
  induction fuel as [|fuel IH]; intros n k Hk Hn;
    cbn [Dec.ndigits_fuel]; [lia|].
  destruct (Z.ltb_spec n 10); [lia|].
  assert (2 <= k).
  { destruct (Z.eq_dec k 1) as [->|]; [|lia].
    change (10 ^ 1) with 10 in Hn. lia. }
  assert (n / 10 < 10 ^ (k - 1)).
  { apply Z.div_lt_upper_bound; [lia|].
    replace k with (1 + (k - 1)) in Hn by lia.
    rewrite Z.pow_add_r in Hn by lia.
    change (10 ^ 1) with 10 in Hn. lia. }
  specialize (IH (n / 10) (k - 1)). lia.
Qed.

Lemma ndigits_le (n k : Z) : 1 <= k -> n < 10 ^ k -> Dec.ndigits n <= k.
Proof. apply ndigits_fuel_le. Qed.

(** [_fix] leaves a coefficient of at most 28 digits alone. *)
Lemma fix_small (c e : Z) :
  Z.abs c < 10 ^ 28 -> Dec.fix_ (mkDec c e) = mkDec c e.
Proof.
  intros H. unfold Dec.fix_. simpl.
  pose proof (ndigits_le (Z.abs c) 28 ltac:(lia) H) as Hd.
  unfold Dec.prec. destruct (Z.leb_spec (Dec.ndigits (Z.abs c)) 28); [reflexivity|lia].
Qed.

Lemma add_exact (a b e : Z) :
  Z.abs (a + b) < 10 ^ 28 ->
  Dec.add (mkDec a e) (mkDec b e) = mkDec (a + b) e.
Proof.
  intros H. unfold Dec.add, Dec.align. simpl.
  rewrite Z.min_id, Z.sub_diag. simpl. rewrite !Z.mul_1_r.
  apply fix_small, H.
Qed.

Lemma mul_exact (a ea b eb : Z) :
  Z.abs (a * b) < 10 ^ 28 ->
  Dec.mul (mkDec a ea) (mkDec b eb) = mkDec (a * b) (ea + eb).
Proof. intros H. unfold Dec.mul. simpl. apply fix_small, H. Qed.

End DecimalExact.

(** ** Decimal division at the context precision *)

Section DecimalDivision.

Lemma pow10_succ (k : Z) : 0 <= k -> 10 ^ (k + 1) = 10 * 10 ^ k.
Proof. intros. rewrite Z.pow_add_r by lia. change (10 ^ 1) with 10. lia. Qed.

Lemma ndigits_fuel_ge1 (fuel : nat) (n : Z) : 1 <= Dec.ndigits_fuel fuel n.
Proof.
  revert n. induction fuel as [|fuel IH]; intros n; cbn [Dec.ndigits_fuel]; [lia|].
  destruct (n <? 10); [lia|]. specialize (IH (n / 10)). lia.
Qed.

Lemma ndigits_fuel_lower (fuel : nat) :
  forall n, 1 <= n -> n < 10 ^ (Z.of_nat fuel + 1) ->
    10 ^ (Dec.ndigits_fuel fuel n - 1) <= n.
Proof.
  induction fuel as [|fuel IH]; intros n Hn Hf; cbn [Dec.ndigits_fuel].
  - change (10 ^ (1 - 1)) with 1. lia.
  - destruct (Z.ltb_spec n 10); [change (10 ^ (1 - 1)) with 1; lia|].
    assert (1 <= n / 10) by (apply Z.div_le_lower_bound; lia).
    assert (n / 10 < 10 ^ (Z.of_nat fuel + 1)).
    { apply Z.div_lt_upper_bound; [lia|].
      rewrite Nat2Z.inj_succ in Hf. rewrite <- pow10_succ by lia.
      replace (Z.of_nat fuel + 1 + 1) with (Z.succ (Z.of_nat fuel) + 1) by lia. exact Hf. }
    specialize (IH (n / 10) H0 H1).
    pose proof (ndigits_fuel_ge1 fuel (n / 10)).
    replace (1 + Dec.ndigits_fuel fuel (n / 10) - 1)
      with (Dec.ndigits_fuel fuel (n / 10) - 1 + 1) by lia.
    rewrite pow10_succ by lia.
    pose proof (Z.mul_div_le n 10 ltac:(lia)). lia.
Qed.

Lemma ndigits_fuel_upper (fuel : nat) :
  forall n, 0 <= n -> n < 10 ^ (Z.of_nat fuel + 1) ->
    n < 10 ^ (Dec.ndigits_fuel fuel n).
Proof.
  induction fuel as [|fuel IH]; intros n Hn Hf; cbn [Dec.ndigits_fuel].
  - exact Hf.
  - destruct (Z.ltb_spec n 10); [change (10 ^ 1) with 10; lia|].
    assert (0 <= n / 10) by (apply Z.div_pos; lia).
    assert (n / 10 < 10 ^ (Z.of_nat fuel + 1)).
    { apply Z.div_lt_upper_bound; [lia|].
      rewrite Nat2Z.inj_succ in Hf. rewrite <- pow10_succ by lia.
      replace (Z.of_nat fuel + 1 + 1) with (Z.succ (Z.of_nat fuel) + 1) by lia. exact Hf. }
    specialize (IH (n / 10) H0 H1).
    pose proof (ndigits_fuel_ge1 fuel (n / 10)).
    replace (1 + Dec.ndigits_fuel fuel (n / 10))
      with (Dec.ndigits_fuel fuel (n / 10) + 1) by lia.
    rewrite pow10_succ by lia.
    pose proof (Z.div_mod n 10 ltac:(lia)).
    pose proof (Z.mod_pos_bound n 10 ltac:(lia)). lia.
Qed.

Lemma log2_fuel (n : Z) : 0 <= n -> n < 10 ^ (Z.of_nat (Z.to_nat (Z.log2 n)) + 1).
Proof.
  intros Hn. rewrite Z2Nat.id by apply Z.log2_nonneg.
  destruct (Z.eq_dec n 0) as [->|Hz].
  - change (Z.log2 0) with 0. change (10 ^ (0 + 1)) with 10. lia.
  - pose proof (Z.log2_spec n ltac:(lia)) as [_ H].
    pose proof (Z.log2_nonneg n).
    eapply Z.lt_le_trans; [exact H|].
    replace (Z.succ (Z.log2 n)) with (Z.log2 n + 1) by lia.
    apply Z.pow_le_mono_l. lia.
Qed.

Lemma ndigits_spec (n : Z) :
  1 <= n -> 1 <= Dec.ndigits n /\ 10 ^ (Dec.ndigits n - 1) <= n < 10 ^ Dec.ndigits n.
Proof.
  intros Hn. unfold Dec.ndigits. pose proof (log2_fuel n ltac:(lia)).
  split; [apply ndigits_fuel_ge1|]. split.
  - apply ndigits_fuel_lower; assumption.
  - apply ndigits_fuel_upper; [lia|assumption].
Qed.

(** Rounding drops to the quotient or to its successor, by the remainder. *)
Lemma round_half_even_cases (n k : Z) :
  let T := 10 ^ k in
  (2 * (n mod T) < T -> Dec.round_half_even n k = n / T)
  /\ (2 * (n mod T) > T -> Dec.round_half_even n k = n / T + 1)
  /\ n / T <= Dec.round_half_even n k <= n / T + 1.
Proof.
  intros T. unfold Dec.round_half_even. fold T.
  destruct (Z.gtb_spec (2 * (n mod T)) T), (Z.eqb_spec (2 * (n mod T)) T);
    cbn [orb andb]; try destruct (Z.odd (n / T)); repeat split; intros; lia.
Qed.

Lemma round_half_even_near (n k : Z) :
  0 <= k ->
  2 * Z.abs (Dec.round_half_even n k * 10 ^ k - n) <= 10 ^ k.
Proof.
  intros Hk. assert (0 < 10 ^ k) as HT by (apply Z.pow_pos_nonneg; lia).
  pose proof (Z.div_mod n (10 ^ k) ltac:(lia)) as Hdm.
  pose proof (Z.mod_pos_bound n (10 ^ k) HT) as Hr.
  unfold Dec.round_half_even.
  set (T := 10 ^ k) in *. set (Q := n / T) in *. set (R := n mod T) in *.
  destruct (Z.gtb_spec (2 * R) T), (Z.eqb_spec (2 * R) T);
    cbn [orb andb]; try destruct (Z.odd Q); lia.
Qed.

(** The sticky digit of the division: with a non-zero remainder the
    rounding of the adjusted quotient is the rounding of the exact one. *)
Lemma sticky_round (N B q r k : Z) :
  0 < B -> N = q * B + r -> 0 < r < B -> 0 <= q -> 1 <= k ->
  2 * Z.abs (Dec.round_half_even (if q mod 5 =? 0 then q + 1 else q) k * 10 ^ k * B - N)
  <= 10 ^ k * B.
Proof.
  intros HB HN Hr Hq Hk.
  set (c := if q mod 5 =? 0 then q + 1 else q).
  assert (c mod 5 <> 0 /\ (c = q \/ c = q + 1)) as [Hc5 Hcq].
  { subst c. destruct (Z.eqb_spec (q mod 5) 0) as [E|E].
    - split; [|right; reflexivity].
      rewrite Z.add_mod by lia. rewrite E. discriminate.
    - split; [exact E|left; reflexivity]. }
  assert (10 ^ k = 10 * 10 ^ (k - 1)) as HT.
  { replace k with (k - 1 + 1) at 1 by lia. apply pow10_succ. lia. }
  assert (0 < 10 ^ (k - 1)) as HT' by (apply Z.pow_pos_nonneg; lia).
  pose proof (Z.div_mod c (10 ^ k) ltac:(lia)) as Hdm.
  pose proof (Z.mod_pos_bound c (10 ^ k) ltac:(lia)) as HR.
  destruct (round_half_even_cases c k) as (Hlo & Hhi & _).
  cbv zeta in Hlo, Hhi.
  set (T := 10 ^ k) in *. set (T' := 10 ^ (k - 1)) in *.
  set (Q := c / T) in *. set (R := c mod T) in *.
  assert (2 * R <> T) as Hne.
  { intros E. apply Hc5. replace c with ((2 * T' * Q + T') * 5) by lia.
    apply Z.mod_mul. lia. }
  assert (T mod 2 = 0) as Heven.
  { rewrite HT. replace (10 * T') with ((5 * T') * 2) by lia. apply Z.mod_mul. lia. }
  assert (T = 2 * (T / 2)) as HT2.
  { pose proof (Z.div_mod T 2 ltac:(lia)). lia. }
  set (H2 := T / 2) in *.
  assert (q * B = c * B \/ q * B = c * B - B) as HqB.
  { destruct Hcq as [->| ->]; [left; reflexivity|right; lia]. }
  assert (c * B = T * Q * B + R * B) as HcB.
  { rewrite Hdm at 1. lia. }
  destruct (Z_lt_dec (2 * R) T) as [Hlt|Hge].
  - rewrite (Hlo Hlt).
    assert ((R + 1) * B <= H2 * B) by (apply Z.mul_le_mono_nonneg_r; lia).
    assert (0 <= R * B) by (apply Z.mul_nonneg_nonneg; lia).
    assert (1 * B <= H2 * B) by (apply Z.mul_le_mono_nonneg_r; lia).
    replace (T * B) with (2 * (H2 * B)) by lia.
    destruct HqB as [HqB|HqB]; lia.
  - rewrite (Hhi ltac:(lia)).
    assert ((R - H2) * B >= 1 * B) by (apply Z.le_ge, Z.mul_le_mono_nonneg_r; lia).
    assert (R * B <= (T - 1) * B) by (apply Z.mul_le_mono_nonneg_r; lia).
    replace (T * B) with (2 * (H2 * B)) by lia.
    replace ((Q + 1) * T * B) with (T * Q * B + 2 * (H2 * B)) by lia.
    destruct HqB as [HqB|HqB]; lia.
Qed.

Lemma pow10_split (a b : Z) : 0 <= b <= a -> 10 ^ a = 10 ^ (a - b) * 10 ^ b.
Proof. intros H. rewrite <- Z.pow_add_r by lia. f_equal. lia. Qed.

Lemma pow10_gt0 (k : Z) : 0 <= k -> 0 < 10 ^ k.
Proof. intros. apply Z.pow_pos_nonneg; lia. Qed.

(** A number with more than [k] digits is at least [10 ^ k], and
    conversely. *)
Lemma ndigits_gt (n k : Z) : 1 <= k -> 10 ^ k <= n -> k < Dec.ndigits n.
Proof.
  intros Hk Hn. pose proof (pow10_gt0 k ltac:(lia)).
  destruct (ndigits_spec n ltac:(lia)) as (H1 & _ & Hu).
  destruct (Z_lt_dec k (Dec.ndigits n)) as [|Hge]; [assumption|].
  pose proof (Z.pow_le_mono_r 10 (Dec.ndigits n) k ltac:(lia) ltac:(lia)). lia.
Qed.

(** [_fix] on a coefficient of more than 28 digits: the coefficient is
    rounded half-even to 28 digits, one digit more being dropped when the
    rounding carries into a 29th. *)
Lemma fix_round (s c e : Z) :
  s = 1 \/ s = -1 -> 10 ^ 28 <= c ->
  let k := Dec.ndigits c - 28 in
  exists m j,
    Dec.fix_ (mkDec (s * c) e) = mkDec (s * m) (e + j)
    /\ 1 <= k <= j /\ j <= k + 1
    /\ 10 ^ 27 <= m < 10 ^ 28
    /\ m * 10 ^ j = Dec.round_half_even c k * 10 ^ k.
Proof.
  intros Hs Hc k.
  assert (0 < 10 ^ 28) as H28 by reflexivity.
  assert (Z.abs (s * c) = c) as Habs by (destruct Hs; subst s; lia).
  assert (Z.sgn (s * c) = s) as Hsgn.
  { rewrite Z.sgn_mul, (Z.sgn_pos c) by lia. destruct Hs; subst s; reflexivity. }
  pose proof (ndigits_gt c 28 ltac:(lia) Hc) as Hlen.
  destruct (ndigits_spec c ltac:(lia)) as (_ & Hlo & Hup).
  set (len := Dec.ndigits c) in *.
  assert (1 <= k) as Hk by (subst k; lia).
  pose proof (pow10_gt0 k ltac:(lia)) as HT.
  assert (10 ^ len = 10 ^ 28 * 10 ^ k) as Hlen_split.
  { rewrite <- Z.pow_add_r by lia. f_equal. subst k. lia. }
  assert (10 ^ (len - 1) = 10 ^ 27 * 10 ^ k) as Hlen1_split.
  { rewrite <- Z.pow_add_r by lia. f_equal. subst k. lia. }
  destruct (round_half_even_cases c k) as (_ & _ & Hr). cbv zeta in Hr.
  set (r := Dec.round_half_even c k) in *.
  assert (10 ^ 27 <= c / 10 ^ k) as Hq1.
  { apply Z.div_le_lower_bound; lia. }
  assert (c / 10 ^ k < 10 ^ 28) as Hq2.
  { apply Z.div_lt_upper_bound; lia. }
  assert (0 < 10 ^ 27) as H27 by reflexivity.
  unfold Dec.fix_. cbn [coef expo]. rewrite Habs, Hsgn. fold len. unfold Dec.prec.
  destruct (Z.leb_spec len 28); [lia|]. fold k. fold r.
  destruct (Z.gtb_spec (Dec.ndigits r) 28) as [Hbig|Hsmall].
  - assert (r = 10 ^ 28) as Hr28.
    { destruct (Z_lt_dec r (10 ^ 28)) as [Hlt|]; [|lia].
      pose proof (ndigits_le r 28 ltac:(lia) Hlt). lia. }
    exists (r / 10), (k + 1). rewrite Hr28.
    change (10 ^ 28 / 10) with (10 ^ 27).
    split; [f_equal; lia|]. split; [lia|]. split; [lia|]. split; [lia|].
    rewrite pow10_succ by lia. change (10 ^ 28) with (10 ^ 27 * 10). lia.
  - exists r, k. split; [f_equal|]. split; [lia|]. split; [lia|].
    split; [|reflexivity]. split; [lia|].
    destruct (ndigits_spec r ltac:(lia)) as (_ & _ & Hru).
    pose proof (Z.pow_le_mono_r 10 (Dec.ndigits r) 28 ltac:(lia) Hsmall). lia.
Qed.

Lemma strip_spec (fuel : nat) :
  forall c e ideal,
    exists j,
      0 <= j /\ snd (Dec.strip fuel c e ideal) = e + j
      /\ c = fst (Dec.strip fuel c e ideal) * 10 ^ j
      /\ (e <= ideal -> e + j <= ideal).
Proof.
  induction fuel as [|fuel IH]; intros c e ideal; cbn [Dec.strip].
  - exists 0. simpl. repeat split; lia.
  - destruct (Z.ltb_spec e ideal) as [Hlt|Hge]; cbn [andb].
    + destruct (Z.eqb_spec (c mod 10) 0) as [Hz|Hnz].
      * destruct (IH (c / 10) (e + 1) ideal) as (j & Hj & He & Hc & Hi).
        exists (j + 1). split; [lia|]. split; [lia|]. split; [|lia].
        rewrite pow10_succ by lia.
        pose proof (Z.div_mod c 10 ltac:(lia)). lia.
      * exists 0. simpl. repeat split; lia.
    + exists 0. simpl. repeat split; lia.
Qed.

(** The last step of the division: a coefficient [c] of more than 28
    digits at the exponent [e], whose rounding is within half a unit of
    [A * 10 ^ d / cb], becomes the rounded quotient. *)
Lemma fix_finish (s c e A cb d : Z) :
  s = 1 \/ s = -1 -> 10 ^ 28 <= c -> 0 < cb ->
  d = -2 - e -> Dec.ndigits c - 27 <= d ->
  2 * Z.abs (Dec.round_half_even c (Dec.ndigits c - 28) * 10 ^ (Dec.ndigits c - 28) * cb
             - A * 10 ^ d)
  <= 10 ^ (Dec.ndigits c - 28) * cb ->
  let q := Dec.fix_ (mkDec (s * c) e) in
  Z.abs (coef q) < 10 ^ 28
  /\ expo q <= -2
  /\ 2 * Z.abs (coef q * cb - s * A * 10 ^ (-2 - expo q)) <= cb.
Proof.
  intros Hs Hc Hcb Hd Hlen Hnear q.
  destruct (fix_round s c e Hs Hc) as (m & j & Hfix & Hk & Hj & Hm & Hval).
  cbv zeta in Hk, Hj, Hval. subst q. rewrite Hfix. cbn [coef expo].
  set (k := Dec.ndigits c - 28) in *.
  assert (Z.abs (s * m) = m) as -> by (destruct Hs; subst s; lia).
  split; [lia|]. split; [lia|].
  replace (-2 - (e + j)) with (d - j) by lia.
  pose proof (pow10_gt0 j ltac:(lia)) as HP.
  pose proof (pow10_gt0 k ltac:(lia)) as HK.
  assert (10 ^ k <= 10 ^ j) as Hkj by (apply Z.pow_le_mono_r; lia).
  rewrite (pow10_split d j) in Hnear by lia.
  rewrite <- Hval in Hnear.
  set (P := 10 ^ j) in *. set (X := 10 ^ (d - j)) in *.
  replace (s * m * cb - s * A * X) with (s * (m * cb - A * X)) by lia.
  assert (Z.abs (s * (m * cb - A * X)) = Z.abs (m * cb - A * X)) as ->
      by (destruct Hs; subst s; lia).
  replace (m * P * cb - A * (X * P)) with ((m * cb - A * X) * P) in Hnear by lia.
  rewrite Z.abs_mul, (Z.abs_eq P) in Hnear by lia.
  assert (10 ^ k * cb <= P * cb) by (apply Z.mul_le_mono_nonneg_r; lia).
  apply (Z.mul_le_mono_pos_l _ _ P HP). lia.
Qed.

(** [Decimal.__truediv__] rounds correctly: the quotient of a stored amount
    of at most 27 digits by a positive integer has at most 28 digits, lies
    at an exponent [e <= -2], and is within half a unit of its last digit
    of the exact quotient. *)
Lemma div_rounded (ca cb : Z) :
  Z.abs ca < 10 ^ 27 -> 0 < cb ->
  let q := Dec.div (mkDec ca (-2)) (Dec.of_Z cb) in
  Z.abs (coef q) < 10 ^ 28
  /\ expo q <= -2
  /\ 2 * Z.abs (coef q * cb - ca * 10 ^ (-2 - expo q)) <= cb.
Proof.
  intros Hca Hcb q. subst q. unfold Dec.div, Dec.of_Z. cbn [coef expo].
  assert (0 < 10 ^ 28) as H28 by reflexivity.
  assert (0 < 10 ^ 27) as H27 by reflexivity.
  destruct (Z.eqb_spec cb 0); [lia|].
  replace (-2 - 0) with (-2) by lia.
  destruct (Z.eqb_spec ca 0) as [->|Hnz].
  - rewrite fix_small by (simpl; lia). cbn [coef expo].
    change (-2 - -2) with 0. simpl. lia.
  - set (A := Z.abs ca). assert (1 <= A) as HA by (subst A; lia).
    set (s := Z.sgn ca * Z.sgn cb).
    assert (s = 1 \/ s = -1) as Hs.
    { subst s. rewrite (Z.sgn_pos cb) by lia.
      destruct (Z.sgn_spec ca) as [[_ ->]|[[? _]|[_ ->]]]; lia. }
    assert (ca = s * A) as HsA.
    { subst s A. rewrite (Z.sgn_pos cb) by lia.
      pose proof (Z.abs_sgn ca). lia. }
    rewrite (Z.abs_eq cb) by lia.
    destruct (ndigits_spec A HA) as (Hla1 & Hlalo & Hlaup).
    destruct (ndigits_spec cb ltac:(lia)) as (Hlb1 & Hlblo & Hlbup).
    pose proof (ndigits_le A 27 ltac:(lia) Hca) as Hla27.
    set (la := Dec.ndigits A) in *. set (lb := Dec.ndigits cb) in *.
    unfold Dec.prec.
    set (shift := lb - la + 28 + 1).
    assert (3 <= shift) as Hshift by (subst shift; lia).
    destruct (Z.leb_spec 0 shift); [|lia].
    pose proof (pow10_gt0 shift ltac:(lia)) as HS.
    set (N := A * 10 ^ shift).
    pose proof (Z.div_mod N cb ltac:(lia)) as Hdm.
    pose proof (Z.mod_pos_bound N cb Hcb) as Hr.
    (* the quotient has 29 or 30 digits *)
    assert (10 ^ (lb + 28) <= N) as HNlo.
    { subst N. replace (lb + 28) with ((la - 1) + shift) by (subst shift; lia).
      rewrite Z.pow_add_r by lia. apply Z.mul_le_mono_nonneg_r; lia. }
    assert (N < 10 ^ (lb + 29)) as HNup.
    { subst N. replace (lb + 29) with (la + shift) by (subst shift; lia).
      rewrite Z.pow_add_r by lia. apply Z.mul_lt_mono_pos_r; lia. }
    assert (10 ^ 28 <= N / cb) as Hqlo.
    { apply Z.div_le_lower_bound; [lia|].
      rewrite (Z.pow_add_r 10 lb 28) in HNlo by lia.
      assert (cb * 10 ^ 28 <= 10 ^ lb * 10 ^ 28)
        by (apply Z.mul_le_mono_nonneg_r; lia). lia. }
    assert (N / cb < 10 ^ 30) as Hqup.
    { apply Z.div_lt_upper_bound; [lia|].
      replace (lb + 29) with (lb - 1 + 30) in HNup by lia.
      rewrite (Z.pow_add_r 10 (lb - 1) 30) in HNup by lia.
      assert (0 < 10 ^ 30) by reflexivity.
      assert (10 ^ (lb - 1) * 10 ^ 30 <= cb * 10 ^ 30)
        by (apply Z.mul_le_mono_nonneg_r; lia). lia. }
    fold N. set (q := N / cb) in *. set (r := N mod cb) in *.
    replace (-2 - (-2 - shift)) with shift by lia.
    destruct (Z.eqb_spec r 0) as [Hr0|Hr0].
    + (* exact quotient *)
      destruct (strip_spec (Z.to_nat shift) q (-2 - shift) (-2))
        as (j & Hj & He & Hq & Hi).
      destruct (Dec.strip (Z.to_nat shift) q (-2 - shift) (-2)) as [c e'].
      cbn [fst snd] in He, Hq. specialize (Hi ltac:(lia)). subst e'.
      pose proof (pow10_gt0 j Hj) as HP.
      assert (1 <= c) as Hc1 by nia.
      assert (c * cb = A * 10 ^ (shift - j)) as Hexact.
      { apply (Z.mul_cancel_r _ _ (10 ^ j)); [lia|].
        pose proof (pow10_split shift j ltac:(lia)) as Hsplit.
        replace (A * 10 ^ (shift - j) * 10 ^ j)
          with (A * (10 ^ (shift - j) * 10 ^ j)) by lia.
        rewrite <- Hsplit. fold N. rewrite Hdm, Hr0, Hq. lia. }
      destruct (Z_lt_dec c (10 ^ 28)) as [Hsmall|Hbig].
      * rewrite fix_small by (destruct Hs; subst s; lia). cbn [coef expo].
        replace (-2 - (-2 - shift + j)) with (shift - j) by lia.
        rewrite HsA. replace (s * c * cb - s * A * 10 ^ (shift - j))
          with (s * (c * cb - A * 10 ^ (shift - j))) by lia.
        rewrite Hexact. destruct Hs; subst s; lia.
      * rewrite HsA.
        apply (fix_finish s c (-2 - shift + j) A cb (shift - j)); try lia.
        -- destruct (ndigits_spec c Hc1) as (_ & Hclo & _).
           set (len := Dec.ndigits c) in *.
           destruct (Z_le_dec (len - 27) (shift - j)) as [|Hgt]; [assumption|].
           exfalso.
           assert (10 ^ (27 + (shift - j)) <= 10 ^ (len - 1))
             by (apply Z.pow_le_mono_r; lia).
           rewrite Z.pow_add_r in H0 by lia.
           pose proof (pow10_gt0 (shift - j) ltac:(lia)).
           assert (A * 10 ^ (shift - j) < 10 ^ 27 * 10 ^ (shift - j))
             by (apply Z.mul_lt_mono_pos_r; lia).
           assert (c * 1 <= c * cb) by (apply Z.mul_le_mono_nonneg_l; lia).
           lia.
        -- rewrite <- Hexact.
           pose proof (ndigits_gt c 28 ltac:(lia) ltac:(lia)).
           pose proof (round_half_even_near c (Dec.ndigits c - 28) ltac:(lia)) as Hn.
           set (k := Dec.ndigits c - 28) in *.
           set (m := Dec.round_half_even c k) in *.
           replace (m * 10 ^ k * cb - c * cb) with ((m * 10 ^ k - c) * cb) by lia.
           rewrite Z.abs_mul, (Z.abs_eq cb) by lia.
           assert (2 * Z.abs (m * 10 ^ k - c) * cb <= 10 ^ k * cb)
             by (apply Z.mul_le_mono_nonneg_r; lia).
           lia.
    + (* inexact quotient: the sticky digit *)
      set (c := if q mod 5 =? 0 then q + 1 else q).
      assert (q <= c <= q + 1) as Hcq by (subst c; destruct (q mod 5 =? 0); lia).
      assert (c < 10 ^ 30) as Hcup.
      { destruct (Z_lt_dec c (10 ^ 30)) as [|Hge]; [assumption|]. exfalso.
        assert (q = 10 ^ 30 - 1) as Hq by lia.
        subst c. rewrite Hq in Hge. change ((10 ^ 30 - 1) mod 5 =? 0) with false in Hge.
        lia. }
      pose proof (ndigits_le c 30 ltac:(lia) Hcup) as Hlen30.
      pose proof (ndigits_gt c 28 ltac:(lia) ltac:(lia)) as Hlen28.
      rewrite HsA.
      apply (fix_finish s c (-2 - shift) A cb shift); try lia.
      fold N. subst c.
      apply (sticky_round N cb q r); try lia.
Qed.

End DecimalDivision.

(** ** Invoice totals *)

Section Totals.

Lemma suma_banda_cons (tasa : Z) (d : DetalleFactura) (ds : list DetalleFactura) :
  suma_banda tasa (d :: ds)
  = (if tasa_iva d =? tasa then coef (subtotal d) else 0) + suma_banda tasa ds.
Proof.
  unfold suma_banda. simpl. destruct (tasa_iva d =? tasa); reflexivity.
Qed.

Lemma suma_banda_abs (tasa : Z) (ds : list DetalleFactura) :
  Z.abs (suma_banda tasa ds) <= suma_abs ds.
Proof.
  induction ds as [|d ds IH]; [unfold suma_banda, suma_abs; simpl; lia|].
  rewrite suma_banda_cons.
  change (suma_abs (d :: ds)) with (Z.abs (coef (subtotal d)) + suma_abs ds).
  destruct (tasa_iva d =? tasa); lia.
Qed.

Lemma suma_abs_nonneg (ds : list DetalleFactura) : 0 <= suma_abs ds.
Proof.
  induction ds as [|d ds IH]; [unfold suma_abs; simpl; lia|].
  change (suma_abs (d :: ds)) with (Z.abs (coef (subtotal d)) + suma_abs ds).
  lia.
Qed.

(** The loop of [calcular_totales] adds exactly as long as the sums stay
    within 28 digits. *)
Lemma acumular_exact (ds : list DetalleFactura) :
  Forall (fun d => expo (subtotal d) = -2) ds ->
  forall a b c,
    Z.abs a + suma_abs ds < 10 ^ 28 ->
    Z.abs b + suma_abs ds < 10 ^ 28 ->
    Z.abs c + suma_abs ds < 10 ^ 28 ->
    fold_left acumular ds (mkDec a (-2), mkDec b (-2), mkDec c (-2))
    = (mkDec (a + suma_banda 0 ds) (-2),
       mkDec (b + suma_banda 5 ds) (-2),
       mkDec (c + suma_banda 10 ds) (-2)).
Proof.
  induction 1 as [|d ds Hd _ IH]; intros a b c Ha Hb Hc.
  - unfold suma_banda. simpl. rewrite !Z.add_0_r. reflexivity.
  - cbn [fold_left]. rewrite !suma_banda_cons.
    assert (suma_abs (d :: ds) = Z.abs (coef (subtotal d)) + suma_abs ds)
      as Hs by reflexivity.
    rewrite Hs in Ha, Hb, Hc. pose proof (suma_abs_nonneg ds).
    destruct (subtotal d) as [x e] eqn:Hsub. simpl in Hd, Ha, Hb, Hc. subst e.
    unfold acumular. rewrite Hsub.
    destruct (tasa_iva d =? 0) eqn:E0;
      [|destruct (tasa_iva d =? 5) eqn:E5;
        [|destruct (tasa_iva d =? 10) eqn:E10]].
    + apply Z.eqb_eq in E0. rewrite E0. simpl.
      rewrite add_exact by lia. rewrite IH by lia.
      repeat (f_equal; try lia).
    + apply Z.eqb_eq in E5. rewrite E5. simpl.
      rewrite add_exact by lia. rewrite IH by lia.
      repeat (f_equal; try lia).
    + simpl.
      rewrite add_exact by lia. rewrite IH by lia.
      repeat (f_equal; try lia).
    + rewrite IH by lia. simpl.
      repeat (f_equal; try lia).
Qed.

Lemma suma_abs_bound (ds : list DetalleFactura) :
  Forall (fun d => stored_amount (subtotal d)) ds ->
  suma_abs ds <= Z.of_nat (List.length ds) * 10 ^ 15.
Proof.
  induction 1 as [|d ds [_ Hd] _ IH]; [unfold suma_abs; simpl; lia|].
  change (suma_abs (d :: ds)) with (Z.abs (coef (subtotal d)) + suma_abs ds).
  cbn [List.length]. rewrite Nat2Z.inj_succ.
  change (10 ^ 15) with 1000000000000000 in *. lia.
Qed.

(** With every line in one of the three bands the band sums add up to
    the sum of all lines. *)
Lemma suma_bandas_total (ds : list DetalleFactura) :
  Forall banda ds ->
  suma_banda 0 ds + suma_banda 5 ds + suma_banda 10 ds
  = fold_right Z.add 0 (map (fun d => coef (subtotal d)) ds).
Proof.
  induction 1 as [|d ds Hd _ IH]; [reflexivity|].
  rewrite !suma_banda_cons. simpl. rewrite <- IH.
  destruct Hd as [-> | [-> | ->]]; simpl; lia.
Qed.

End Totals.

(** ** Current license lookup *)

Section CurrentLicense.

Variables (db : DB) (hoy : date) (emp : option pk).

Lemma vigente_queryset (t : Timbrado) :
  In t (match emp with
        | Some e =>
            filter (fun t => empresa t =? e)
              (filter (fun t => activo t && (fecha_inicio t <=? hoy)
                                && (hoy <=? fecha_fin t)) (timbrados db))
        | None =>
            filter (fun t => activo t && (fecha_inicio t <=? hoy)
                             && (hoy <=? fecha_fin t)) (timbrados db)
        end)
  <-> In t (timbrados db) /\ candidato_vigente hoy emp t.
Proof.
  unfold candidato_vigente.
  destruct emp as [e|]; rewrite ?filter_In, ?andb_true_iff,
    ?Z.leb_le, ?Z.eqb_eq.
  - split.
    + intros [[Hin [[Ha Hi] Hf]] He]. repeat split; auto.
      intros e' [= <-]. exact He.
    + intros [Hin [Ha [[Hi Hf] He]]]. repeat split; auto.
  - split.
    + intros [Hin [[Ha Hi] Hf]]. repeat split; auto. discriminate.
    + intros [Hin [Ha [[Hi Hf] _]]]. repeat split; auto.
Qed.

Lemma candidato_esta_vigente (t : Timbrado) :
  candidato_vigente hoy emp t -> esta_vigente hoy t = true.
Proof.
  intros [Ha [[Hi Hf] _]]. unfold esta_vigente.
  rewrite Ha, andb_true_r. apply andb_true_iff. split; apply Z.leb_le; assumption.
Qed.

End CurrentLicense.

(** C10. [obtener_timbrado_vigente] returns [None] exactly when no license
    is active with today's date inside [[fecha_inicio, fecha_fin]] (of the
    given company when one is supplied), and a license it returns is such a
    row of the table and satisfies [esta_vigente]. *)
Theorem obtener_timbrado_vigente_spec :
  forall (db : DB) (hoy : date) (emp : option pk),
    (obtener_timbrado_vigente db hoy emp = None
     <-> ~ exists t, In t (timbrados db) /\ candidato_vigente hoy emp t)
    /\ (forall t, obtener_timbrado_vigente db hoy emp = Some t ->
          In t (timbrados db)
          /\ candidato_vigente hoy emp t
          /\ esta_vigente hoy t = true).
Proof.
  intros db hoy emp. unfold obtener_timbrado_vigente. split.
  - rewrite first_None, order_by_nil. split.
    + intros Hnil [t Ht]. apply vigente_queryset in Ht. rewrite Hnil in Ht.
      destruct Ht.
    + intros Hno.
      match goal with |- ?q = [] => destruct q as [|t q'] eqn:Hq end;
        [reflexivity|].
      exfalso. apply Hno. exists t. apply vigente_queryset. rewrite Hq.
      left. reflexivity.
  - intros t Ht.
    apply (order_by_desc_first fecha_inicio) in Ht. destruct Ht as [Hin _].
    apply vigente_queryset in Hin. destruct Hin as [Hin Hc].
    split; [exact Hin|]. split; [exact Hc|].
    apply (candidato_esta_vigente hoy emp), Hc.
Qed.

(** ** Cash session arithmetic *)

Section DecimalValue.

(** The numerical value on a common scale [10 ^ L] below both exponents. *)
Lemma vale_scale (d : Decimal) (n L : Z) :
  L <= expo d -> L <= -2 ->
  (vale d n <-> coef d * 10 ^ (expo d - L) = n * 10 ^ (-2 - L)).
Proof.
  intros He H2. unfold vale, Dec.eqb, Dec.align. cbn [coef expo].
  set (m := Z.min (expo d) (-2)).
  assert (L <= m) as Hm by (subst m; lia).
  assert (m <= expo d /\ m <= -2) as [Hme Hm2] by (subst m; lia).
  pose proof (pow10_gt0 (m - L) ltac:(lia)) as Hpos.
  replace (expo d - L) with ((expo d - m) + (m - L)) by lia.
  replace (-2 - L) with ((-2 - m) + (m - L)) by lia.
  rewrite !Z.pow_add_r by lia. rewrite !Z.mul_assoc.
  rewrite Z.eqb_eq. split; intros H.
  - rewrite H. reflexivity.
  - apply Z.mul_cancel_r in H; [exact H|lia].
Qed.

Lemma vale_hundredths (n : Z) : vale (mkDec n (-2)) n.
Proof. apply (vale_scale _ _ (-2)); cbn; lia. Qed.

Lemma vale_unique (d : Decimal) (n n' : Z) : vale d n -> vale d n' -> n = n'.
Proof.
  intros H H'.
  set (L := Z.min (expo d) (-2)).
  apply (vale_scale d n L) in H; [|subst L; lia|subst L; lia].
  apply (vale_scale d n' L) in H'; [|subst L; lia|subst L; lia].
  pose proof (pow10_gt0 (-2 - L) ltac:(subst L; lia)) as Hpos.
  rewrite H in H'. apply Z.mul_cancel_r in H'; [exact H'|lia].
Qed.

(** Rounding to the precision of the context keeps a value of at most 28
    digits in hundredths. *)
Lemma fix_vale (c e n : Z) :
  vale (mkDec c e) n -> Z.abs n < 10 ^ 28 -> vale (Dec.fix_ (mkDec c e)) n.
Proof.
  intros Hv Hn.
  destruct (Z_lt_le_dec (Z.abs c) (10 ^ 28)) as [Hs|Hb].
  { rewrite fix_small by exact Hs. exact Hv. }
  assert (0 < 10 ^ 28) as H28 by reflexivity.
  set (L := Z.min e (-2)).
  assert (L <= e /\ L <= -2) as [HLe HL2] by (subst L; lia).
  pose proof (proj1 (vale_scale (mkDec c e) n L HLe HL2) Hv) as Hcn.
  cbn [coef expo] in Hcn.
  pose proof (pow10_gt0 (e - L) ltac:(lia)) as Hp1.
  pose proof (pow10_gt0 (-2 - L) ltac:(lia)) as Hp2.
  assert (e < -2) as Hneg.
  { destruct (Z_lt_le_dec e (-2)) as [|Hge]; [assumption|exfalso].
    assert (L = -2) as HL by (subst L; lia). rewrite HL in Hcn.
    change (10 ^ (-2 - -2)) with 1 in Hcn. rewrite Z.mul_1_r in Hcn.
    pose proof (pow10_gt0 (e - -2) ltac:(lia)) as Hp.
    assert (Z.abs c <= Z.abs n).
    { rewrite <- Hcn, Z.abs_mul, (Z.abs_eq (10 ^ (e - -2))) by lia. nia. }
    lia. }
  assert (L = e) as HL by (subst L; lia).
  rewrite HL, Z.sub_diag in Hcn. change (10 ^ 0) with 1 in Hcn.
  rewrite Z.mul_1_r in Hcn.
  set (j := -2 - e) in *.
  assert (0 < j) as Hj by (subst j; lia).
  pose proof (pow10_gt0 j ltac:(lia)) as Hpj.
  assert (Z.abs c = Z.abs n * 10 ^ j) as Habs.
  { rewrite Hcn, Z.abs_mul, (Z.abs_eq (10 ^ j)) by lia. reflexivity. }
  assert (Z.sgn c = 1 \/ Z.sgn c = -1) as Hsg.
  { destruct (Z.sgn_spec c) as [[? ?]|[[? ?]|[? ?]]]; lia. }
  assert (c = Z.sgn c * Z.abs c) as Hc
      by (rewrite Z.mul_comm; symmetry; apply Z.abs_sgn).
  destruct (fix_round (Z.sgn c) (Z.abs c) e Hsg Hb) as (m & j' & Hf & Hk & Hj' & Hm & Hr).
  rewrite <- Hc in Hf. rewrite Hf.
  set (k := Dec.ndigits (Z.abs c) - 28) in *.
  assert (k <= j) as Hkj.
  { assert (Z.abs c < 10 ^ (28 + j)).
    { rewrite Z.pow_add_r by lia. rewrite Habs. nia. }
    pose proof (ndigits_le (Z.abs c) (28 + j) ltac:(lia) H). subst k. lia. }
  pose proof (pow10_gt0 k ltac:(lia)) as Hpk.
  assert (Z.abs c mod 10 ^ k = 0) as Hmod.
  { rewrite Habs, (pow10_split j k) by lia. rewrite Z.mul_assoc.
    apply Z.mod_mul. lia. }
  destruct (round_half_even_cases (Z.abs c) k) as (Hlow & _ & _).
  cbv zeta in Hlow. rewrite Hlow in Hr by (rewrite Hmod; lia).
  assert (Z.abs c / 10 ^ k * 10 ^ k = Z.abs c) as Hexact.
  { pose proof (Z.div_mod (Z.abs c) (10 ^ k) ltac:(lia)). lia. }
  rewrite Hexact in Hr.
  apply (vale_scale _ _ e); cbn [coef expo]; [lia|lia|].
  replace (e + j' - e) with j' by lia. fold j.
  rewrite <- Z.mul_assoc, Hr, <- Hc. exact Hcn.
Qed.

Lemma add_vale (a b : Decimal) (na nb : Z) :
  vale a na -> vale b nb -> Z.abs (na + nb) < 10 ^ 28 ->
  vale (Dec.add a b) (na + nb).
Proof.
  intros Ha Hb Hn. unfold Dec.add, Dec.align.
  set (e := Z.min (expo a) (expo b)).
  apply fix_vale; [|exact Hn].
  set (L := Z.min e (-2)).
  assert (L <= expo a /\ L <= expo b /\ L <= e /\ L <= -2 /\ e <= expo a /\ e <= expo b)
    as (H1 & H2 & H3 & H4 & H5 & H6) by (subst L e; lia).
  apply (vale_scale a na L H1 H4) in Ha.
  apply (vale_scale b nb L H2 H4) in Hb.
  apply (vale_scale _ _ L); cbn [coef expo]; [lia|lia|].
  rewrite !Z.mul_add_distr_r, <- !Z.mul_assoc, <- !Z.pow_add_r by lia.
  replace (expo a - e + (e - L)) with (expo a - L) by lia.
  replace (expo b - e + (e - L)) with (expo b - L) by lia.
  rewrite Ha, Hb. reflexivity.
Qed.

Lemma neg_vale (a : Decimal) (n : Z) : vale a n -> vale (Dec.neg a) (- n).
Proof.
  intros H. set (L := Z.min (expo a) (-2)).
  apply (vale_scale a n L) in H; [|subst L; lia|subst L; lia].
  apply (vale_scale _ _ L); cbn [Dec.neg coef expo]; [subst L; lia|subst L; lia|].
  rewrite !Z.mul_opp_l, H. reflexivity.
Qed.

Lemma sub_vale (a b : Decimal) (na nb : Z) :
  vale a na -> vale b nb -> Z.abs (na - nb) < 10 ^ 28 ->
  vale (Dec.sub a b) (na - nb).
Proof.
  intros Ha Hb Hn. unfold Dec.sub.
  replace (na - nb) with (na + - nb) in * by lia.
  apply add_vale; [exact Ha|apply neg_vale; exact Hb|exact Hn].
Qed.

Lemma or_zero_vale (d : Decimal) (n : Z) : vale d n -> vale (or_zero (Some d)) n.
Proof.
  intros H. unfold or_zero, Dec.truthy.
  destruct (Z.eqb_spec (coef d) 0) as [E|_]; cbn [negb]; [|exact H].
  set (L := Z.min (expo d) (-2)).
  apply (vale_scale d n L) in H; [|subst L; lia|subst L; lia].
  pose proof (pow10_gt0 (-2 - L) ltac:(subst L; lia)).
  rewrite E in H. cbn [Z.mul] in H.
  assert (n = 0) as -> by nia. apply vale_hundredths.
Qed.

(** The column keeps the hundredths of a value of at most two decimals. *)
Lemma stored_vale (d : Decimal) (n : Z) : vale d n -> Dec.stored d = mkDec n (-2).
Proof.
  intros H. unfold Dec.stored, Dec.quantize.
  destruct (Z.leb_spec (-2) (expo d)) as [Hge|Hlt].
  - apply (vale_scale d n (-2)) in H; [|lia|lia].
    change (10 ^ (-2 - -2)) with 1 in H. rewrite Z.mul_1_r in H.
    rewrite H. reflexivity.
  - apply (vale_scale d n (expo d)) in H; [|lia|lia].
    rewrite Z.sub_diag in H. change (10 ^ 0) with 1 in H. rewrite Z.mul_1_r in H.
    set (j := -2 - expo d) in *.
    pose proof (pow10_gt0 j ltac:(subst j; lia)) as Hpj.
    assert (Z.abs (coef d) = Z.abs n * 10 ^ j) as Habs.
    { rewrite H, Z.abs_mul, (Z.abs_eq (10 ^ j)) by lia. reflexivity. }
    destruct (round_half_even_cases (Z.abs (coef d)) j) as (Hlow & _ & _).
    cbv zeta in Hlow. rewrite Hlow.
    2:{ rewrite Habs, Z.mod_mul by lia. lia. }
    rewrite Habs, Z.div_mul by lia.
    f_equal. rewrite H, Z.sgn_mul, (Z.sgn_pos (10 ^ j)) by lia.
    rewrite Z.mul_1_r, Z.mul_comm. apply Z.abs_sgn.
Qed.

Lemma db_decimal_vale (d : Decimal) (n : Z) :
  vale d n -> Z.abs n < 10 ^ 15 -> db_decimal 15 d = Ok (mkDec n (-2)).
Proof.
  intros H Hn. unfold db_decimal. rewrite (stored_vale d n H). cbn [coef].
  pose proof (ndigits_le (Z.abs n) 15 ltac:(lia) Hn).
  destruct (Z.leb_spec (Dec.ndigits (Z.abs n)) 15); [reflexivity|lia].
Qed.

(** The column refuses what needs more than 15 digits. *)
Lemma db_decimal_overflow (d : Decimal) (n : Z) :
  vale d n -> 10 ^ 15 <= Z.abs n -> db_decimal 15 d = Raise InvalidOperation.
Proof.
  intros H Hn. unfold db_decimal. rewrite (stored_vale d n H). cbn [coef].
  pose proof (ndigits_gt (Z.abs n) 15 ltac:(lia) Hn).
  destruct (Z.leb_spec (Dec.ndigits (Z.abs n)) 15); [lia|reflexivity].
Qed.

End DecimalValue.

Section CashArithmetic.

Lemma sql_add_scale2 (a b : Z) :
  sql_add (mkDec a (-2)) (mkDec b (-2)) = mkDec (a + b) (-2).
Proof. unfold sql_add, Dec.align. simpl. rewrite !Z.mul_1_r. reflexivity. Qed.

Lemma fold_sql_add (ds : list Decimal) :
  Forall (fun d => expo d = -2) ds ->
  forall a,
    fold_left sql_add ds (mkDec a (-2))
    = mkDec (a + fold_right Z.add 0 (map coef ds)) (-2).
Proof.
  induction 1 as [|d ds Hd _ IH]; intros a; simpl.
  - rewrite Z.add_0_r. reflexivity.
  - destruct d as [x e]. simpl in Hd. subst e.
    rewrite sql_add_scale2, IH. simpl. f_equal. lia.
Qed.

(** The exact backend is faithful. *)
Lemma suma_exacta_fiel (ms : list MovimientoCaja) :
  Forall (fun m => expo (monto m) = -2) ms -> suma_fiel suma_exacta ms.
Proof.
  intros H Hne. destruct ms as [|m ms]; [congruence|].
  inversion H as [|? ? Hm Hms]; subst.
  cbn [map suma_exacta]. destruct (monto m) as [x e] eqn:Hx.
  cbn [expo] in Hm. subst e.
  rewrite fold_sql_add.
  - cbn [fold_right map coef]. rewrite map_map. apply vale_hundredths.
  - apply Forall_forall. intros d Hd. apply in_map_iff in Hd.
    destruct Hd as (m' & <- & Hin).
    exact (proj1 (Forall_forall _ _) Hms m' Hin).
Qed.

Lemma suma_montos_abs (tipo : MovimientoTipo) (ms : list MovimientoCaja) :
  Z.abs (suma_montos tipo ms) <= magnitud ms.
Proof.
  unfold suma_montos, magnitud.
  induction ms as [|m ms IH]; simpl; [lia|].
  destruct (MovimientoTipo_eqb (mov_tipo m) tipo); simpl; lia.
Qed.

Lemma suma_montos_split (ms : list MovimientoCaja) :
  Z.abs (suma_montos ingreso ms) + Z.abs (suma_montos egreso ms) <= magnitud ms.
Proof.
  unfold suma_montos, magnitud.
  induction ms as [|m ms IH]; simpl; [lia|].
  destruct (mov_tipo m); simpl; lia.
Qed.

Lemma Forall_filter {A : Type} (P : A -> Prop) (f : A -> bool) (l : list A) :
  Forall P l -> Forall P (filter f l).
Proof.
  induction 1 as [|x l Hx _ IH]; simpl; [constructor|].
  destruct (f x); [constructor|]; assumption.
Qed.

Lemma stored_scale2 (c : Z) : Dec.stored (mkDec c (-2)) = mkDec c (-2).
Proof. unfold Dec.stored, Dec.quantize. simpl. rewrite Z.mul_1_r. reflexivity. Qed.

Lemma save_row_In {A : Type} (key : A -> pk) (x : A) (l : list A) :
  In x (save_row key x l).
Proof.
  unfold save_row. destruct (existsb _ l) eqn:E.
  - apply existsb_exists in E. destruct E as [y [Hy Hk]].
    apply in_map_iff. exists y. rewrite Hk. split; [reflexivity|exact Hy].
  - apply in_or_app. right. left. reflexivity.
Qed.

(** [Sum('monto') or Decimal('0.00')] over the movements of one direction,
    also over no rows and for a sum that is zero. *)
Lemma or_zero_sum_monto (Sum : Suma) (tipo : MovimientoTipo)
      (ms : list MovimientoCaja) :
  suma_fiel Sum (filter (fun m => MovimientoTipo_eqb (mov_tipo m) tipo) ms) ->
  vale (or_zero (sum_monto Sum
                   (filter (fun m => MovimientoTipo_eqb (mov_tipo m) tipo) ms)))
       (suma_montos tipo ms).
Proof.
  intros H. unfold suma_montos.
  destruct (filter _ ms) as [|m l] eqn:E.
  - apply vale_hundredths.
  - cbn [sum_monto]. apply or_zero_vale. apply H. discriminate.
Qed.

Variables (Sum : Suma) (db : DB) (s : SesionCaja).
Hypothesis apertura_scale : expo (monto_apertura s) = -2.
Hypothesis ingresos_fiel :
  suma_fiel Sum (filter (fun m => MovimientoTipo_eqb (mov_tipo m) ingreso)
                   (sesion_movimientos db s)).
Hypothesis egresos_fiel :
  suma_fiel Sum (filter (fun m => MovimientoTipo_eqb (mov_tipo m) egreso)
                   (sesion_movimientos db s)).

Lemma total_ingresos_vale :
  vale (total_ingresos Sum db s) (suma_montos ingreso (sesion_movimientos db s)).
Proof. apply or_zero_sum_monto, ingresos_fiel. Qed.

Lemma total_egresos_vale :
  vale (total_egresos Sum db s) (suma_montos egreso (sesion_movimientos db s)).
Proof. apply or_zero_sum_monto, egresos_fiel. Qed.

Lemma apertura_vale : vale (monto_apertura s) (coef (monto_apertura s)).
Proof.
  destruct (monto_apertura s) as [a e]. cbn [expo coef] in *. subst e.
  apply vale_hundredths.
Qed.

Lemma calcular_cierre_vale :
  Z.abs (coef (monto_apertura s)) + magnitud (sesion_movimientos db s) < 10 ^ 28 ->
  vale (fst (calcular_cierre Sum db s)) (spec_expected_close db s).
Proof.
  intros Hb. unfold calcular_cierre, spec_expected_close. cbn [fst].
  pose proof (suma_montos_split (sesion_movimientos db s)).
  apply sub_vale; [apply add_vale| |]; try lia.
  - apply apertura_vale.
  - apply total_ingresos_vale.
  - apply total_egresos_vale.
Qed.

(** Closing a session whose amounts fit the columns. *)
Lemma cerrar_vale (now : datetime) (r er : Z) (obs : string) :
  -2 <= er ->
  Z.abs (coef (monto_apertura s)) + magnitud (sesion_movimientos db s)
    + Z.abs (r * 10 ^ (er + 2)) < 10 ^ 15 ->
  let esperado := spec_expected_close db s in
  let contado := r * 10 ^ (er + 2) in
  exists e d,
    vale e esperado /\ vale d (contado - esperado)
    /\ cerrar Sum db now s (mkDec r er) obs
       = Ok (set_sesiones db
               (save_row sesion_id
                  (mkSesion (sesion_id s) (sesion_cajero s) (fecha_apertura s)
                     (monto_apertura s) (Some now) (Some (mkDec esperado (-2)))
                     (Some (mkDec contado (-2)))
                     (Some (mkDec (contado - esperado) (-2))) cerrada (Some obs))
                  (sesiones db)),
             mkSesion (sesion_id s) (sesion_cajero s) (fecha_apertura s)
               (monto_apertura s) (Some now) (Some e) (Some (mkDec r er))
               (Some d) cerrada (Some obs)).
Proof.
  intros Her Hb esperado contado.
  assert (10 ^ 15 < 10 ^ 28) as H1528 by reflexivity.
  assert (0 <= Z.abs (r * 10 ^ (er + 2))) as Hr0 by lia.
  pose proof (calcular_cierre_vale ltac:(lia)) as He. fold esperado in He.
  pose proof (suma_montos_split (sesion_movimientos db s)) as Hsplit.
  assert (Z.abs esperado
          <= Z.abs (coef (monto_apertura s)) + magnitud (sesion_movimientos db s))
    as Hesp.
  { subst esperado. unfold spec_expected_close. lia. }
  assert (vale (mkDec r er) contado) as Hreal.
  { apply (vale_scale _ _ (-2)); cbn [coef expo]; [lia|lia|].
    change (10 ^ (-2 - -2)) with 1. rewrite Z.mul_1_r.
    replace (er - -2) with (er + 2) by lia. reflexivity. }
  fold contado in Hb.
  unfold cerrar. destruct (calcular_cierre Sum db s) as [e s1] eqn:Hcc.
  cbn [fst] in He.
  assert (s1 = set_esperado s e) as ->.
  { unfold calcular_cierre in Hcc. injection Hcc as <- <-. reflexivity. }
  pose proof (sub_vale (mkDec r er) e contado esperado Hreal He ltac:(lia)) as Hd.
  exists e, (Dec.sub (mkDec r er) e).
  split; [exact He|]. split; [exact Hd|].
  unfold SesionCaja_save.
  cbn [monto_apertura monto_cierre_esperado monto_cierre_real diferencia
       set_esperado opt_db_decimal sesion_id sesion_cajero fecha_apertura
       fecha_cierre sesion_estado observaciones].
  rewrite (db_decimal_vale _ _ apertura_vale) by lia.
  rewrite (db_decimal_vale _ _ He) by lia.
  rewrite (db_decimal_vale _ _ Hreal) by lia.
  rewrite (db_decimal_vale _ _ Hd) by lia.
  cbn [bind].
  destruct (monto_apertura s) as [a ea] eqn:Hap. cbn [expo coef] in *. subst ea.
  reflexivity.
Qed.

End CashArithmetic.

(** C5. For a session whose amounts are stored values (two decimal places)
    and fit, with the counted amount, the 15 digits of the columns, and for
    a backend whose two sums are numerically exact there, [calcular_cierre]
    returns an amount equal to [monto_apertura + sum(ingresos) -
    sum(egresos)], and [cerrar] succeeds and records that amount as
    expected, the counted amount as real and [counted - expected] as the
    difference, in the object (as numbers) and in the saved row (as
    hundredths). *)
Theorem cash_session_close_arithmetic :
  forall (Sum : Suma) (db : DB) (now : datetime) (s : SesionCaja) (r er : Z)
         (obs : string),
    expo (monto_apertura s) = -2 ->
    suma_fiel Sum (filter (fun m => MovimientoTipo_eqb (mov_tipo m) ingreso)
                     (sesion_movimientos db s)) ->
    suma_fiel Sum (filter (fun m => MovimientoTipo_eqb (mov_tipo m) egreso)
                     (sesion_movimientos db s)) ->
    -2 <= er ->
    Z.abs (coef (monto_apertura s)) + magnitud (sesion_movimientos db s)
      + Z.abs (r * 10 ^ (er + 2)) < 10 ^ 15 ->
    let esperado := spec_expected_close db s in
    let contado := r * 10 ^ (er + 2) in
    Dec.eqb (fst (calcular_cierre Sum db s)) (mkDec esperado (-2)) = true
    /\ exists db' s' e d,
         cerrar Sum db now s (mkDec r er) obs = Ok (db', s')
         /\ monto_cierre_esperado s' = Some e
         /\ Dec.eqb e (mkDec esperado (-2)) = true
         /\ monto_cierre_real s' = Some (mkDec r er)
         /\ diferencia s' = Some d
         /\ Dec.eqb d (mkDec (contado - esperado) (-2)) = true
         /\ sesion_estado s' = cerrada
         /\ fecha_cierre s' = Some now
         /\ In (mkSesion (sesion_id s) (sesion_cajero s) (fecha_apertura s)
                  (monto_apertura s) (Some now) (Some (mkDec esperado (-2)))
                  (Some (mkDec contado (-2)))
                  (Some (mkDec (contado - esperado) (-2))) cerrada (Some obs))
               (sesiones db').
Proof.
  intros Sum db now s r er obs Ha Hin Heg Her Hb esperado contado.
  assert (10 ^ 15 < 10 ^ 28) as H1528 by reflexivity.
  split.
  - apply (calcular_cierre_vale Sum db s Ha Hin Heg). lia.
  - destruct (cerrar_vale Sum db s Ha Hin Heg now r er obs Her Hb)
      as (e & d & He & Hd & Hc).
    eexists. eexists. exists e, d. split; [exact Hc|].
    cbn [monto_cierre_esperado monto_cierre_real diferencia sesion_estado
         fecha_cierre sesiones set_sesiones].
    repeat (split; [first [reflexivity|assumption]|]).
    apply save_row_In.
Qed.

(** ** Closing a session *)

Section Closing.

Lemma get_Ok {A : Type} (l : list A) (x : A) : get l = Ok x <-> l = [x].
Proof.
  destruct l as [|y [|z l]]; simpl; split; intros H;
    try discriminate; inversion H; reflexivity.
Qed.

(** A successful save writes the row of the session. *)
Lemma SesionCaja_save_Ok (db db' : DB) (s : SesionCaja) :
  SesionCaja_save db s = Ok db' ->
  db' = set_sesiones db (save_row sesion_id (sesion_row s) (sesiones db)).
Proof.
  unfold SesionCaja_save, opt_db_decimal, db_decimal, sesion_row, opt_stored.
  destruct (Dec.ndigits (Z.abs (coef (Dec.stored (monto_apertura s)))) <=? 15);
    [|discriminate].
  cbn [bind].
  destruct (monto_cierre_esperado s) as [e|];
    [destruct (Dec.ndigits (Z.abs (coef (Dec.stored e))) <=? 15); [|discriminate]|];
    cbn [bind];
    (destruct (monto_cierre_real s) as [r|];
     [destruct (Dec.ndigits (Z.abs (coef (Dec.stored r))) <=? 15); [|discriminate]|]);
    cbn [bind];
    (destruct (diferencia s) as [d|];
     [destruct (Dec.ndigits (Z.abs (coef (Dec.stored d))) <=? 15); [|discriminate]|]);
    cbn [bind]; intros H; injection H as <-; reflexivity.
Qed.

(** What a successful [cerrar] leaves: the object and the row. *)
Lemma cerrar_Ok (Sum : Suma) (db db' : DB) (now : datetime) (s s' : SesionCaja)
      (real : Decimal) (obs : string) :
  cerrar Sum db now s real obs = Ok (db', s') ->
  s' = mkSesion (sesion_id s) (sesion_cajero s) (fecha_apertura s)
         (monto_apertura s) (Some now) (Some (fst (calcular_cierre Sum db s)))
         (Some real) (Some (Dec.sub real (fst (calcular_cierre Sum db s))))
         cerrada (Some obs)
  /\ db' = set_sesiones db (save_row sesion_id (sesion_row s') (sesiones db)).
Proof.
  unfold cerrar, calcular_cierre. cbn [fst set_esperado sesion_id sesion_cajero
    fecha_apertura monto_apertura].
  set (s2 := mkSesion _ _ _ _ _ _ _ _ _ _).
  destruct (SesionCaja_save db s2) as [db2|e] eqn:Hsave; [|discriminate].
  cbn [bind]. intros H. injection H as <- <-.
  split; [reflexivity|]. apply SesionCaja_save_Ok. exact Hsave.
Qed.

Variables (db : DB) (user : pk) (s : SesionCaja).
Hypothesis una_abierta : get (sesiones_abiertas db user) = Ok s.

Lemma abierta_In : In s (sesiones db).
Proof.
  apply get_Ok in una_abierta.
  assert (In s (sesiones_abiertas db user)) as H
      by (rewrite una_abierta; left; reflexivity).
  apply filter_In in H. apply H.
Qed.

Lemma abierta_unica (r : SesionCaja) :
  In r (sesiones db) ->
  (sesion_cajero r =? user) && SesionEstado_eqb (sesion_estado r) abierta = true ->
  r = s.
Proof.
  intros Hin Hp. apply get_Ok in una_abierta.
  assert (In r (sesiones_abiertas db user)) as H
      by (apply filter_In; split; assumption).
  rewrite una_abierta in H. destruct H as [H|[]]. symmetry. exact H.
Qed.

(** Once its only open session is saved as closed the cashier has none
    left. *)
Lemma cerrada_sin_abiertas (s' : SesionCaja) :
  sesion_id s' = sesion_id s ->
  sesion_estado s' = cerrada ->
  sesiones_abiertas
    (set_sesiones db (save_row sesion_id s' (sesiones db))) user
  = [].
Proof.
  intros Hid Hest.
  unfold sesiones_abiertas. cbn [set_sesiones sesiones].
  unfold save_row.
  replace (existsb _ (sesiones db)) with true.
  2:{ symmetry. apply existsb_exists. exists s. split; [apply abierta_In|].
      rewrite Hid. apply Z.eqb_refl. }
  rewrite Hid.
  pose proof abierta_unica as Hu. revert Hu.
  induction (sesiones db) as [|r l IH]; intros Hu; [reflexivity|].
  cbn [map filter].
  destruct (sesion_id r =? sesion_id s) eqn:E.
  - rewrite Hest. cbn [SesionEstado_eqb].
    rewrite andb_false_r. apply IH. intros r' Hr'. apply Hu. right. exact Hr'.
  - destruct ((sesion_cajero r =? user)
              && SesionEstado_eqb (sesion_estado r) abierta) eqn:Hp.
    + rewrite (Hu r (or_introl eq_refl) Hp) in E.
      rewrite Z.eqb_refl in E. discriminate.
    + apply IH. intros r' Hr'. apply Hu. right. exact Hr'.
Qed.

Lemma cerrar_sin_abiertas Sum now real obs db' s' :
  cerrar Sum db now s real obs = Ok (db', s') ->
  sesiones_abiertas db' user = [].
Proof.
  intros H. apply cerrar_Ok in H. destruct H as [Hs' ->].
  apply cerrada_sin_abiertas; rewrite Hs'; reflexivity.
Qed.

End Closing.

(** C4, as the code has it.  The close operation of the application is
    [CierreCajaView.form_valid], the only caller of [SesionCaja.cerrar]:
    once a cashier's close through it has succeeded, the closed row holds
    the expected amount, the counted amount, the difference and the close
    timestamp of that close, and every further close by that cashier finds
    no open session, reports an error message and leaves the database as
    it is. *)
Theorem close_session_twice :
  forall (Sum : Suma) (db : DB) (now : datetime) (user : pk) (real : Decimal)
         (obs : string) (s : SesionCaja) (db1 : DB) (msgs : list Message)
         (r : Response),
    get (sesiones_abiertas db user) = Ok s ->
    CierreCajaView_form_valid Sum db now user real obs = Ok (db1, msgs, r) ->
    let esperado := fst (calcular_cierre Sum db s) in
    In (mkSesion (sesion_id s) (sesion_cajero s) (fecha_apertura s)
          (Dec.stored (monto_apertura s)) (Some now) (Some (Dec.stored esperado))
          (Some (Dec.stored real)) (Some (Dec.stored (Dec.sub real esperado)))
          cerrada (Some obs))
       (sesiones db1)
    /\ r = Redirect "operations:sesion_caja_detail" (Some (sesion_id s))
    /\ forall (Sum' : Suma) (now' : datetime) (real' : Decimal) (obs' : string),
         CierreCajaView_form_valid Sum' db1 now' user real' obs'
         = Ok (db1, [msg ERROR "No se encontró sesión de caja abierta."],
               dashboard).
Proof.
  intros Sum db now user real obs s db1 msgs r Hget Hview esperado.
  unfold CierreCajaView_form_valid in Hview. rewrite Hget in Hview.
  destruct (cerrar Sum db now s real obs) as [[db' s']|e] eqn:Hc;
    [|discriminate].
  cbn [bind] in Hview. injection Hview as <- _ <-.
  pose proof (cerrar_sin_abiertas db user s Hget Sum now real obs db' s' Hc)
    as Hnone.
  destruct (cerrar_Ok _ _ _ _ _ _ _ _ Hc) as [Hs' Hdb].
  split; [|split].
  - rewrite Hdb. cbn [set_sesiones sesiones].
    replace (mkSesion _ _ _ _ _ _ _ _ _ _) with (sesion_row s')
      by (rewrite Hs'; reflexivity).
    apply save_row_In.
  - rewrite Hs'. reflexivity.
  - intros Sum' now' real' obs'. unfold CierreCajaView_form_valid.
    rewrite Hnone. reflexivity.
Qed.

(** C4 as stated fails: [SesionCaja.cerrar] called again on the closed
    session of scenario B does not fail; it succeeds and replaces the
    counted amount, the difference and the close timestamp of the first
    close. *)
Lemma cerrar_twice_overwrites :
  exists db1 s1 db2 s2,
    cerrar suma_exacta db_B 900 sesion_B (mkDec 13000000 (-2)) "" = Ok (db1, s1)
    /\ sesiones db1
       = [mkSesion 1 7 500 (mkDec 10000000 (-2)) (Some 900)
            (Some (mkDec 13000000 (-2))) (Some (mkDec 13000000 (-2)))
            (Some (mkDec 0 (-2))) cerrada (Some ""%string)]
    /\ cerrar suma_exacta db1 950 (sesion_row s1) (mkDec 100 (-2)) ""
       = Ok (db2, s2)
    /\ sesiones db2
       = [mkSesion 1 7 500 (mkDec 10000000 (-2)) (Some 950)
            (Some (mkDec 13000000 (-2))) (Some (mkDec 100 (-2)))
            (Some (mkDec (-12999900) (-2))) cerrada (Some ""%string)].
Proof.
  eexists. eexists. eexists. eexists.
  split; [vm_compute; reflexivity|].
  split; [vm_compute; reflexivity|].
  split; vm_compute; reflexivity.
Qed.

(** ** Posting a manual movement *)

Section Posting.

(** The validator of the amount looks at the digits only. *)
Lemma DecimalValidator_neg (md dp : Z) (d : Decimal) :
  DecimalValidator md dp (Dec.neg d) = DecimalValidator md dp d.
Proof.
  unfold DecimalValidator, Dec.neg. simpl. rewrite Z.abs_opp.
  replace (- coef d =? 0) with (coef d =? 0); [reflexivity|].
  destruct (Z.eqb_spec (coef d) 0), (Z.eqb_spec (- coef d) 0); try reflexivity; lia.
Qed.

Lemma MovimientoCajaForm_is_valid_negar (form : MovimientoCajaForm) :
  MovimientoCajaForm_is_valid (form_negar form) = MovimientoCajaForm_is_valid form.
Proof.
  unfold MovimientoCajaForm_is_valid, form_negar. simpl.
  rewrite DecimalValidator_neg. reflexivity.
Qed.

End Posting.

(** C6, as the code has it.  For a cashier with one open session every
    movement that passes the form (manual concept, amount of at most 15
    digits and 2 decimals, a description that is not blank, of at most 255
    characters once stripped and without a null character) is recorded
    with the amount and the direction as submitted and the description
    stripped; the form accepts an amount exactly when it accepts its
    opposite, so the sign of the amount is never examined. *)
Theorem post_movement_any_sign :
  forall (db : DB) (now : datetime) (user : pk) (form : MovimientoCajaForm)
         (s : SesionCaja),
    get (sesiones_abiertas db user) = Ok s ->
    MovimientoCajaForm_is_valid form = true ->
    MovimientoCajaForm_is_valid (form_negar form) = true
    /\ exists db',
         MovimientoCajaCreateView_post db now user form
         = Ok (db', [msg SUCCESS "Movimiento registrado exitosamente."], dashboard)
         /\ movimientos db'
            = movimientos db
              ++ [mkMovimiento (next_pk db) (sesion_id s) (form_tipo form)
                    (form_concepto form) (Dec.stored (form_monto form))
                    (strip (form_descripcion form)) None now].
Proof.
  intros db now user form s Hget Hvalid. split.
  - rewrite MovimientoCajaForm_is_valid_negar. exact Hvalid.
  - unfold MovimientoCajaCreateView_post, MovimientoCajaCreateView_form_valid.
    rewrite Hvalid, Hget. eexists. split; reflexivity.
Qed.

(** C6 as stated fails: an amount of minus 5000 and an amount of zero are
    both recorded. *)
Lemma post_movement_not_positive_recorded :
  Dec.gtb (form_monto form_negativo) (Dec.of_Z 0) = false
  /\ Dec.gtb (form_monto form_cero) (Dec.of_Z 0) = false
  /\ (exists db',
        MovimientoCajaCreateView_post db_B 600 7 form_negativo
        = Ok (db', [msg SUCCESS "Movimiento registrado exitosamente."], dashboard)
        /\ movimientos db'
           = movimientos db_B
             ++ [mkMovimiento 4 1 egreso gasto (mkDec (-500000) (-2)) "ajuste" None 600])
  /\ (exists db',
        MovimientoCajaCreateView_post db_B 600 7 form_cero
        = Ok (db', [msg SUCCESS "Movimiento registrado exitosamente."], dashboard)
        /\ movimientos db'
           = movimientos db_B
             ++ [mkMovimiento 4 1 ingreso otro (mkDec 0 (-2)) "nada" None 600]).
Proof.
  split; [reflexivity|]. split; [reflexivity|].
  split; eexists; split; vm_compute; reflexivity.
Qed.

Lemma post_movement_any_sign_witness :
  MovimientoCajaForm_is_valid (form_negar form_negativo) = true
  /\ exists db',
       MovimientoCajaCreateView_post db_B 600 7 form_negativo
       = Ok (db', [msg SUCCESS "Movimiento registrado exitosamente."], dashboard)
       /\ movimientos db'
          = movimientos db_B
            ++ [mkMovimiento (next_pk db_B) (sesion_id sesion_B)
                  (form_tipo form_negativo) (form_concepto form_negativo)
                  (Dec.stored (form_monto form_negativo))
                  (strip (form_descripcion form_negativo)) None 600].
Proof.
  apply (post_movement_any_sign db_B 600 7 form_negativo sesion_B);
    vm_compute; reflexivity.
Defined.

(** ** Opening a session *)

(** [form_valid] of the opening view adds an open session whatever the
    cashier already holds. *)
Lemma AperturaCajaView_form_valid_abiertas db now user m obs :
  let '(db', _, _) := AperturaCajaView_form_valid db now user m obs in
  sesiones_abiertas db' user
  = sesiones_abiertas db user
    ++ [mkSesion (next_pk db) user now (Dec.stored m) None None None None
          abierta (Some obs)].
Proof.
  unfold AperturaCajaView_form_valid, sesiones_abiertas. simpl.
  rewrite filter_app. simpl. rewrite Z.eqb_refl. reflexivity.
Qed.

(** C8 at the failing input: the cashier 7 of scenario B holds an open
    session, the GET of the opening view turns them away, and yet a POST of
    the form opens a second session: two open sessions for one cashier. *)
Theorem open_session_twice :
  AperturaCajaView_get db_B 7
  = ([msg WARNING "Ya tiene una caja abierta."], dashboard)
  /\ let '(db', _, _) :=
       AperturaCajaView_form_valid db_B 700 7 (mkDec 5000000 (-2)) ""%string in
     sesiones_abiertas db' 7
     = [sesion_B;
        mkSesion 4 7 700 (mkDec 5000000 (-2)) None None None None abierta
          (Some ""%string)].
Proof. split; vm_compute; reflexivity. Qed.

(** ** Voiding an invoice *)

Section Voiding.

Variables (now : datetime) (motivo : string).

Lemma stored_idem (d : Decimal) : Dec.stored (Dec.stored d) = Dec.stored d.
Proof.
  unfold Dec.stored, Dec.quantize.
  destruct (-2 <=? expo d); simpl; rewrite Z.mul_1_r; reflexivity.
Qed.

Lemma Pasaje_cancelado_idem (p : Pasaje) :
  Pasaje_cancelado now motivo (Pasaje_cancelado now motivo p)
  = Pasaje_cancelado now motivo p.
Proof. unfold Pasaje_cancelado. simpl. rewrite stored_idem. reflexivity. Qed.

Lemma cancelar_referidos_id (ds : list DetalleFactura) (p : Pasaje) :
  pasaje_id (cancelar_referidos now motivo ds p) = pasaje_id p.
Proof. unfold cancelar_referidos. destruct (referenced ds p); reflexivity. Qed.

Lemma filter_map_pk (g : Pasaje -> Pasaje) (pid : pk) (l : list Pasaje) :
  (forall p, pasaje_id (g p) = pasaje_id p) ->
  filter (fun p => pasaje_id p =? pid) (map g l)
  = map g (filter (fun p => pasaje_id p =? pid) l).
Proof.
  intros Hg. induction l as [|p l IH]; [reflexivity|].
  simpl. rewrite Hg. destruct (pasaje_id p =? pid); simpl; rewrite IH; reflexivity.
Qed.

Lemma solo_pasajes_refl db : solo_pasajes db db.
Proof. unfold solo_pasajes. auto 10. Qed.

Lemma solo_pasajes_trans db1 db2 db3 :
  solo_pasajes db1 db2 -> solo_pasajes db2 db3 -> solo_pasajes db1 db3.
Proof.
  unfold solo_pasajes.
  intros (A1 & A2 & A3 & A4 & A5 & A6 & A7) (B1 & B2 & B3 & B4 & B5 & B6 & B7).
  repeat split; congruence.
Qed.

(** One round of the loop: the ticket of the line is cancelled. *)
Lemma cancelar_pasaje_step (db0 db : DB) (seen : list DetalleFactura)
      (d : DetalleFactura) :
  fk_pasaje_ok db0 d ->
  pasajes db = map (cancelar_referidos now motivo seen) (pasajes db0) ->
  exists db',
    cancelar_pasaje now motivo db d = Ok db'
    /\ pasajes db' = map (cancelar_referidos now motivo (seen ++ [d])) (pasajes db0)
    /\ solo_pasajes db db'.
Proof.
  intros Hfk Hdb. unfold cancelar_pasaje, fk_pasaje_ok in *.
  assert (forall p, referenced (seen ++ [d]) p = referenced seen p || refiere p d) as Href.
  { intros p. unfold referenced. rewrite existsb_app. simpl.
    rewrite orb_false_r. reflexivity. }
  destruct (detalle_pasaje d) as [pid|] eqn:Hd.
  - destruct Hfk as [p0 Hp0].
    rewrite Hdb, filter_map_pk by apply cancelar_referidos_id.
    rewrite Hp0. cbn [map get bind].
    eexists. split; [reflexivity|]. split; [|unfold solo_pasajes; simpl; auto 10].
    cbn [pasajes set_pasajes]. unfold save_row.
    assert (In p0 (pasajes db0)) as Hin0.
    { assert (In p0 (filter (fun p => pasaje_id p =? pid) (pasajes db0))) as H
          by (rewrite Hp0; left; reflexivity).
      apply filter_In in H. apply H. }
    assert (pasaje_id p0 = pid) as Hid0.
    { assert (In p0 (filter (fun p => pasaje_id p =? pid) (pasajes db0))) as H
          by (rewrite Hp0; left; reflexivity).
      apply filter_In in H. apply Z.eqb_eq, H. }
    replace (existsb _ _) with true.
    2:{ symmetry. apply existsb_exists.
        exists (cancelar_referidos now motivo seen p0). split.
        - apply in_map, Hin0.
        - simpl. rewrite !cancelar_referidos_id. apply Z.eqb_refl. }
    rewrite map_map. apply map_ext_in. intros p Hp.
    cbn [pasaje_id Pasaje_cancelado]. rewrite !cancelar_referidos_id, Hid0.
    unfold cancelar_referidos at 3. rewrite Href.
    unfold refiere at 1. rewrite Hd.
    destruct (pasaje_id p =? pid) eqn:E.
    + assert (p = p0) as ->.
      { assert (In p (filter (fun p => pasaje_id p =? pid) (pasajes db0))) as H
            by (apply filter_In; split; assumption).
        rewrite Hp0 in H. destruct H as [H|[]]. symmetry. exact H. }
      rewrite Z.eqb_sym, E, orb_true_r.
      unfold cancelar_referidos. destruct (referenced seen p0);
        [apply Pasaje_cancelado_idem|reflexivity].
    + rewrite Z.eqb_sym, E, orb_false_r. reflexivity.
  - eexists. split; [reflexivity|]. split; [|apply solo_pasajes_refl].
    rewrite Hdb. apply map_ext. intros p.
    unfold cancelar_referidos. rewrite Href. unfold refiere at 1. rewrite Hd.
    rewrite orb_false_r. reflexivity.
Qed.

(** The whole loop cancels exactly the tickets that the lines refer to. *)
Lemma for_each_cancelar (db0 : DB) (ds : list DetalleFactura) :
  Forall (fk_pasaje_ok db0) ds ->
  forall seen db,
    pasajes db = map (cancelar_referidos now motivo seen) (pasajes db0) ->
    exists db',
      for_each (cancelar_pasaje now motivo) ds db = Ok db'
      /\ pasajes db' = map (cancelar_referidos now motivo (seen ++ ds)) (pasajes db0)
      /\ solo_pasajes db db'.
Proof.
  induction 1 as [|d ds Hd _ IH]; intros seen db Hdb.
  - exists db. rewrite app_nil_r. split; [reflexivity|].
    split; [exact Hdb|apply solo_pasajes_refl].
  - destruct (cancelar_pasaje_step db0 db seen d Hd Hdb) as (db1 & H1 & Hp1 & Hf1).
    destruct (IH (seen ++ [d]) db1 Hp1) as (db2 & H2 & Hp2 & Hf2).
    exists db2. cbn [for_each]. rewrite H1. cbn [bind]. split; [exact H2|].
    split; [|eapply solo_pasajes_trans; eassumption].
    rewrite Hp2, <- app_assoc. reflexivity.
Qed.

Lemma referenced_filter (ds : list DetalleFactura) (p : Pasaje) :
  referenced (filter (fun d => isSome (detalle_pasaje d)) ds) p = referenced ds p.
Proof.
  unfold referenced. induction ds as [|d ds IH]; [reflexivity|].
  simpl. unfold refiere at 2. destruct (detalle_pasaje d) as [pid|] eqn:Hd; simpl.
  - unfold refiere at 1. rewrite Hd, IH. reflexivity.
  - exact IH.
Qed.

End Voiding.

Section VoidingService.

Variables (db : DB) (now : datetime) (f : Factura) (motivo : string) (user : pk).
Hypothesis emitida_f : estado f = emitida.
Hypothesis integridad : Forall (fk_pasaje_ok db) (factura_detalles db f).

Lemma Forall_filter_bool {A : Type} (P : A -> Prop) (g : A -> bool) (l : list A) :
  Forall P l -> Forall P (filter g l).
Proof.
  induction 1 as [|x l Hx _ IH]; simpl; [constructor|].
  destruct (g x); [constructor|]; assumption.
Qed.

(** The last loop, started from a database [db2] that has the lines and
    the tickets of [db]. *)
Lemma anular_loop (db2 : DB) :
  detalles db2 = detalles db ->
  pasajes db2 = pasajes db ->
  exists db3,
    for_each (cancelar_pasaje now motivo)
      (filter (fun d => isSome (detalle_pasaje d))
         (factura_detalles db2 (set_anulada f motivo now))) db2
    = Ok db3
    /\ pasajes db3
       = map (cancelar_referidos now motivo (factura_detalles db f)) (pasajes db)
    /\ solo_pasajes db2 db3.
Proof.
  intros Hd Hp.
  assert (factura_detalles db2 (set_anulada f motivo now)
          = factura_detalles db f) as ->.
  { unfold factura_detalles. rewrite Hd. reflexivity. }
  destruct (for_each_cancelar now motivo db
              (filter (fun d => isSome (detalle_pasaje d)) (factura_detalles db f))
              (Forall_filter_bool _ _ _ integridad) [] db2)
    as (db3 & H3 & Hp3 & Hf3).
  - rewrite Hp. rewrite <- (map_id (pasajes db)) at 1. apply map_ext.
    intros p. reflexivity.
  - exists db3. split; [exact H3|]. split; [|exact Hf3].
    rewrite Hp3. apply map_ext. intros p. unfold cancelar_referidos.
    cbn [app]. rewrite referenced_filter. reflexivity.
Qed.

(** Voiding without a cash reversal: no reversal requested, or no open
    session of the user. *)
Lemma anular_factura_sin_reversion (revertir_caja : bool) :
  revertir_caja = false \/ sesiones_abiertas db user = [] ->
  exists db',
    anular_factura db now f motivo user revertir_caja
    = Ok (db', set_anulada f motivo now)
    /\ facturas db'
       = save_row factura_id (factura_row (set_anulada f motivo now)) (facturas db)
    /\ pasajes db'
       = map (cancelar_referidos now motivo (factura_detalles db f)) (pasajes db)
    /\ movimientos db' = movimientos db
    /\ sesiones db' = sesiones db
    /\ encomiendas db' = encomiendas db
    /\ timbrados db' = timbrados db.
Proof.
  intros Hcase. unfold anular_factura. rewrite emitida_f.
  set (f' := set_anulada f motivo now). set (db1 := Factura_save db f').
  assert ((if revertir_caja
           then match get (sesiones_abiertas db1 user) with
                | Ok sesion =>
                    do t <- factura_timbrado db1 f';
                    Ok (MovimientoCaja_create db1 now (sesion_id sesion) egreso
                          anulacion (total f')
                          ("Anulación factura " ++ numero_completo t f')%string
                          (Some (factura_id f')))
                | Raise DoesNotExist => Ok db1
                | Raise e => Raise e
                end
           else Ok db1) = Ok db1) as ->.
  { destruct Hcase as [->|Hnone]; [reflexivity|].
    destruct revertir_caja; [|reflexivity].
    replace (sesiones_abiertas db1 user) with (sesiones_abiertas db user)
      by reflexivity.
    rewrite Hnone. reflexivity. }
  cbn [bind].
  destruct (anular_loop db1 eq_refl eq_refl) as (db3 & H3 & Hp3 & Hf3).
  fold f' in H3. rewrite H3.
  cbn [bind]. exists db3. split; [reflexivity|].
  destruct Hf3 as (Htim & Hfac & _ & Hses & Hmov & Henc & _).
  repeat split; assumption.
Qed.

(** Voiding with a cash reversal: the user has one open session. *)
Lemma anular_factura_con_reversion (s : SesionCaja) (t : Timbrado) :
  get (sesiones_abiertas db user) = Ok s ->
  factura_timbrado db f = Ok t ->
  exists db',
    anular_factura db now f motivo user true
    = Ok (db', set_anulada f motivo now)
    /\ facturas db'
       = save_row factura_id (factura_row (set_anulada f motivo now)) (facturas db)
    /\ pasajes db'
       = map (cancelar_referidos now motivo (factura_detalles db f)) (pasajes db)
    /\ movimientos db'
       = movimientos db
         ++ [movimiento_anulacion db now s t (set_anulada f motivo now)]
    /\ sesiones db' = sesiones db
    /\ encomiendas db' = encomiendas db
    /\ timbrados db' = timbrados db.
Proof.
  intros Hs Ht. unfold anular_factura. rewrite emitida_f.
  set (f' := set_anulada f motivo now). set (db1 := Factura_save db f').
  replace (sesiones_abiertas db1 user) with (sesiones_abiertas db user)
    by reflexivity.
  replace (factura_timbrado db1 f') with (factura_timbrado db f) by reflexivity.
  rewrite Hs, Ht. cbn [bind].
  set (db2 := MovimientoCaja_create db1 now _ _ _ _ _ _).
  destruct (anular_loop db2 eq_refl eq_refl) as (db3 & H3 & Hp3 & Hf3).
  fold f' in H3. rewrite H3.
  cbn [bind]. exists db3. split; [reflexivity|].
  destruct Hf3 as (Htim & Hfac & _ & Hses & Hmov & Henc & _).
  repeat split; try assumption.
Qed.

End VoidingService.

(** A row read from the database is written back as it is. *)
Lemma stored_guardado (d : Decimal) : expo d = -2 -> Dec.stored d = d.
Proof. destruct d as [c e]. cbn [expo]. intros ->. apply stored_scale2. Qed.

Lemma factura_row_guardada (f : Factura) :
  factura_guardada f -> factura_row f = f.
Proof.
  intros ([H1 _] & [H2 _] & [H3 _] & [H4 _] & [H5 _] & [H6 _] & [H7 _]).
  unfold factura_row, set_totales.
  rewrite !stored_guardado by assumption. destruct f; reflexivity.
Qed.

Lemma cancelar_referidos_guardados (now : datetime) (motivo : string)
      (ds : list DetalleFactura) (ps : list Pasaje) :
  Forall pasaje_guardado ps ->
  map (cancelar_referidos now motivo ds) ps
  = map (fun p =>
           if referenced ds p
           then mkPasaje (pasaje_id p) (pasaje_origen p) (pasaje_destino p)
                  (pasaje_precio p) pasaje_cancelado (Some now)
                  (Some ("Factura anulada: " ++ motivo)%string)
           else p) ps.
Proof.
  induction 1 as [|p ps [Hp _] _ IH]; [reflexivity|].
  cbn [map]. rewrite IH. f_equal.
  unfold cancelar_referidos, Pasaje_cancelado.
  rewrite (stored_guardado _ Hp). reflexivity.
Qed.

(** C3.  Voiding an issued invoice (with the default
    [revertir_caja=True]) by a user who holds at most one open session
    succeeds and saves the invoice as [anulada]; every ticket that a line
    of the invoice refers to becomes [cancelado] with the cancellation
    timestamp and the reason ["Factura anulada: " ++ motivo], every other
    ticket stays as it is; the parcel table is unchanged; when the user
    has an open session exactly one movement is appended, an [egreso] of
    concept [anulacion] for the invoice total, in that session, linked to
    the invoice; without an open session none is.  The invoice and the
    tickets are rows of the database: their amounts are column values. *)
Theorem void_invoice_roundtrip :
  forall (db : DB) (now : datetime) (f : Factura) (motivo : string) (user : pk)
         (t : Timbrado),
    estado f = emitida ->
    factura_guardada f ->
    Forall pasaje_guardado (pasajes db) ->
    Forall (fk_pasaje_ok db) (factura_detalles db f) ->
    (List.length (sesiones_abiertas db user) <= 1)%nat ->
    factura_timbrado db f = Ok t ->
    let f' := set_anulada f motivo now in
    exists db',
      anular_factura db now f motivo user true = Ok (db', f')
      /\ estado f' = anulada
      /\ In f' (facturas db')
      /\ pasajes db'
         = map (fun p =>
                  if referenced (factura_detalles db f) p
                  then mkPasaje (pasaje_id p) (pasaje_origen p) (pasaje_destino p)
                         (pasaje_precio p) pasaje_cancelado (Some now)
                         (Some ("Factura anulada: " ++ motivo)%string)
                  else p) (pasajes db)
      /\ encomiendas db' = encomiendas db
      /\ (forall s, In s (sesiones_abiertas db user) ->
            movimientos db'
            = movimientos db
              ++ [mkMovimiento (next_pk db) (sesion_id s) egreso anulacion
                    (total f)
                    ("Anulación factura " ++ numero_completo t f)%string
                    (Some (factura_id f)) now])
      /\ (sesiones_abiertas db user = [] -> movimientos db' = movimientos db).
Proof.
  intros db now f motivo user t Hest Hg Hps Hfk Huna Ht f'.
  assert (factura_row f' = f') as Hrow.
  { apply factura_row_guardada. exact Hg. }
  destruct (sesiones_abiertas db user) as [|s [|s2 l]] eqn:Hab.
  - destruct (anular_factura_sin_reversion db now f motivo user Hest Hfk true
                (or_intror Hab))
      as (db' & H & Hf & Hp & Hm & _ & He & _).
    exists db'. split; [exact H|]. split; [reflexivity|].
    split; [rewrite Hf; fold f'; rewrite Hrow; apply save_row_In|].
    split; [rewrite Hp; apply cancelar_referidos_guardados, Hps|].
    split; [exact He|]. split; [intros s []|intros _; exact Hm].
  - assert (get (sesiones_abiertas db user) = Ok s) as Hs
        by (rewrite Hab; reflexivity).
    destruct (anular_factura_con_reversion db now f motivo user Hest Hfk s t Hs Ht)
      as (db' & H & Hf & Hp & Hm & _ & He & _).
    exists db'. split; [exact H|]. split; [reflexivity|].
    split; [rewrite Hf; fold f'; rewrite Hrow; apply save_row_In|].
    split; [rewrite Hp; apply cancelar_referidos_guardados, Hps|].
    split; [exact He|]. split; [|discriminate].
    intros s' [<-|[]]. rewrite Hm.
    unfold movimiento_anulacion. cbn [total set_anulada].
    destruct Hg as (_ & _ & _ & [Hte _] & _).
    rewrite (stored_guardado _ Hte). reflexivity.
  - cbn [List.length] in Huna. lia.
Qed.

(** The view of the void, for a user without an open session: the
    movement is skipped, and the caller is still told that an egress was
    registered. *)
Lemma FacturaAnularView_post_sin_sesion :
  forall (db : DB) (now : datetime) (f : Factura) (motivo : string) (user : pk)
         (t : Timbrado),
    estado f = emitida ->
    Forall (fk_pasaje_ok db) (factura_detalles db f) ->
    sesiones_abiertas db user = [] ->
    factura_timbrado db f = Ok t ->
    exists db',
      anular_factura db now f motivo user true
      = Ok (db', set_anulada f motivo now)
      /\ In (factura_row (set_anulada f motivo now)) (facturas db')
      /\ movimientos db' = movimientos db
      /\ sesiones db' = sesiones db
      /\ FacturaAnularView_post db now f user motivo true
         = Ok (db',
               [msg SUCCESS ("Factura " ++ numero_completo t f ++ " anulada.");
                msg INFO "Se registró un egreso en caja para revertir el pago."],
               Redirect "operations:factura_detail" (Some (factura_id f))).
Proof.
  intros db now f motivo user t Hest Hfk Hnone Hft.
  destruct (anular_factura_sin_reversion db now f motivo user Hest Hfk true
              (or_intror Hnone))
    as (db' & H & Hf & _ & Hm & Hs & _ & Ht).
  exists db'. split; [exact H|].
  split; [rewrite Hf; apply save_row_In|].
  split; [exact Hm|]. split; [exact Hs|].
  unfold FacturaAnularView_post. rewrite H.
  replace (factura_timbrado db' (set_anulada f motivo now))
    with (factura_timbrado db f)
    by (unfold factura_timbrado; rewrite Ht; reflexivity).
  rewrite Hft. reflexivity.
Qed.

(** C7 at the failing input.  The cashier 8 of scenario D has no open
    session and voids the invoice with [revertir_caja=True]: the void
    succeeds, the invoice is saved as [anulada], no movement is posted and
    no session is touched, as claimed; but the caller is told of no
    warning: the messages of the view are a success and the information
    that an egress was registered in the cash session, which did not
    happen.  The same messages come out for every issued invoice of the
    database voided by a user without an open session. *)
Theorem void_without_open_session :
  sesiones_abiertas db_D 8 = []
  /\ (exists db',
        anular_factura db_D 800 factura_D "error de carga" 8 true
        = Ok (db', set_anulada factura_D "error de carga" 800)
        /\ estado (set_anulada factura_D "error de carga" 800) = anulada
        /\ facturas db' = [set_anulada factura_D "error de carga" 800]
        /\ movimientos db' = []
        /\ sesiones db' = sesiones db_D
        /\ FacturaAnularView_post db_D 800 factura_D 8 "error de carga" true
           = Ok (db',
                 [msg SUCCESS "Factura 001-001-0000001 anulada.";
                  msg INFO "Se registró un egreso en caja para revertir el pago."],
                 Redirect "operations:factura_detail" (Some 10)))
  /\ (forall (db : DB) (now : datetime) (f : Factura) (motivo : string)
             (user : pk) (t : Timbrado),
        estado f = emitida ->
        factura_guardada f ->
        Forall pasaje_guardado (pasajes db) ->
        Forall (fk_pasaje_ok db) (factura_detalles db f) ->
        sesiones_abiertas db user = [] ->
        factura_timbrado db f = Ok t ->
        exists db',
          FacturaAnularView_post db now f user motivo true
          = Ok (db',
                [msg SUCCESS ("Factura " ++ numero_completo t f ++ " anulada.");
                 msg INFO "Se registró un egreso en caja para revertir el pago."],
                Redirect "operations:factura_detail" (Some (factura_id f)))
          /\ In (set_anulada f motivo now) (facturas db')
          /\ movimientos db' = movimientos db
          /\ sesiones db' = sesiones db).
Proof.
  split; [reflexivity|]. split.
  - eexists. split; [vm_compute; reflexivity|].
    split; [reflexivity|]. split; [reflexivity|]. split; [reflexivity|].
    split; [reflexivity|]. vm_compute. reflexivity.
  - intros db now f motivo user t Hest Hg _ Hfk Hnone Hft.
    destruct (FacturaAnularView_post_sin_sesion db now f motivo user t
                Hest Hfk Hnone Hft)
      as (db' & _ & Hf & Hm & Hs & Hv).
    exists db'. split; [exact Hv|].
    split; [rewrite <- (factura_row_guardada (set_anulada f motivo now) Hg);
            exact Hf|].
    split; [exact Hm|exact Hs].
Qed.

(** ** Amount in words *)

Section AmountInWords.

(** The function unfolds as it is written. *)
Lemma numero_a_letras_body (numero : Z) :
  numero_a_letras numero =
  if numero =? 0 then Ok "CERO GUARANÍES"%string
  else if numero <? 1000 then
    do texto <- convertir_grupo numero;
    Ok (texto ++ GUARANIES)%string
  else if numero <? 1000000 then
    let miles := numero / 1000 in
    let resto := numero mod 1000 in
    do texto <-
      (if miles =? 1 then Ok "MIL"%string
       else do g <- convertir_grupo miles; Ok (g ++ " MIL")%string);
    do texto <-
      (if resto >? 0
       then do g <- convertir_grupo resto; Ok (texto ++ (" " ++ g))%string
       else Ok texto);
    Ok (texto ++ GUARANIES)%string
  else
    let millones := numero / 1000000 in
    let resto := numero mod 1000000 in
    do texto <-
      (if millones =? 1 then Ok "UN MILLÓN"%string
       else do g <- convertir_grupo millones; Ok (g ++ " MILLONES")%string);
    do texto <-
      (if resto >? 0
       then do r <- numero_a_letras resto;
            Ok (texto ++ (" " ++ replace GUARANIES "" r))%string
       else Ok texto);
    Ok (texto ++ GUARANIES)%string.
Proof.
  rewrite numero_a_letras_equation_1.
  destruct (Z.eq_dec numero 0) as [E0|E0]; simpl.
  - subst. reflexivity.
  - destruct (Z.eqb_spec numero 0); [contradiction|].
    destruct (Z_lt_dec numero 1000) as [E1|E1]; simpl;
      destruct (Z.ltb_spec numero 1000); try lia; [reflexivity|].
    destruct (Z_lt_dec numero 1000000) as [E2|E2]; simpl;
      destruct (Z.ltb_spec numero 1000000); try lia; reflexivity.
Qed.

Lemma convertir_grupo_hasta_mil :
  forallb (fun k => is_ok (convertir_grupo (Z.of_nat k))) (seq 0 1000) = true.
Proof. vm_compute. reflexivity. Qed.

(** Every group of three digits has a text. *)
Lemma convertir_grupo_total (n : Z) :
  0 <= n < 1000 -> exists s, convertir_grupo n = Ok s.
Proof.
  intros Hn. pose proof convertir_grupo_hasta_mil as H.
  rewrite forallb_forall in H.
  assert (In (Z.to_nat n) (seq 0 1000)) as Hin by (apply in_seq; lia).
  apply H in Hin. rewrite Z2Nat.id in Hin by lia.
  destruct (convertir_grupo n) as [s|e]; [exists s; reflexivity|discriminate Hin].
Qed.

(** A group of four digits or more falls off the table of the hundreds. *)
Lemma convertir_grupo_IndexError (n : Z) :
  1000 <= n -> convertir_grupo n = Raise IndexError.
Proof.
  intros Hn. unfold convertir_grupo.
  destruct (Z.eqb_spec n 0); [lia|]. destruct (Z.eqb_spec n 100); [lia|].
  destruct (n >=? 100) eqn:E; [|rewrite Z.geb_leb in E; apply Z.leb_gt in E; lia].
  assert (10 <= n / 100) by (apply Z.div_le_lower_bound; lia).
  unfold getitem. change (Z.of_nat (List.length centenas)) with 10.
  destruct (Z.ltb_spec (n / 100) 0); [lia|].
  destruct (Z.leb_spec 0 (n / 100)); [|lia].
  destruct (Z.ltb_spec (n / 100) 10); [lia|]. reflexivity.
Qed.

Lemma numero_a_letras_hasta_millon (n : Z) :
  0 <= n < 1000000 -> exists texto, numero_a_letras n = Ok (texto ++ GUARANIES)%string.
Proof.
  intros Hn. rewrite numero_a_letras_body.
  destruct (Z.eqb_spec n 0); [exists "CERO"%string; reflexivity|].
  destruct (Z.ltb_spec n 1000).
  - destruct (convertir_grupo_total n) as [s ->]; [lia|]. exists s. reflexivity.
  - destruct (Z.ltb_spec n 1000000); [|lia]. cbv zeta.
    assert (0 <= n / 1000 < 1000) as Hm.
    { split; [apply Z.div_pos; lia|apply Z.div_lt_upper_bound; lia]. }
    assert (0 <= n mod 1000 < 1000) as Hr by (apply Z.mod_pos_bound; lia).
    destruct (convertir_grupo_total _ Hm) as [g ->].
    destruct (convertir_grupo_total _ Hr) as [h ->].
    destruct (n / 1000 =? 1), (n mod 1000 >? 0); cbn [bind];
      eexists; reflexivity.
Qed.

Lemma numero_a_letras_hasta_mil_millones (n : Z) :
  0 <= n < 1000000000 ->
  exists texto, numero_a_letras n = Ok (texto ++ GUARANIES)%string.
Proof.
  intros Hn. destruct (Z_lt_dec n 1000000) as [Hlt|Hge].
  - apply numero_a_letras_hasta_millon. lia.
  - rewrite numero_a_letras_body.
    destruct (Z.eqb_spec n 0); [lia|]. destruct (Z.ltb_spec n 1000); [lia|].
    destruct (Z.ltb_spec n 1000000); [lia|]. cbv zeta.
    assert (0 <= n / 1000000 < 1000) as Hm.
    { split; [apply Z.div_pos; lia|apply Z.div_lt_upper_bound; lia]. }
    assert (0 <= n mod 1000000 < 1000000) as Hr by (apply Z.mod_pos_bound; lia).
    destruct (convertir_grupo_total _ Hm) as [g ->].
    destruct (numero_a_letras_hasta_millon _ Hr) as [h ->].
    destruct (n / 1000000 =? 1), (n mod 1000000 >? 0); cbn [bind];
      eexists; reflexivity.
Qed.

Lemma numero_a_letras_desde_mil_millones (n : Z) :
  1000000000 <= n -> numero_a_letras n = Raise IndexError.
Proof.
  intros Hn. rewrite numero_a_letras_body.
  destruct (Z.eqb_spec n 0); [lia|]. destruct (Z.ltb_spec n 1000); [lia|].
  destruct (Z.ltb_spec n 1000000); [lia|]. cbv zeta.
  assert (1000 <= n / 1000000) by (apply Z.div_le_lower_bound; lia).
  destruct (Z.eqb_spec (n / 1000000) 1); [lia|].
  rewrite convertir_grupo_IndexError by assumption. reflexivity.
Qed.

End AmountInWords.

(** C9 at the failing input.  [numero_a_letras] is a total function (its
    recursion is on [numero % 1000000]), gives ["CERO GUARANÍES"] for 0 and
    a text ending in ["GUARANÍES"] for every amount below one thousand
    million; from one thousand million on it raises IndexError, the group
    of the millions having four digits or more. *)
Theorem numero_a_letras_mil_millones :
  numero_a_letras 0 = Ok "CERO GUARANÍES"%string
  /\ numero_a_letras 999999999
     = Ok ("NOVECIENTOS NOVENTA Y NUEVE MILLONES NOVECIENTOS NOVENTA Y NUEVE MIL "
           ++ "NOVECIENTOS NOVENTA Y NUEVE GUARANÍES")%string
  /\ numero_a_letras 1000000000 = Raise IndexError
  /\ (forall n, 0 <= n < 1000000000 ->
        exists texto, numero_a_letras n = Ok (texto ++ " GUARANÍES")%string)
  /\ (forall n, 1000000000 <= n -> numero_a_letras n = Raise IndexError).
Proof.
  split; [rewrite numero_a_letras_body; reflexivity|].
  split.
  { rewrite numero_a_letras_body. cbn [Z.eqb Z.ltb Z.compare Pos.compare
      Pos.compare_cont]. cbv zeta.
    change (999999999 mod 1000000) with 999999.
    change (999999999 / 1000000) with 999.
    rewrite (numero_a_letras_body 999999). vm_compute. reflexivity. }
  split; [apply numero_a_letras_desde_mil_millones; lia|].
  split; [apply numero_a_letras_hasta_mil_millones|].
  apply numero_a_letras_desde_mil_millones.
Qed.

(** ** Totals of an invoice *)

Section InvoiceTotals.

Variables (db : DB) (f : Factura).

Hypothesis guardados :
  Forall (fun d => stored_amount (subtotal d)) (factura_detalles db f).
Hypothesis pocos : Z.of_nat (List.length (factura_detalles db f)) < 10 ^ 11.

Lemma suma_abs_factura : suma_abs (factura_detalles db f) < 10 ^ 26.
Proof.
  pose proof (suma_abs_bound _ guardados) as H.
  change (10 ^ 26) with (10 ^ 11 * 10 ^ 15).
  assert (0 < 10 ^ 15) by reflexivity. nia.
Qed.

Lemma calcular_totales_sumas :
  fold_left acumular (factura_detalles db f) (Dec.zero2, Dec.zero2, Dec.zero2)
  = (mkDec (suma_banda 0 (factura_detalles db f)) (-2),
     mkDec (suma_banda 5 (factura_detalles db f)) (-2),
     mkDec (suma_banda 10 (factura_detalles db f)) (-2)).
Proof.
  pose proof suma_abs_factura as Hb.
  assert (10 ^ 26 < 10 ^ 28) by reflexivity.
  unfold Dec.zero2. rewrite acumular_exact; simpl Z.abs; try lia.
  - reflexivity.
  - eapply Forall_impl; [|exact guardados]. intros d [He _]. exact He.
Qed.

End InvoiceTotals.

(** C2, as the code has it.  For an invoice whose lines carry the bands 0,
    5 and 10 and hold stored amounts (fewer than 10^11 lines),
    [calcular_totales] yields the three subtotals as the sums of the line
    subtotals per band, [total] as the sum of all line subtotals, [iva_5]
    and [iva_10] as the Decimal quotients of [subtotal * 5] by 105 and of
    [subtotal * 10] by 110 at the precision of the context (correctly
    rounded to 28 significant digits, not to two decimals), and
    [total_iva] as their Decimal sum. *)
Theorem invoice_totals :
  forall (db : DB) (f : Factura),
    Forall banda (factura_detalles db f) ->
    Forall (fun d => stored_amount (subtotal d)) (factura_detalles db f) ->
    Z.of_nat (List.length (factura_detalles db f)) < 10 ^ 11 ->
    let ds := factura_detalles db f in
    let f' := calcular_totales db f in
    subtotal_exenta f' = mkDec (suma_banda 0 ds) (-2)
    /\ subtotal_iva5 f' = mkDec (suma_banda 5 ds) (-2)
    /\ subtotal_iva10 f' = mkDec (suma_banda 10 ds) (-2)
    /\ total f'
       = mkDec (fold_right Z.add 0 (map (fun d => coef (subtotal d)) ds)) (-2)
    /\ iva_5 f' = Dec.div (mkDec (suma_banda 5 ds * 5) (-2)) (Dec.of_Z 105)
    /\ iva_10 f' = Dec.div (mkDec (suma_banda 10 ds * 10) (-2)) (Dec.of_Z 110)
    /\ quotient_at_precision (suma_banda 5 ds * 5) 105 (iva_5 f')
    /\ quotient_at_precision (suma_banda 10 ds * 10) 110 (iva_10 f')
    /\ total_iva f' = Dec.add (iva_5 f') (iva_10 f').
Proof.
  intros db f Hb Hs Hn ds f'.
  pose proof (suma_abs_factura db f Hs Hn) as Hsum.
  pose proof (suma_banda_abs 0 ds) as H0.
  pose proof (suma_banda_abs 5 ds) as H5.
  pose proof (suma_banda_abs 10 ds) as H10.
  pose proof (suma_bandas_total ds Hb) as Htot.
  fold ds in Hsum.
  assert (10 ^ 26 * 11 < 10 ^ 28) as Hlt by reflexivity.
  assert (10 ^ 26 * 10 = 10 ^ 27) as H27 by reflexivity.
  assert (iva_5 f' = Dec.div (mkDec (suma_banda 5 ds * 5) (-2)) (Dec.of_Z 105)
          /\ iva_10 f' = Dec.div (mkDec (suma_banda 10 ds * 10) (-2)) (Dec.of_Z 110))
    as [Hi5 Hi10].
  { subst f'. unfold calcular_totales.
    rewrite (calcular_totales_sumas db f Hs Hn). fold ds. cbn [iva_5 iva_10 set_totales].
    change (Dec.of_Z 5) with (mkDec 5 0). change (Dec.of_Z 10) with (mkDec 10 0).
    rewrite !mul_exact by lia.
    replace (-2 + 0) with (-2) by lia. split; reflexivity. }
  assert (subtotal_exenta f' = mkDec (suma_banda 0 ds) (-2)
          /\ subtotal_iva5 f' = mkDec (suma_banda 5 ds) (-2)
          /\ subtotal_iva10 f' = mkDec (suma_banda 10 ds) (-2)
          /\ total f'
             = mkDec (fold_right Z.add 0 (map (fun d => coef (subtotal d)) ds)) (-2)
          /\ total_iva f' = Dec.add (iva_5 f') (iva_10 f'))
    as (Hex & Hs5 & Hs10 & Ht & Hti).
  { subst f'. unfold calcular_totales.
    rewrite (calcular_totales_sumas db f Hs Hn). fold ds.
    cbn [subtotal_exenta subtotal_iva5 subtotal_iva10 total total_iva iva_5 iva_10
         set_totales].
    rewrite !add_exact by lia. rewrite <- Htot. repeat split; reflexivity. }
  repeat (split; [assumption|]).
  split; [rewrite Hi5; apply div_rounded; lia|].
  split; [rewrite Hi10; apply div_rounded; lia|].
  exact Hti.
Qed.

(** Scenario C: one line of 110000 in the 10% band gives
    [subtotal_iva10 = 110000], [iva_10 = 10000.00], [total = 110000]. *)
Example calcular_totales_escenario_C :
  let f' := calcular_totales db_C factura_C in
  subtotal_iva10 f' = mkDec 11000000 (-2)
  /\ iva_10 f' = mkDec 1000000 (-2)
  /\ total_iva f' = mkDec 1000000 (-2)
  /\ total f' = mkDec 11000000 (-2).
Proof. vm_compute. repeat split; reflexivity. Qed.

Lemma not_two_decimals (c e : Z) :
  e <= -2 -> c mod 10 ^ (-2 - e) <> 0 -> ~ two_decimals (mkDec c e).
Proof.
  intros He Hc [x Hx]. apply Hc. unfold Dec.eqb, Dec.align in Hx. simpl in Hx.
  rewrite Z.min_l in Hx by lia. rewrite Z.sub_diag in Hx.
  apply Z.eqb_eq in Hx. change (10 ^ 0) with 1 in Hx. rewrite Z.mul_1_r in Hx.
  subst c. apply Z.mod_mul. apply Z.pow_nonzero; lia.
Qed.

(** C2 as stated fails on the invoice of scenario E: the taxes that
    [calcular_totales] leaves in the invoice carry 30 decimals and are no
    whole numbers of hundredths; and once every field is rounded to two
    decimals by the save, the stored [total_iva] (0.01) is not the sum of
    the stored [iva_5] and [iva_10] (0.00 each). *)
Lemma calcular_totales_not_two_decimals :
  iva_5 (calcular_totales db_E factura_C)
  = mkDec 4285714285714285714285714286 (-30)
  /\ iva_10 (calcular_totales db_E factura_C)
     = mkDec 4545454545454545454545454545 (-30)
  /\ ~ two_decimals (iva_5 (calcular_totales db_E factura_C))
  /\ ~ two_decimals (iva_10 (calcular_totales db_E factura_C))
  /\ total_iva (factura_row (calcular_totales db_E factura_C)) = mkDec 1 (-2)
  /\ Dec.add (iva_5 (factura_row (calcular_totales db_E factura_C)))
             (iva_10 (factura_row (calcular_totales db_E factura_C)))
     = mkDec 0 (-2).
Proof.
  assert (iva_5 (calcular_totales db_E factura_C)
          = mkDec 4285714285714285714285714286 (-30)) as H5
      by (vm_compute; reflexivity).
  assert (iva_10 (calcular_totales db_E factura_C)
          = mkDec 4545454545454545454545454545 (-30)) as H10
      by (vm_compute; reflexivity).
  split; [exact H5|]. split; [exact H10|].
  split; [rewrite H5; apply not_two_decimals; [lia|vm_compute; discriminate]|].
  split; [rewrite H10; apply not_two_decimals; [lia|vm_compute; discriminate]|].
  split; vm_compute; reflexivity.
Qed.

Lemma invoice_totals_witness :
  Forall banda (factura_detalles db_E factura_C)
  /\ Forall (fun d => stored_amount (subtotal d)) (factura_detalles db_E factura_C)
  /\ subtotal_iva5 (calcular_totales db_E factura_C) = mkDec 9 (-2)
  /\ subtotal_iva10 (calcular_totales db_E factura_C) = mkDec 5 (-2)
  /\ total (calcular_totales db_E factura_C) = mkDec 14 (-2).
Proof.
  assert (Forall banda (factura_detalles db_E factura_C)) as Hb.
  { repeat constructor; unfold banda; simpl; lia. }
  assert (Forall (fun d => stored_amount (subtotal d))
            (factura_detalles db_E factura_C)) as Hs.
  { repeat constructor; simpl; lia. }
  assert (Z.of_nat (List.length (factura_detalles db_E factura_C)) < 10 ^ 11) as Hn.
  { vm_compute. reflexivity. }
  pose proof (invoice_totals db_E factura_C Hb Hs Hn) as H.
  split; [exact Hb|]. split; [exact Hs|].
  split; [exact (proj1 (proj2 H))|].
  split; [exact (proj1 (proj2 (proj2 H)))|].
  exact (proj1 (proj2 (proj2 (proj2 H)))).
Defined.

(** Scenario A: the license [1, 3] issues 1, 2, 3 and then is exhausted. *)
Lemma fiscal_sequence_allocation_witness :
  facturas_pk_ok db_A
  /\ esta_vigente 100 timbrado_A = true
  /\ timbrado_facturas db_A timbrado_A = []
  /\ emitir db_A 100 timbrado_A [pedido_A; pedido_A; pedido_A; pedido_A]
     = [Ok 1; Ok 2; Ok 3; Raise (ValueError msg_agotado)].
Proof.
  assert (facturas_pk_ok db_A) as Hpk by (intros f []).
  assert (Forall con_items [pedido_A; pedido_A; pedido_A; pedido_A]) as Hitems.
  { assert (con_items pedido_A) as H by (left; discriminate).
    repeat (constructor; [exact H|]). constructor. }
  split; [exact Hpk|]. split; [reflexivity|]. split; [reflexivity|].
  exact (proj2 (fiscal_sequence_allocation db_A timbrado_A) 100
           [pedido_A; pedido_A; pedido_A; pedido_A] Hpk eq_refl eq_refl Hitems).
Defined.

(** Scenario B: the expected amount is 130000 and, counted 130000, the
    difference is zero. *)
Lemma cash_session_close_arithmetic_witness :
  expo (monto_apertura sesion_B) = -2
  /\ Dec.eqb (fst (calcular_cierre suma_exacta db_B sesion_B))
             (mkDec 13000000 (-2)) = true
  /\ exists db' s',
       cerrar suma_exacta db_B 900 sesion_B (mkDec 130000 0) "" = Ok (db', s')
       /\ In (mkSesion 1 7 500 (mkDec 10000000 (-2)) (Some 900)
                (Some (mkDec 13000000 (-2))) (Some (mkDec 13000000 (-2)))
                (Some (mkDec 0 (-2))) cerrada (Some ""%string))
             (sesiones db').
Proof.
  assert (Forall (fun m => expo (monto m) = -2)
            (sesion_movimientos db_B sesion_B)) as Hm.
  { repeat constructor. }
  assert (suma_fiel suma_exacta
            (filter (fun m => MovimientoTipo_eqb (mov_tipo m) ingreso)
               (sesion_movimientos db_B sesion_B))) as Hin.
  { apply suma_exacta_fiel, Forall_filter, Hm. }
  assert (suma_fiel suma_exacta
            (filter (fun m => MovimientoTipo_eqb (mov_tipo m) egreso)
               (sesion_movimientos db_B sesion_B))) as Heg.
  { apply suma_exacta_fiel, Forall_filter, Hm. }
  assert (-2 <= 0) as Her by lia.
  assert (Z.abs (coef (monto_apertura sesion_B))
          + magnitud (sesion_movimientos db_B sesion_B)
          + Z.abs (130000 * 10 ^ (0 + 2)) < 10 ^ 15) as Hb.
  { vm_compute. reflexivity. }
  pose proof (cash_session_close_arithmetic suma_exacta db_B 900 sesion_B 130000
                0 "" eq_refl Hin Heg Her Hb) as H.
  cbv zeta in H. split; [reflexivity|]. split; [exact (proj1 H)|].
  destruct H as [_ (db' & s' & e & d & Hc & _ & _ & _ & _ & _ & _ & _ & Hrow)].
  exists db', s'. split; [exact Hc|exact Hrow].
Defined.

(** Scenario B, continued: the close through the view succeeds and the
    second close is refused. *)
Lemma close_session_twice_witness :
  get (sesiones_abiertas db_B 7) = Ok sesion_B
  /\ exists db1,
       CierreCajaView_form_valid suma_exacta db_B 900 7 (mkDec 130000 0) ""
       = Ok (db1, [msg SUCCESS "Caja cerrada correctamente. Sin diferencias."],
             Redirect "operations:sesion_caja_detail" (Some 1))
       /\ In (mkSesion 1 7 500 (mkDec 10000000 (-2)) (Some 900)
                (Some (mkDec 13000000 (-2))) (Some (mkDec 13000000 (-2)))
                (Some (mkDec 0 (-2))) cerrada (Some ""%string))
             (sesiones db1)
       /\ forall (Sum' : Suma) (now' : datetime) (real' : Decimal)
                 (obs' : string),
            CierreCajaView_form_valid Sum' db1 now' 7 real' obs'
            = Ok (db1, [msg ERROR "No se encontró sesión de caja abierta."],
                  dashboard).
Proof.
  split; [reflexivity|].
  assert (exists db1,
            CierreCajaView_form_valid suma_exacta db_B 900 7 (mkDec 130000 0) ""
            = Ok (db1, [msg SUCCESS "Caja cerrada correctamente. Sin diferencias."],
                  Redirect "operations:sesion_caja_detail" (Some 1)))
    as [db1 Hv] by (eexists; vm_compute; reflexivity).
  exists db1. split; [exact Hv|].
  destruct (close_session_twice suma_exacta db_B 900 7 (mkDec 130000 0) ""
              sesion_B db1 _ _ eq_refl Hv) as (Hrow & _ & Hagain).
  split; [exact Hrow|exact Hagain].
Defined.

(** Scenario D with the cashier 7, who has an open session. *)
Lemma void_invoice_roundtrip_witness :
  estado factura_D = emitida
  /\ sesiones_abiertas db_D 7 = [sesion_B]
  /\ factura_timbrado db_D factura_D = Ok timbrado_A
  /\ exists db',
       anular_factura db_D 800 factura_D "error de carga" 7 true
       = Ok (db', set_anulada factura_D "error de carga" 800)
       /\ pasajes db'
          = [mkPasaje 1 "Asunción" "Encarnación" (mkDec 8000000 (-2))
               pasaje_cancelado (Some 800)
               (Some "Factura anulada: error de carga"%string)]
       /\ movimientos db'
          = [mkMovimiento 20 1 egreso anulacion (mkDec 13500000 (-2))
               "Anulación factura 001-001-0000001" (Some 10) 800]
       /\ encomiendas db' = [encomienda_D].
Proof.
  assert (Forall (fk_pasaje_ok db_D) (factura_detalles db_D factura_D)) as Hfk.
  { repeat constructor; simpl; trivial. exists pasaje_A. reflexivity. }
  assert (factura_guardada factura_D) as Hg.
  { repeat split; vm_compute; reflexivity. }
  assert (Forall pasaje_guardado (pasajes db_D)) as Hps.
  { repeat constructor; vm_compute; reflexivity. }
  assert (Nat.le (List.length (sesiones_abiertas db_D 7)) 1) as Huna.
  { vm_compute. apply le_n. }
  split; [reflexivity|]. split; [reflexivity|]. split; [reflexivity|].
  destruct (void_invoice_roundtrip db_D 800 factura_D "error de carga" 7
              timbrado_A eq_refl Hg Hps Hfk Huna eq_refl)
    as (db' & H & _ & _ & Hp & He & Hm & _).
  exists db'. split; [exact H|]. split; [exact Hp|].
  split; [exact (Hm sesion_B (or_introl eq_refl))|exact He].
Defined.

(* ===================================================================== *)
(** * Further properties *)
(* ===================================================================== *)

Lemma get_siguiente_numero_raises (db : DB) (t : Timbrado) (e : Error) :
  get_siguiente_numero db t = Raise e -> e = ValueError msg_agotado.
Proof.
  unfold get_siguiente_numero.
  destruct (_ >? _); intros H; inversion H; reflexivity.
Qed.

(** X1. [validar_timbrado] never raises; it answers [true] exactly for a
    license that is given, current and not exhausted, and gives a message
    exactly when it answers [false]. *)
Theorem validar_timbrado_total :
  forall (db : DB) (hoy : date) (t : option Timbrado),
    exists (b : bool) (e : option string),
      validar_timbrado db hoy t = Ok (b, e)
      /\ (b = true <->
          exists t', t = Some t' /\ esta_vigente hoy t' = true
                     /\ is_ok (get_siguiente_numero db t') = true)
      /\ (b = true -> e = None)
      /\ (b = false -> exists m, e = Some m).
Proof.
  intros db hoy [t|]; cbn [validar_timbrado].
  - destruct (esta_vigente hoy t) eqn:Hv; cbn [negb].
    + destruct (get_siguiente_numero db t) as [n|e] eqn:Hn.
      * exists true, None. split; [reflexivity|]. split.
        { split; [intros _|reflexivity]. exists t. rewrite Hn. auto. }
        split; [reflexivity|discriminate].
      * rewrite (get_siguiente_numero_raises _ _ _ Hn).
        exists false, (Some msg_agotado). split; [reflexivity|]. split.
        { split; [discriminate|]. intros (t' & Ht & _ & Hok).
          inversion Ht; subst t'. rewrite Hn in Hok. discriminate. }
        split; [discriminate|]. intros _. eexists; reflexivity.
    + eexists false, (Some _). split; [reflexivity|]. split.
      { split; [discriminate|]. intros (t' & Ht & Hv' & _).
        inversion Ht; subst t'. congruence. }
      split; [discriminate|]. intros _. eexists; reflexivity.
  - eexists false, (Some _). split; [reflexivity|]. split.
    { split; [discriminate|]. intros (t' & Ht & _). discriminate. }
    split; [discriminate|]. intros _. eexists; reflexivity.
Qed.

(** The body of [crear_factura] once the license is validated and the
    items are there. *)
Lemma crear_factura_body db hoy now t cl cj ps es cond ses tasa n :
  esta_vigente hoy t = true ->
  get_siguiente_numero db t = Ok n ->
  (ps <> [] \/ es <> []) ->
  crear_factura db hoy now (Some t) cl cj ps es cond ses tasa
  = let '(db0, f0) := Factura_create db now t n cl cond cj ses in
    let db2 :=
      fold_left (agregar_encomienda f0) es (fold_left (agregar_pasaje f0 tasa) ps db0) in
    let f := calcular_totales db2 f0 in
    Ok (match ses with
        | Some s =>
            if SesionEstado_eqb (sesion_estado s) abierta
            then registrar_movimiento_caja (Factura_save db2 f) now s t f ingreso
            else Factura_save db2 f
        | None => Factura_save db2 f
        end, f).
Proof.
  intros Hv Hn Hitems. unfold crear_factura.
  rewrite (validar_timbrado_vigente hoy t Hv), Hn. cbn [bind].
  destruct ps as [|p ps]; [destruct es as [|e es]|].
  - destruct Hitems as [H|H]; congruence.
  - reflexivity.
  - destruct es; reflexivity.
Qed.

(** X2. The refusals of [crear_factura], in the order the code makes
    them: no license, a license that is not current, an exhausted license,
    no item.  Each raises ValueError with its message before anything is
    written. *)
Theorem crear_factura_errores :
  forall (db : DB) (hoy : date) (now : datetime) (cl cj : pk)
         (ps : list Pasaje) (es : list Encomienda) (cond : Condicion)
         (ses : option SesionCaja) (tasa : Z),
    crear_factura db hoy now None cl cj ps es cond ses tasa
    = Raise (ValueError "No se encontró un timbrado válido.")
    /\ (forall t, esta_vigente hoy t = false ->
          crear_factura db hoy now (Some t) cl cj ps es cond ses tasa
          = Raise (ValueError
                     ("El timbrado " ++ timbrado_numero t ++ " no está vigente.")))
    /\ (forall t, esta_vigente hoy t = true ->
          is_ok (get_siguiente_numero db t) = false ->
          crear_factura db hoy now (Some t) cl cj ps es cond ses tasa
          = Raise (ValueError msg_agotado))
    /\ (forall t, esta_vigente hoy t = true ->
          is_ok (get_siguiente_numero db t) = true ->
          crear_factura db hoy now (Some t) cl cj [] [] cond ses tasa
          = Raise (ValueError "Debe incluir al menos un pasaje o encomienda.")).
Proof.
  intros db hoy now cl cj ps es cond ses tasa.
  split; [reflexivity|]. split; [|split].
  - intros t Hv. unfold crear_factura. cbn [validar_timbrado]. rewrite Hv.
    reflexivity.
  - intros t Hv Hn.
    destruct (get_siguiente_numero db t) as [n|e] eqn:E; [discriminate|].
    pose proof (get_siguiente_numero_raises _ _ _ E) as ->.
    apply (crear_factura_agotado hoy t Hv). exact E.
  - intros t Hv Hn.
    destruct (get_siguiente_numero db t) as [n|e] eqn:E; [|discriminate].
    unfold crear_factura. rewrite (validar_timbrado_vigente hoy t Hv), E.
    reflexivity.
Qed.

Section InvoiceCreation.

Lemma numeradas_length {A B : Type} (mk : pk -> A -> B) (l : list A) :
  forall id, List.length (numeradas mk id l) = List.length l.
Proof. induction l as [|x l IH]; intros id; simpl; [|rewrite IH]; reflexivity. Qed.

Lemma numeradas_In {A B : Type} (mk : pk -> A -> B) (l : list A) :
  forall id y, In y (numeradas mk id l) ->
    exists k x, id <= k < id + Z.of_nat (List.length l) /\ In x l /\ y = mk k x.
Proof.
  induction l as [|x l IH]; intros id y; cbn [numeradas In List.length].
  - intros [].
  - intros [<-|H].
    + exists id, x. split; [lia|]. auto.
    + destruct (IH _ _ H) as (k & x' & Hk & Hx & ->).
      exists k, x'. split; [lia|]. auto.
Qed.

(** One line of quantity 1 for an item whose price is a stored amount. *)
Lemma DetalleFactura_create_uno db f desc_ precio tasa p e :
  stored_amount precio ->
  DetalleFactura_create db f (Dec.of_Z 1) desc_ precio tasa p e
  = mkDB (timbrados db) (facturas db)
      (detalles db
       ++ [mkDetalle (next_pk db) (factura_id f) (mkDec 100 (-2)) desc_ precio
             tasa precio p e])
      (sesiones db) (movimientos db) (pasajes db) (encomiendas db)
      (next_pk db + 1).
Proof.
  intros [He Hc]. destruct precio as [c x]. cbn [expo coef] in He, Hc. subst x.
  unfold DetalleFactura_create. cbn [fresh set_detalles detalles timbrados
    facturas sesiones movimientos pasajes encomiendas next_pk].
  change (Dec.of_Z 1) with (mkDec 1 0).
  assert (10 ^ 15 < 10 ^ 28) by reflexivity.
  rewrite mul_exact by (rewrite Z.mul_1_l; lia).
  rewrite Z.mul_1_l. change (0 + -2) with (-2).
  rewrite !stored_scale2. reflexivity.
Qed.

Lemma fold_agregar_pasaje f tasa (ps : list Pasaje) :
  Forall (fun p => stored_amount (pasaje_precio p)) ps ->
  forall db,
    fold_left (agregar_pasaje f tasa) ps db
    = mkDB (timbrados db) (facturas db)
        (detalles db ++ numeradas (linea_pasaje (factura_id f) tasa) (next_pk db) ps)
        (sesiones db) (movimientos db) (pasajes db) (encomiendas db)
        (next_pk db + Z.of_nat (List.length ps)).
Proof.
  induction 1 as [|p ps Hp _ IH]; intros db.
  - cbn [fold_left numeradas List.length Z.of_nat]. rewrite app_nil_r, Z.add_0_r.
    destruct db; reflexivity.
  - cbn [fold_left]. rewrite IH. unfold agregar_pasaje.
    rewrite (DetalleFactura_create_uno _ _ _ _ _ _ _ Hp).
    cbn [timbrados facturas detalles sesiones movimientos pasajes encomiendas
         next_pk numeradas List.length].
    rewrite <- app_assoc. cbn [app]. unfold linea_pasaje at 2.
    rewrite Nat2Z.inj_succ. f_equal. lia.
Qed.

Lemma fold_agregar_encomienda f (es : list Encomienda) :
  Forall (fun e => stored_amount (enc_precio e)) es ->
  forall db,
    fold_left (agregar_encomienda f) es db
    = mkDB (timbrados db) (facturas db)
        (detalles db ++ numeradas (linea_encomienda (factura_id f)) (next_pk db) es)
        (sesiones db) (movimientos db) (pasajes db) (encomiendas db)
        (next_pk db + Z.of_nat (List.length es)).
Proof.
  induction 1 as [|e es He _ IH]; intros db.
  - cbn [fold_left numeradas List.length Z.of_nat]. rewrite app_nil_r, Z.add_0_r.
    destruct db; reflexivity.
  - cbn [fold_left]. rewrite IH. unfold agregar_encomienda.
    rewrite (DetalleFactura_create_uno _ _ _ _ _ _ _ He).
    cbn [timbrados facturas detalles sesiones movimientos pasajes encomiendas
         next_pk numeradas List.length].
    rewrite <- app_assoc. cbn [app]. unfold linea_encomienda at 2.
    rewrite Nat2Z.inj_succ. f_equal. lia.
Qed.

(** Rows in ascending key order are left in place by the ordering. *)
Lemma order_by_asc_sorted {A : Type} (key : A -> Z) (l : list A) :
  (forall l1 x l2 y, l = l1 ++ x :: l2 -> In y l2 -> key x <= key y) ->
  order_by (asc key) l = l.
Proof.
  induction l as [|x l IH]; intros Hs; [reflexivity|].
  cbn [order_by fold_right]. fold (order_by (asc key) l).
  rewrite IH.
  - destruct l as [|y l]; [reflexivity|]. cbn [insert_by]. unfold asc.
    destruct (Z.ltb_spec (key y) (key x)) as [Hlt|_]; [|reflexivity].
    specialize (Hs [] x (y :: l) y eq_refl (or_introl eq_refl)). lia.
  - intros l1 a l2 b -> Hb. apply (Hs (x :: l1) a l2 b); [reflexivity|exact Hb].
Qed.

End InvoiceCreation.

Section InvoiceEffect.

Lemma suma_banda_app (k : Z) (a b : list DetalleFactura) :
  suma_banda k (a ++ b) = suma_banda k a + suma_banda k b.
Proof.
  induction a as [|d a IH]; [reflexivity|].
  cbn [app]. rewrite !suma_banda_cons, IH. lia.
Qed.

Lemma suma_abs_app (a b : list DetalleFactura) :
  suma_abs (a ++ b) = suma_abs a + suma_abs b.
Proof.
  unfold suma_abs. induction a as [|d a IH]; [reflexivity|].
  cbn [app map fold_right]. rewrite IH. lia.
Qed.

Lemma suma_banda_pasajes (k fid tasa : Z) (ps : list Pasaje) :
  forall id,
    suma_banda k (numeradas (linea_pasaje fid tasa) id ps)
    = if tasa =? k then suma_pasajes ps else 0.
Proof.
  induction ps as [|p ps IH]; intros id.
  - destruct (tasa =? k); reflexivity.
  - cbn [numeradas]. rewrite suma_banda_cons, IH.
    cbn [linea_pasaje tasa_iva subtotal]. unfold suma_pasajes. cbn [map fold_right].
    destruct (tasa =? k); lia.
Qed.

Lemma suma_banda_encomiendas (k fid : Z) (es : list Encomienda) :
  forall id,
    suma_banda k (numeradas (linea_encomienda fid) id es)
    = if 10 =? k then suma_encomiendas es else 0.
Proof.
  induction es as [|e es IH]; intros id.
  - destruct (10 =? k); reflexivity.
  - cbn [numeradas]. rewrite suma_banda_cons, IH.
    cbn [linea_encomienda tasa_iva subtotal]. unfold suma_encomiendas.
    cbn [map fold_right]. destruct (10 =? k); lia.
Qed.

Lemma filter_none {A : Type} (g : A -> bool) (l : list A) :
  (forall x, In x l -> g x = false) -> filter g l = [].
Proof.
  induction l as [|x l IH]; intros H; [reflexivity|].
  cbn [filter]. rewrite (H x (or_introl eq_refl)). apply IH.
  intros y Hy. apply H. right. exact Hy.
Qed.

Lemma filter_all {A : Type} (g : A -> bool) (l : list A) :
  (forall x, In x l -> g x = true) -> filter g l = l.
Proof.
  induction l as [|x l IH]; intros H; [reflexivity|].
  cbn [filter]. rewrite (H x (or_introl eq_refl)). f_equal. apply IH.
  intros y Hy. apply H. right. exact Hy.
Qed.

Lemma numeradas_sorted {A : Type} (mk : pk -> A -> DetalleFactura) (l : list A) :
  (forall k x, detalle_id (mk k x) = k) ->
  forall id l1 x l2 y,
    numeradas mk id l = l1 ++ x :: l2 -> In y l2 ->
    id <= detalle_id x < detalle_id y
    /\ detalle_id y < id + Z.of_nat (List.length l).
Proof.
  intros Hid. induction l as [|a l IH]; intros id l1 x l2 y Heq Hy.
  - destruct l1; discriminate.
  - cbn [numeradas] in Heq. destruct l1 as [|b l1]; cbn [app] in Heq.
    + injection Heq as <- <-.
      destruct (numeradas_In mk l _ _ Hy) as (k & x' & Hk & _ & ->).
      rewrite !Hid. cbn [List.length]. lia.
    + injection Heq as _ Heq.
      destruct (IH _ _ _ _ _ Heq Hy) as [H1 H2].
      cbn [List.length]. lia.
Qed.

Variables (db : DB) (ps : list Pasaje) (es : list Encomienda) (tasa : Z).

Hypothesis fk_ok : detalles_fk_ok db.

Lemma lineas_nuevas :
  order_by (asc detalle_id)
    (filter (fun d => detalle_factura d =? next_pk db)
       (detalles db ++ (lineas_factura db ps es tasa)))
  = (lineas_factura db ps es tasa).
Proof.
  rewrite filter_app.
  rewrite (filter_none _ (detalles db)).
  2:{ intros d Hd. apply fk_ok in Hd. lia. }
  cbn [app]. rewrite filter_all.
  2:{ intros d Hd. apply in_app_or in Hd.
      destruct Hd as [Hd|Hd]; apply numeradas_In in Hd;
        destruct Hd as (k & x & _ & _ & ->); apply Z.eqb_refl. }
  apply order_by_asc_sorted. unfold lineas_factura.
  intros l1 x l2 y Heq Hy.
  set (rp := numeradas (linea_pasaje (next_pk db) tasa) (next_pk db + 1) ps) in *.
  set (re := numeradas (linea_encomienda (next_pk db))
               (next_pk db + 1 + Z.of_nat (List.length ps)) es) in *.
  assert (forall z, In z rp ->
            next_pk db + 1 <= detalle_id z
            < next_pk db + 1 + Z.of_nat (List.length ps)) as Hrp.
  { intros z Hz. apply numeradas_In in Hz. destruct Hz as (k & a & Hk & _ & ->).
    exact Hk. }
  assert (forall z, In z re ->
            next_pk db + 1 + Z.of_nat (List.length ps) <= detalle_id z) as Hre.
  { intros z Hz. apply numeradas_In in Hz. destruct Hz as (k & a & Hk & _ & ->).
    cbn [linea_encomienda detalle_id]. lia. }
  (* where does the split fall? *)
  assert (In x (rp ++ re)) as Hx by (rewrite Heq; apply in_elt).
  destruct (app_eq_app _ _ _ _ Heq) as [l' [[H1 H2]|[H1 H2]]].
  - (* rp = l1 ++ l', x :: l2 = l' ++ re *)
    destruct l' as [|x' l'].
    + cbn [app] in H2. rewrite app_nil_r in H1. subst l1.
      assert (In y re) as Hyre by (rewrite <- H2; right; exact Hy).
      symmetry in H2.
      destruct (numeradas_sorted (linea_encomienda (next_pk db)) es (fun _ _ => eq_refl) _ [] x l2 y H2 Hy). lia.
    + cbn [app] in H2. injection H2 as <- ->.
      apply in_app_or in Hy. destruct Hy as [Hy|Hy].
      * destruct (numeradas_sorted (linea_pasaje (next_pk db) tasa) ps (fun _ _ => eq_refl) _ l1 x l' y
                    H1 Hy). lia.
      * assert (In x rp) as Hxp by (rewrite H1; apply in_elt).
        apply Hrp in Hxp. apply Hre in Hy. lia.
  - (* l1 = rp ++ l', re = l' ++ x :: l2 *)
    destruct (numeradas_sorted (linea_encomienda (next_pk db)) es (fun _ _ => eq_refl) _ l' x l2 y H2 Hy). lia.
Qed.

Hypothesis precios_pasajes : Forall (fun p => stored_amount (pasaje_precio p)) ps.
Hypothesis precios_encomiendas : Forall (fun e => stored_amount (enc_precio e)) es.

Lemma lineas_guardadas :
  Forall (fun d => stored_amount (subtotal d)) (lineas_factura db ps es tasa).
Proof.
  apply Forall_forall. intros d Hd. unfold lineas_factura in Hd.
  apply in_app_or in Hd.
  destruct Hd as [Hd|Hd]; apply numeradas_In in Hd;
    destruct Hd as (k & x & _ & Hx & ->); cbn [linea_pasaje linea_encomienda subtotal].
  - exact (proj1 (Forall_forall _ _) precios_pasajes x Hx).
  - exact (proj1 (Forall_forall _ _) precios_encomiendas x Hx).
Qed.

Hypothesis caben : magnitud_items ps es < 10 ^ 15.

Lemma suma_abs_pasajes (fid : pk) (l : list Pasaje) :
  forall id,
    suma_abs (numeradas (linea_pasaje fid tasa) id l)
    = fold_right Z.add 0 (map (fun p => Z.abs (coef (pasaje_precio p))) l).
Proof.
  unfold suma_abs. induction l as [|p l IH]; intros id; [reflexivity|].
  cbn [numeradas map fold_right linea_pasaje subtotal]. rewrite IH. reflexivity.
Qed.

Lemma suma_abs_encomiendas (fid : pk) (l : list Encomienda) :
  forall id,
    suma_abs (numeradas (linea_encomienda fid) id l)
    = fold_right Z.add 0 (map (fun e => Z.abs (coef (enc_precio e))) l).
Proof.
  unfold suma_abs. induction l as [|e l IH]; intros id; [reflexivity|].
  cbn [numeradas map fold_right linea_encomienda subtotal]. rewrite IH.
  reflexivity.
Qed.

Lemma lineas_suma_abs : suma_abs (lineas_factura db ps es tasa) < 10 ^ 15.
Proof.
  unfold lineas_factura.
  rewrite suma_abs_app, suma_abs_pasajes, suma_abs_encomiendas. exact caben.
Qed.

Lemma lineas_suma_banda (k : Z) :
  suma_banda k (lineas_factura db ps es tasa)
  = (if tasa =? k then suma_pasajes ps else 0)
    + (if 10 =? k then suma_encomiendas es else 0).
Proof.
  unfold lineas_factura.
  rewrite suma_banda_app, suma_banda_pasajes, suma_banda_encomiendas. reflexivity.
Qed.

Lemma lineas_tiene_pasajes :
  exists_ (filter (fun d => isSome (detalle_pasaje d)) (lineas_factura db ps es tasa))
  = match ps with [] => false | _ :: _ => true end.
Proof.
  unfold lineas_factura. rewrite filter_app.
  rewrite (filter_none _ (numeradas (linea_encomienda _) _ es)).
  2:{ intros d Hd. apply numeradas_In in Hd.
      destruct Hd as (k & x & _ & _ & ->). reflexivity. }
  rewrite app_nil_r. destruct ps; reflexivity.
Qed.

Lemma lineas_tiene_encomiendas :
  exists_ (filter (fun d => isSome (detalle_encomienda d)) (lineas_factura db ps es tasa))
  = match es with [] => false | _ :: _ => true end.
Proof.
  unfold lineas_factura. rewrite filter_app.
  rewrite (filter_none _ (numeradas (linea_pasaje _ _) _ ps)).
  2:{ intros d Hd. apply numeradas_In in Hd.
      destruct Hd as (k & x & _ & _ & ->). reflexivity. }
  cbn [app]. destruct es; reflexivity.
Qed.

Variables (hoy : date) (now : datetime) (t : Timbrado) (n : Z) (cl cj : pk)
  (cond : Condicion) (ses : option SesionCaja).

Hypothesis vigente : esta_vigente hoy t = true.
Hypothesis numero : get_siguiente_numero db t = Ok n.
Hypothesis items : ps <> [] \/ es <> [].
Hypothesis pk_ok : facturas_pk_ok db.

Lemma crear_factura_efecto :
  let F := factura_emitida db now t n cl cond cj ses ps es tasa in
  let movs := movimiento_venta db now ses t F ps es in
  crear_factura db hoy now (Some t) cl cj ps es cond ses tasa
  = Ok (mkDB (timbrados db) (facturas db ++ [factura_row F])
          (detalles db ++ (lineas_factura db ps es tasa)) (sesiones db)
          (movimientos db ++ movs) (pasajes db) (encomiendas db)
          (next_pk db + 1 + Z.of_nat (List.length ps + List.length es)
           + Z.of_nat (List.length movs)),
        F).
Proof.
  intros F movs.
  rewrite (crear_factura_body db hoy now t cl cj ps es cond ses tasa n
             vigente numero items).
  set (f0 := mkFactura (next_pk db) (timbrado_id t) n cl cond now
               Dec.zero2 Dec.zero2 Dec.zero2 Dec.zero2 Dec.zero2 Dec.zero2
               Dec.zero2 emitida cj
               (match ses with Some s => Some (sesion_id s) | None => None end)
               None None).
  change (Factura_create db now t n cl cond cj ses)
    with (mkDB (timbrados db) (facturas db ++ [f0]) (detalles db) (sesiones db)
            (movimientos db) (pasajes db) (encomiendas db) (next_pk db + 1), f0).
  cbv beta iota zeta.
  rewrite (fold_agregar_pasaje f0 tasa ps precios_pasajes).
  rewrite (fold_agregar_encomienda f0 es precios_encomiendas).
  cbn [timbrados facturas detalles sesiones movimientos pasajes encomiendas
       next_pk].
  change (factura_id f0) with (next_pk db).
  rewrite <- app_assoc. fold (lineas_factura db ps es tasa).
  set (db2 := mkDB _ _ (detalles db ++ (lineas_factura db ps es tasa)) _ _ _ _ _).
  assert (forall f, factura_id f = next_pk db ->
            forall l, factura_detalles
                        (mkDB (timbrados db) l (detalles db ++ (lineas_factura db ps es tasa))
                           (sesiones db) (movimientos db) (pasajes db)
                           (encomiendas db) (next_pk db2)) f
                      = (lineas_factura db ps es tasa)) as Hdet.
  { intros f Hf l. unfold factura_detalles. cbn [detalles]. rewrite Hf.
    apply lineas_nuevas. }
  pose proof lineas_suma_abs as Hsum.
  pose proof (suma_banda_abs 0 (lineas_factura db ps es tasa)) as H0.
  pose proof (suma_banda_abs 5 (lineas_factura db ps es tasa)) as H5.
  pose proof (suma_banda_abs 10 (lineas_factura db ps es tasa)) as H10.
  assert (10 ^ 15 * 11 < 10 ^ 28) as Hlt by reflexivity.
  assert (calcular_totales db2 f0 = F) as Hcalc.
  { unfold calcular_totales. subst db2. rewrite (Hdet f0 eq_refl).
    unfold Dec.zero2 at 1 2 3. rewrite acumular_exact; cbn [Z.abs]; try lia.
    2:{ eapply Forall_impl; [|exact lineas_guardadas]. intros d [He _]. exact He. }
    cbn [Z.add].
    change (Dec.of_Z 5) with (mkDec 5 0). change (Dec.of_Z 10) with (mkDec 10 0).
    rewrite !mul_exact by lia. rewrite !add_exact by lia.
    replace (-2 + 0) with (-2) by lia.
    rewrite !lineas_suma_banda.
    change (10 =? 0) with false. change (10 =? 5) with false.
    change (10 =? 10) with true. cbv iota. rewrite !Z.add_0_r.
    reflexivity. }
  rewrite Hcalc.
  assert (Factura_save db2 F
          = mkDB (timbrados db) (facturas db ++ [factura_row F])
              (detalles db ++ (lineas_factura db ps es tasa)) (sesiones db) (movimientos db)
              (pasajes db) (encomiendas db) (next_pk db2)) as Hsave.
  { unfold Factura_save, set_facturas. subst db2.
    cbn [timbrados facturas detalles sesiones movimientos pasajes encomiendas
         next_pk].
    rewrite (save_row_last factura_id (factura_row F) f0); [reflexivity|reflexivity|].
    intros z Hz. apply pk_ok in Hz. cbn [factura_id f0]. lia. }
  rewrite Hsave.
  assert (total F = Dec.stored (total F)) as Hst.
  { unfold F, factura_emitida. cbn [total]. rewrite stored_scale2. reflexivity. }
  assert (next_pk db2
          = next_pk db + 1 + Z.of_nat (List.length ps + List.length es)) as Hnext.
  { subst db2. cbn [next_pk]. rewrite Nat2Z.inj_add. lia. }
  assert (forall s,
            registrar_movimiento_caja
              (mkDB (timbrados db) (facturas db ++ [factura_row F])
                 (detalles db ++ (lineas_factura db ps es tasa)) (sesiones db) (movimientos db)
                 (pasajes db) (encomiendas db) (next_pk db2)) now s t F ingreso
            = mkDB (timbrados db) (facturas db ++ [factura_row F])
                (detalles db ++ (lineas_factura db ps es tasa)) (sesiones db)
                (movimientos db
                 ++ [mkMovimiento
                       (next_pk db + 1
                        + Z.of_nat (List.length ps + List.length es))
                       (sesion_id s) ingreso (fst (concepto_venta ps es)) (total F)
                       (snd (concepto_venta ps es) ++ numero_completo t F)
                       (Some (factura_id F)) now])
                (pasajes db) (encomiendas db)
                (next_pk db + 1 + Z.of_nat (List.length ps + List.length es) + 1))
    as Hreg.
  { intros s. unfold registrar_movimiento_caja.
    rewrite (Hdet F eq_refl).
    rewrite lineas_tiene_pasajes, lineas_tiene_encomiendas.
    unfold MovimientoCaja_create.
    cbn [fresh set_movimientos timbrados facturas detalles sesiones movimientos
         pasajes encomiendas next_pk].
    rewrite <- Hst, Hnext.
    destruct ps; destruct es; reflexivity. }
  unfold movs, movimiento_venta.
  destruct ses as [s|].
  - destruct (SesionEstado_eqb (sesion_estado s) abierta).
    + rewrite Hreg. reflexivity.
    + rewrite app_nil_r, Hnext. cbn [List.length Z.of_nat]. rewrite Z.add_0_r.
      reflexivity.
  - rewrite app_nil_r, Hnext. cbn [List.length Z.of_nat]. rewrite Z.add_0_r.
    reflexivity.
Qed.

End InvoiceEffect.

Lemma get_siguiente_numero_nuevo (db : DB) (t : Timbrado) (n : Z) :
  get_siguiente_numero db t = Ok n ->
  n <= numero_hasta t
  /\ (forall f, In f (timbrado_facturas db t) -> numero_factura f < n)
  /\ (timbrado_facturas db t = [] -> n = numero_desde t).
Proof.
  unfold get_siguiente_numero.
  destruct (first (order_by (desc numero_factura) (timbrado_facturas db t)))
    as [u|] eqn:Hu.
  - destruct (Z.gtb_spec (numero_factura u + 1) (numero_hasta t)) as [|Hle];
      [discriminate|].
    intros Heq. injection Heq as <-.
    destruct (order_by_desc_first numero_factura _ _ Hu) as [Hin Hmax].
    split; [lia|]. split.
    + intros f Hf. specialize (Hmax f Hf). lia.
    + intros E. rewrite E in Hin. destruct Hin.
  - destruct (Z.gtb_spec (numero_desde t) (numero_hasta t)) as [|Hle];
      [discriminate|].
    intros Heq. injection Heq as <-.
    apply first_None, order_by_nil in Hu.
    split; [lia|]. split; [|reflexivity].
    intros f Hf. rewrite Hu in Hf. destruct Hf.
Qed.

Lemma crear_factura_Ok_inv db hoy now t cl cj ps es cond ses tasa db' f :
  crear_factura db hoy now t cl cj ps es cond ses tasa = Ok (db', f) ->
  exists t' n,
    t = Some t' /\ esta_vigente hoy t' = true
    /\ get_siguiente_numero db t' = Ok n
    /\ (ps <> [] \/ es <> []).
Proof.
  destruct t as [t|]; [|discriminate].
  destruct (esta_vigente hoy t) eqn:Hv.
  2:{ unfold crear_factura. cbn [validar_timbrado]. rewrite Hv. discriminate. }
  destruct (get_siguiente_numero db t) as [n|e] eqn:Hn.
  2:{ pose proof (get_siguiente_numero_raises _ _ _ Hn) as ->.
      rewrite (crear_factura_agotado hoy t Hv) by exact Hn. discriminate. }
  intros H. exists t, n. repeat split; auto.
  destruct ps; [destruct es|]; [|right; discriminate|left; discriminate].
  unfold crear_factura in H. rewrite (validar_timbrado_vigente hoy t Hv), Hn in H.
  discriminate.
Qed.

(** X6. The number of a new invoice.  An invoice that [crear_factura]
    returns belongs to the license, carries a number that is at most
    [numero_hasta] and above every number the license had issued; so the
    pairs (license, number) stay unique, as [unique_together] demands, and
    the numbers of the license stay within its range. *)
Theorem crear_factura_numeros_unicos :
  forall (db : DB) (hoy : date) (now : datetime) (t : Timbrado) (cl cj : pk)
         (ps : list Pasaje) (es : list Encomienda) (cond : Condicion)
         (ses : option SesionCaja) (tasa : Z) (db' : DB) (f : Factura),
    facturas_pk_ok db ->
    crear_factura db hoy now (Some t) cl cj ps es cond ses tasa = Ok (db', f) ->
    timbrado f = timbrado_id t
    /\ numero_factura f <= numero_hasta t
    /\ (forall g, In g (timbrado_facturas db t) -> numero_factura g < numero_factura f)
    /\ (numeros_unicos db -> numeros_unicos db')
    /\ (numeros_en_rango db t -> numeros_en_rango db' t).
Proof.
  intros db hoy now t cl cj ps es cond ses tasa db' f Hpk Hok.
  destruct (crear_factura_Ok_inv _ _ _ _ _ _ _ _ _ _ _ _ _ Hok)
    as (t' & n & Ht & Hv & Hn & Hitems).
  injection Ht as <-.
  destruct (crear_factura_ok hoy t Hv db now cl cj ps es cond ses tasa n
              Hpk Hitems Hn) as (db1 & f1 & Hok1 & Hnum & Htim & _ & Hfs & _).
  rewrite Hok in Hok1. injection Hok1 as <- <-.
  destruct (get_siguiente_numero_nuevo _ _ _ Hn) as (Hle & Hnew & Hfirst).
  subst n.
  split; [exact Htim|]. split; [exact Hle|]. split; [exact Hnew|].
  assert (timbrado (factura_row f) = timbrado_id t
          /\ numero_factura (factura_row f) = numero_factura f) as [Hrt Hrn].
  { split; [exact Htim|reflexivity]. }
  split.
  - unfold numeros_unicos. rewrite Hfs, map_app. cbn [map].
    rewrite Hrt, Hrn. intros Hnd.
    assert (~ In (timbrado_id t, numero_factura f)
              (map (fun g => (timbrado g, numero_factura g)) (facturas db))) as Hnot.
    { intros Hin. apply in_map_iff in Hin. destruct Hin as (g & Hg & Hgin).
      injection Hg as Hgt Hgn.
      assert (In g (timbrado_facturas db t)) as Hgt'.
      { apply filter_In. split; [exact Hgin|]. apply Z.eqb_eq. exact Hgt. }
      specialize (Hnew g Hgt'). lia. }
    clear - Hnd Hnot.
    induction (map _ (facturas db)) as [|x l IH]; cbn [app].
    + constructor; [intros []|constructor].
    + inversion Hnd as [|? ? Hx Hl]; subst. constructor.
      * intros Hin. apply in_app_or in Hin. destruct Hin as [Hin|[Hin|[]]].
        -- exact (Hx Hin).
        -- apply Hnot. left. symmetry. exact Hin.
      * apply IH; [exact Hl|]. intros Hin. apply Hnot. right. exact Hin.
  - unfold numeros_en_rango, timbrado_facturas. rewrite Hfs, filter_app.
    intros Hr g Hg. apply in_app_or in Hg. destruct Hg as [Hg|Hg].
    + apply Hr. exact Hg.
    + cbn [filter] in Hg. rewrite Hrt, Z.eqb_refl in Hg.
      destruct Hg as [<-|[]]. rewrite Hrn. split; [|exact Hle].
      fold (timbrado_facturas db t) in Hr.
      destruct (timbrado_facturas db t) as [|g0 l].
      * rewrite (Hfirst eq_refl). lia.
      * specialize (Hnew g0 (or_introl eq_refl)).
        specialize (Hr g0 (or_introl eq_refl)). lia.
Qed.

(** X3. The lines of a new invoice.  For a current license with a number
    left, at least one item, prices that are column values and a sum of
    prices that fits the columns, [crear_factura] succeeds and writes one
    line per ticket, in the order given, and then one per parcel: quantity
    1.00, the price of the item as unit price and as subtotal, the band
    [tasa_iva] for a ticket and 10 for a parcel; these are the lines of
    the invoice. *)
Theorem crear_factura_lineas :
  forall (db : DB) (hoy : date) (now : datetime) (t : Timbrado) (n : Z)
         (cl cj : pk) (ps : list Pasaje) (es : list Encomienda)
         (cond : Condicion) (ses : option SesionCaja) (tasa : Z),
    esta_vigente hoy t = true ->
    get_siguiente_numero db t = Ok n ->
    ps <> [] \/ es <> [] ->
    facturas_pk_ok db ->
    detalles_fk_ok db ->
    Forall (fun p => stored_amount (pasaje_precio p)) ps ->
    Forall (fun e => stored_amount (enc_precio e)) es ->
    magnitud_items ps es < 10 ^ 15 ->
    exists db' f,
      crear_factura db hoy now (Some t) cl cj ps es cond ses tasa = Ok (db', f)
      /\ factura_id f = next_pk db
      /\ detalles db'
         = detalles db
           ++ numeradas (linea_pasaje (factura_id f) tasa) (next_pk db + 1) ps
           ++ numeradas (linea_encomienda (factura_id f))
                (next_pk db + 1 + Z.of_nat (List.length ps)) es
      /\ factura_detalles db' f
         = numeradas (linea_pasaje (factura_id f) tasa) (next_pk db + 1) ps
           ++ numeradas (linea_encomienda (factura_id f))
                (next_pk db + 1 + Z.of_nat (List.length ps)) es.
Proof.
  intros db hoy now t n cl cj ps es cond ses tasa Hv Hn Hi Hpk Hfk Hpp Hpe Hfew.
  pose proof (crear_factura_efecto db ps es tasa Hfk Hpp Hpe Hfew hoy now t n
                cl cj cond ses Hv Hn Hi Hpk) as H.
  cbv zeta in H.
  match type of H with _ = Ok (?d, ?f) => exists d, f end. split; [exact H|].
  split; [reflexivity|]. split; [reflexivity|].
  unfold factura_detalles. cbn [detalles factura_id factura_emitida].
  apply (lineas_nuevas db ps es tasa Hfk).
Qed.

(** X4. The totals of a new invoice, under the same hypotheses: the
    prices of the tickets are added to the subtotal of the band
    [tasa_iva] (to none when the band is not 0, 5 or 10), the prices of
    the parcels to the subtotal of the band 10, the total is the sum of
    the three subtotals, and the invoice is saved with it. *)
Theorem crear_factura_totales :
  forall (db : DB) (hoy : date) (now : datetime) (t : Timbrado) (n : Z)
         (cl cj : pk) (ps : list Pasaje) (es : list Encomienda)
         (cond : Condicion) (ses : option SesionCaja) (tasa : Z),
    esta_vigente hoy t = true ->
    get_siguiente_numero db t = Ok n ->
    ps <> [] \/ es <> [] ->
    facturas_pk_ok db ->
    detalles_fk_ok db ->
    Forall (fun p => stored_amount (pasaje_precio p)) ps ->
    Forall (fun e => stored_amount (enc_precio e)) es ->
    magnitud_items ps es < 10 ^ 15 ->
    exists db' f,
      crear_factura db hoy now (Some t) cl cj ps es cond ses tasa = Ok (db', f)
      /\ subtotal_exenta f = mkDec (if tasa =? 0 then suma_pasajes ps else 0) (-2)
      /\ subtotal_iva5 f = mkDec (if tasa =? 5 then suma_pasajes ps else 0) (-2)
      /\ subtotal_iva10 f
         = mkDec ((if tasa =? 10 then suma_pasajes ps else 0) + suma_encomiendas es)
             (-2)
      /\ total f
         = mkDec ((if (tasa =? 0) || (tasa =? 5) || (tasa =? 10)
                   then suma_pasajes ps else 0) + suma_encomiendas es) (-2)
      /\ In (factura_row f) (facturas db')
      /\ total (factura_row f) = total f.
Proof.
  intros db hoy now t n cl cj ps es cond ses tasa Hv Hn Hi Hpk Hfk Hpp Hpe Hfew.
  pose proof (crear_factura_efecto db ps es tasa Hfk Hpp Hpe Hfew hoy now t n
                cl cj cond ses Hv Hn Hi Hpk) as H.
  cbv zeta in H.
  match type of H with _ = Ok (?d, ?f) => exists d, f end. split; [exact H|].
  cbn [factura_emitida subtotal_exenta subtotal_iva5 subtotal_iva10 total facturas].
  split; [reflexivity|]. split; [reflexivity|]. split; [reflexivity|].
  split.
  { f_equal.
    destruct (Z.eqb_spec tasa 0) as [->|H0]; [cbn; lia|].
    destruct (Z.eqb_spec tasa 5) as [->|H5]; [cbn; lia|].
    destruct (Z.eqb_spec tasa 10) as [->|H10]; cbn; lia. }
  split.
  - apply in_or_app. right. left. reflexivity.
  - unfold factura_row. cbn [set_totales total]. apply stored_scale2.
Qed.

(** X5. The movement of a new invoice, under the same hypotheses: when
    the session handed in is open, one [ingreso] for the total of the
    invoice is posted in it, linked to the invoice, of concept [otro] when
    the invoice holds tickets and parcels, [venta_pasaje] when it holds
    tickets only and [venta_encomienda] when it holds parcels only;
    without a session, or with one that is closed, none is posted.  No
    session is written. *)
Theorem crear_factura_movimiento :
  forall (db : DB) (hoy : date) (now : datetime) (t : Timbrado) (n : Z)
         (cl cj : pk) (ps : list Pasaje) (es : list Encomienda)
         (cond : Condicion) (ses : option SesionCaja) (tasa : Z),
    esta_vigente hoy t = true ->
    get_siguiente_numero db t = Ok n ->
    ps <> [] \/ es <> [] ->
    facturas_pk_ok db ->
    detalles_fk_ok db ->
    Forall (fun p => stored_amount (pasaje_precio p)) ps ->
    Forall (fun e => stored_amount (enc_precio e)) es ->
    magnitud_items ps es < 10 ^ 15 ->
    exists db' f,
      crear_factura db hoy now (Some t) cl cj ps es cond ses tasa = Ok (db', f)
      /\ sesiones db' = sesiones db
      /\ match ses with
         | Some s =>
             if SesionEstado_eqb (sesion_estado s) abierta
             then movimientos db'
                  = movimientos db
                    ++ [mkMovimiento
                          (next_pk db + 1
                           + Z.of_nat (List.length ps + List.length es))
                          (sesion_id s) ingreso
                          (match ps, es with
                           | _ :: _, _ :: _ => otro
                           | _ :: _, [] => venta_pasaje
                           | [], _ => venta_encomienda
                           end)
                          (total f)
                          (match ps, es with
                           | _ :: _, _ :: _ => "Venta "
                           | _ :: _, [] => "Pasaje "
                           | [], _ => "Encomienda "
                           end ++ numero_completo t f)
                          (Some (factura_id f)) now]
             else movimientos db' = movimientos db
         | None => movimientos db' = movimientos db
         end.
Proof.
  intros db hoy now t n cl cj ps es cond ses tasa Hv Hn Hi Hpk Hfk Hpp Hpe Hfew.
  pose proof (crear_factura_efecto db ps es tasa Hfk Hpp Hpe Hfew hoy now t n
                cl cj cond ses Hv Hn Hi Hpk) as H.
  cbv zeta in H.
  match type of H with _ = Ok (?d, ?f) => exists d, f end. split; [exact H|].
  split; [reflexivity|]. cbn [movimientos]. unfold movimiento_venta.
  destruct ses as [s|]; [|apply app_nil_r].
  destruct (SesionEstado_eqb (sesion_estado s) abierta); [|apply app_nil_r].
  destruct ps; destruct es; reflexivity.
Qed.

Lemma crear_factura_escenario_F :
  esta_vigente 100 timbrado_A = true
  /\ get_siguiente_numero db_F timbrado_A = Ok 1
  /\ facturas_pk_ok db_F
  /\ detalles_fk_ok db_F
  /\ Forall (fun p => stored_amount (pasaje_precio p)) [pasaje_A]
  /\ Forall (fun e => stored_amount (enc_precio e)) [encomienda_D]
  /\ magnitud_items [pasaje_A] [encomienda_D] < 10 ^ 15.
Proof.
  split; [reflexivity|]. split; [reflexivity|].
  split; [intros f []|]. split; [intros d []|].
  split; [repeat constructor; cbn; lia|].
  split; [repeat constructor; cbn; lia|]. reflexivity.
Defined.

Lemma crear_factura_lineas_witness :
  exists db' f,
    crear_factura db_F 100 1000 (Some timbrado_A) 5 7 [pasaje_A] [encomienda_D]
      contado (Some sesion_B) 0 = Ok (db', f)
    /\ detalles db'
       = [mkDetalle 6 5 (mkDec 100 (-2)) "Pasaje Asunción - Encarnación"
            (mkDec 8000000 (-2)) 0 (mkDec 8000000 (-2)) (Some 1) None;
          mkDetalle 7 5 (mkDec 100 (-2)) "Encomienda paquete - ENC-20250101-AB12"
            (mkDec 5500000 (-2)) 10 (mkDec 5500000 (-2)) None (Some 1)].
Proof.
  destruct crear_factura_escenario_F as (Hv & Hn & Hpk & Hfk & Hpp & Hpe & Hfew).
  assert ([pasaje_A] <> [] \/ [encomienda_D] <> []) as Hi by (left; discriminate).
  destruct (crear_factura_lineas db_F 100 1000 timbrado_A 1 5 7 [pasaje_A]
              [encomienda_D] contado (Some sesion_B) 0 Hv Hn Hi Hpk Hfk Hpp Hpe Hfew)
    as (db' & f & H & Hid & Hd & _).
  exists db', f. split; [exact H|]. rewrite Hd, Hid. reflexivity.
Defined.

(** ** The message of a close *)

Section Differences.

Lemma fix_sgn (d : Decimal) : Z.sgn (coef (Dec.fix_ d)) = Z.sgn (coef d).
Proof.
  destruct d as [c e]. cbn [coef].
  destruct (Z_lt_le_dec (Z.abs c) (10 ^ 28)) as [Hs|Hb].
  - rewrite fix_small by exact Hs. reflexivity.
  - assert (0 < 10 ^ 28) by reflexivity.
    assert (c = Z.sgn c * Z.abs c) as Hc
        by (rewrite Z.mul_comm; symmetry; apply Z.abs_sgn).
    assert (Z.sgn c = 1 \/ Z.sgn c = -1) as Hsg.
    { destruct (Z.sgn_spec c) as [[? ?]|[[? ?]|[? ?]]]; lia. }
    destruct (fix_round (Z.sgn c) (Z.abs c) e Hsg Hb)
      as (m & j & Hf & _ & _ & Hm & _).
    rewrite <- Hc in Hf. rewrite Hf. cbn [coef].
    assert (0 < 10 ^ 27) by reflexivity.
    destruct Hsg as [-> | ->]; lia.
Qed.

Lemma eqb_zero (d : Decimal) : Dec.eqb d (Dec.of_Z 0) = (coef d =? 0).
Proof.
  unfold Dec.eqb, Dec.align, Dec.of_Z. cbn [coef expo].
  assert (0 <= expo d - Z.min (expo d) 0) as Hk by lia.
  pose proof (pow10_gt0 _ Hk).
  destruct (Z.eqb_spec (coef d) 0) as [->|Hne]; cbn [Z.mul].
  - reflexivity.
  - apply Z.eqb_neq. nia.
Qed.

Lemma gtb_zero (d : Decimal) : Dec.gtb d (Dec.of_Z 0) = (coef d >? 0).
Proof.
  unfold Dec.gtb, Dec.align, Dec.of_Z. cbn [coef expo].
  assert (0 <= expo d - Z.min (expo d) 0) as Hk by lia.
  pose proof (pow10_gt0 _ Hk). cbn [Z.mul].
  destruct (Z.gtb_spec (coef d) 0);
    destruct (Z.gtb_spec (coef d * 10 ^ (expo d - Z.min (expo d) 0)) 0);
    try reflexivity; nia.
Qed.

Lemma sub_sgn (a b : Decimal) :
  Z.sgn (coef (Dec.sub a b))
  = Z.sgn (fst (fst (Dec.align a b)) - snd (fst (Dec.align a b))).
Proof.
  unfold Dec.sub, Dec.add, Dec.neg, Dec.align. cbn [coef expo fst snd].
  rewrite fix_sgn. cbn [coef]. f_equal. lia.
Qed.

(** The difference is zero exactly when the amounts are equal, and positive
    exactly when the first one is the greater, rounding included. *)
Lemma sub_eqb (a b : Decimal) :
  Dec.eqb (Dec.sub a b) (Dec.of_Z 0) = Dec.eqb a b.
Proof.
  rewrite eqb_zero. pose proof (sub_sgn a b) as H.
  unfold Dec.eqb. destruct (Dec.align a b) as [[x y] e]. cbn [fst snd] in H.
  pose proof (Z.sgn_spec (x - y)). pose proof (Z.sgn_spec (coef (Dec.sub a b))).
  destruct (Z.eqb_spec x y); destruct (Z.eqb_spec (coef (Dec.sub a b)) 0);
    try reflexivity; lia.
Qed.

Lemma sub_gtb (a b : Decimal) :
  Dec.gtb (Dec.sub a b) (Dec.of_Z 0) = Dec.gtb a b.
Proof.
  rewrite gtb_zero. pose proof (sub_sgn a b) as H.
  unfold Dec.gtb. destruct (Dec.align a b) as [[x y] e]. cbn [fst snd] in H.
  pose proof (Z.sgn_spec (x - y)). pose proof (Z.sgn_spec (coef (Dec.sub a b))).
  destruct (Z.gtb_spec x y); destruct (Z.gtb_spec (coef (Dec.sub a b)) 0);
    try reflexivity; lia.
Qed.

End Differences.

(** X7. The message of a close that succeeded tells how the counted amount
    compares with the expected one: a success when they are equal, a
    warning with the surplus when more was counted, an error with the
    shortage when less was; the redirect goes to the closed session. *)
Theorem cierre_mensaje_por_diferencia :
  forall (Sum : Suma) (db : DB) (now : datetime) (user : pk) (real : Decimal)
         (obs : string) (s : SesionCaja) (db1 : DB) (msgs : list Message)
         (r : Response),
    get (sesiones_abiertas db user) = Ok s ->
    CierreCajaView_form_valid Sum db now user real obs = Ok (db1, msgs, r) ->
    let esperado := fst (calcular_cierre Sum db s) in
    let dif := Dec.sub real esperado in
    r = Redirect "operations:sesion_caja_detail" (Some (sesion_id s))
    /\ msgs
       = [if Dec.eqb real esperado
          then msg SUCCESS "Caja cerrada correctamente. Sin diferencias."
          else if Dec.gtb real esperado
          then msg_monto WARNING "Caja cerrada con sobrante de Gs. " dif
          else msg_monto ERROR "Caja cerrada con faltante de Gs. "
                 (mkDec (Z.abs (coef dif)) (expo dif))].
Proof.
  intros Sum db now user real obs s db1 msgs r Hget Hview esperado dif.
  unfold CierreCajaView_form_valid in Hview. rewrite Hget in Hview.
  destruct (cerrar Sum db now s real obs) as [[db' s']|e] eqn:Hc;
    [|discriminate].
  destruct (cerrar_Ok _ _ _ _ _ _ _ _ Hc) as [Hs' _].
  cbn [bind] in Hview. rewrite Hs' in Hview.
  cbn [diferencia sesion_id] in Hview.
  fold esperado in Hview. fold dif in Hview.
  unfold dif in Hview at 1 2. rewrite sub_eqb, sub_gtb in Hview.
  injection Hview as _ <- <-. split; reflexivity.
Qed.

Lemma cierre_mensaje_por_diferencia_witness :
  get (sesiones_abiertas db_B 7) = Ok sesion_B
  /\ exists db1,
       CierreCajaView_form_valid suma_exacta db_B 900 7 (mkDec 120000 0) ""
       = Ok (db1,
             [msg_monto ERROR "Caja cerrada con faltante de Gs. "
                (mkDec 1000000 (-2))],
             Redirect "operations:sesion_caja_detail" (Some 1)).
Proof.
  split; [reflexivity|].
  assert (exists db1 msgs r,
            CierreCajaView_form_valid suma_exacta db_B 900 7 (mkDec 120000 0) ""
            = Ok (db1, msgs, r))
    as (db1 & msgs & r & Hv) by (do 3 eexists; vm_compute; reflexivity).
  exists db1.
  destruct (cierre_mensaje_por_diferencia suma_exacta db_B 900 7
              (mkDec 120000 0) "" sesion_B db1 msgs r eq_refl Hv) as [-> ->].
  exact Hv.
Defined.

(** ** The dashboard *)

(** X8. For a cashier with one open session the dashboard shows, as
    [total_actual], the very amount that [calcular_cierre] returns for
    that session; without an open session it shows none. *)
Theorem dashboard_total_actual :
  forall (Sum : Suma) (db : DB) (user : pk),
    (forall s, get (sesiones_abiertas db user) = Ok s ->
       CajaDashboardView_get_context_data Sum db user
       = Ok (mkCajaContext true (Some s) (Some (fst (calcular_cierre Sum db s)))))
    /\ (sesiones_abiertas db user = [] ->
        CajaDashboardView_get_context_data Sum db user
        = Ok (mkCajaContext false None None)).
Proof.
  intros Sum db user. split.
  - intros s Hs. unfold CajaDashboardView_get_context_data. rewrite Hs.
    reflexivity.
  - intros Hn. unfold CajaDashboardView_get_context_data. rewrite Hn.
    reflexivity.
Qed.

(** ** Two open sessions *)

Lemma get_varias {A : Type} (l : list A) :
  (2 <= List.length l)%nat -> get l = Raise MultipleObjectsReturned.
Proof.
  destruct l as [|x [|y l]]; cbn [List.length]; intros H;
    [lia|lia|reflexivity].
Qed.

(** X9. Once a cashier holds two open sessions, every operation that
    looks the open session up with [get] raises MultipleObjectsReturned:
    the dashboard, the close, the manual movement (whether the form is
    valid or not) and the void of an issued invoice with a cash
    reversal. *)
Theorem dos_sesiones_abiertas :
  forall (Sum : Suma) (db : DB) (now : datetime) (user : pk),
    (2 <= List.length (sesiones_abiertas db user))%nat ->
    CajaDashboardView_get_context_data Sum db user
    = Raise MultipleObjectsReturned
    /\ (forall real obs,
          CierreCajaView_form_valid Sum db now user real obs
          = Raise MultipleObjectsReturned)
    /\ (forall form,
          MovimientoCajaCreateView_post db now user form
          = Raise MultipleObjectsReturned)
    /\ (forall f motivo,
          estado f = emitida ->
          anular_factura db now f motivo user true
          = Raise MultipleObjectsReturned).
Proof.
  intros Sum db now user H. apply get_varias in H.
  split; [unfold CajaDashboardView_get_context_data; rewrite H; reflexivity|].
  split; [intros real obs; unfold CierreCajaView_form_valid; rewrite H;
          reflexivity|].
  split.
  - intros form. unfold MovimientoCajaCreateView_post,
      MovimientoCajaCreateView_form_valid. rewrite H.
    destruct (MovimientoCajaForm_is_valid form); reflexivity.
  - intros f motivo Hest. unfold anular_factura. rewrite Hest.
    replace (sesiones_abiertas (Factura_save db (set_anulada f motivo now)) user)
      with (sesiones_abiertas db user) by reflexivity.
    rewrite H. reflexivity.
Qed.

(** Scenario G: after the second opening of the cashier 7. *)
Lemma dos_sesiones_abiertas_witness :
  List.length (sesiones_abiertas db_G 7) = 2%nat
  /\ CajaDashboardView_get_context_data suma_exacta db_G 7
     = Raise MultipleObjectsReturned
  /\ CierreCajaView_form_valid suma_exacta db_G 900 7 (mkDec 130000 0) ""
     = Raise MultipleObjectsReturned
  /\ MovimientoCajaCreateView_post db_G 900 7 form_cero
     = Raise MultipleObjectsReturned.
Proof.
  assert (Nat.le 2 (List.length (sesiones_abiertas db_G 7))) as H.
  { vm_compute. apply le_n. }
  destruct (dos_sesiones_abiertas suma_exacta db_G 900 7 H)
    as (Hd & Hc & Hm & _).
  split; [reflexivity|]. split; [exact Hd|].
  split; [apply Hc|apply Hm].
Defined.

(** ** The next number of a license *)

Lemma crear_factura_numero db hoy now t cl cj ps es cond ses tasa db' f :
  crear_factura db hoy now (Some t) cl cj ps es cond ses tasa = Ok (db', f) ->
  get_siguiente_numero db t = Ok (numero_factura f).
Proof.
  intros H.
  destruct (crear_factura_Ok_inv _ _ _ _ _ _ _ _ _ _ _ _ _ H)
    as (t' & n & Ht & Hv & Hn & Hitems).
  injection Ht as <-.
  rewrite (crear_factura_body db hoy now t cl cj ps es cond ses tasa n Hv Hn
             Hitems) in H.
  pose proof (Factura_create_spec db now t n cl cond cj ses) as Hc.
  destruct (Factura_create db now t n cl cond cj ses) as [db0 f0].
  destruct Hc as (_ & _ & _ & Hnf & _). cbv zeta in H.
  injection H as _ <-.
  rewrite (proj1 (proj2 (proj2 (calcular_totales_fields _ f0)))), Hnf.
  exact Hn.
Qed.

(** X10. [TimbradoSiguienteNumeroView.get] never raises.  It answers the
    next number of the license, formatted like the number of an invoice,
    which lies within the range and above every number the license has
    issued; it is the number that [crear_factura] gives the next invoice
    of the license.  It answers the error of the exhausted license, with
    status 400, exactly when [get_siguiente_numero] raises. *)
Theorem siguiente_numero_view :
  forall (db : DB) (t : Timbrado),
    match TimbradoSiguienteNumeroView_get db t with
    | Ok (JsonNumero s n) =>
        get_siguiente_numero db t = Ok n
        /\ s = (punto_expedicion t ++ "-" ++ format_07d n)%string
        /\ n <= numero_hasta t
        /\ (forall f, In f (timbrado_facturas db t) -> numero_factura f < n)
        /\ (forall hoy now cl cj ps es cond ses tasa db' f,
              crear_factura db hoy now (Some t) cl cj ps es cond ses tasa
              = Ok (db', f) ->
              numero_factura f = n /\ numero_completo t f = s)
    | Ok (JsonError e status) =>
        status = 400 /\ e = msg_agotado
        /\ get_siguiente_numero db t = Raise (ValueError msg_agotado)
        /\ (forall hoy now cl cj ps es cond ses tasa,
              esta_vigente hoy t = true ->
              crear_factura db hoy now (Some t) cl cj ps es cond ses tasa
              = Raise (ValueError msg_agotado))
    | Raise _ => False
    end.
Proof.
  intros db t. unfold TimbradoSiguienteNumeroView_get.
  destruct (get_siguiente_numero db t) as [n|e] eqn:Hn.
  - destruct (get_siguiente_numero_nuevo _ _ _ Hn) as (Hle & Hnew & _).
    split; [reflexivity|]. split; [reflexivity|]. split; [exact Hle|].
    split; [exact Hnew|].
    intros hoy now cl cj ps es cond ses tasa db' f H.
    apply crear_factura_numero in H. rewrite Hn in H. injection H as ->.
    split; reflexivity.
  - pose proof (get_siguiente_numero_raises _ _ _ Hn) as ->.
    split; [reflexivity|]. split; [reflexivity|]. split; [reflexivity|].
    intros hoy now cl cj ps es cond ses tasa Hv.
    apply (crear_factura_agotado hoy t Hv). exact Hn.
Qed.

(** ** Voiding twice *)

(** X11. An invoice that is already voided is refused: [anular_factura]
    raises ValueError, whatever the flag, and the view reports the
    message as an error and renders the form again; nothing is written. *)
Theorem anular_factura_ya_anulada :
  forall (db : DB) (now : datetime) (f : Factura) (motivo : string) (user : pk)
         (revertir_caja : bool),
    estado f = anulada ->
    anular_factura db now f motivo user revertir_caja
    = Raise (ValueError "La factura ya está anulada.")
    /\ FacturaAnularView_post db now f user motivo revertir_caja
       = Ok (db, [msg ERROR "La factura ya está anulada."],
             Render "operations/factura_anulacion.html").
Proof.
  intros db now f motivo user rc Hest.
  assert (anular_factura db now f motivo user rc
          = Raise (ValueError "La factura ya está anulada.")) as H.
  { unfold anular_factura. rewrite Hest. reflexivity. }
  split; [exact H|]. unfold FacturaAnularView_post. rewrite H. reflexivity.
Qed.

(** Scenario D: the invoice voided once is refused the second time. *)
Lemma anular_factura_ya_anulada_witness :
  exists db' f',
    anular_factura db_D 800 factura_D "error de carga" 7 true = Ok (db', f')
    /\ estado f' = anulada
    /\ anular_factura db' 850 f' "otra vez" 7 true
       = Raise (ValueError "La factura ya está anulada.")
    /\ FacturaAnularView_post db' 850 f' 7 "otra vez" true
       = Ok (db', [msg ERROR "La factura ya está anulada."],
             Render "operations/factura_anulacion.html").
Proof.
  assert (exists db' f',
            anular_factura db_D 800 factura_D "error de carga" 7 true
            = Ok (db', f') /\ estado f' = anulada)
    as (db' & f' & H & Hest)
      by (do 2 eexists; split; [vm_compute; reflexivity|reflexivity]).
  exists db', f'. split; [exact H|]. split; [exact Hest|].
  exact (anular_factura_ya_anulada db' 850 f' "otra vez" 7 true Hest).
Defined.

(** ** A manual movement without an open session *)

(** X12. For a cashier without an open session a manual movement is never
    recorded: a valid form ends in the error message and the dashboard,
    an invalid one is rendered again. *)
Theorem movimiento_sin_caja :
  forall (db : DB) (now : datetime) (user : pk) (form : MovimientoCajaForm),
    sesiones_abiertas db user = [] ->
    MovimientoCajaCreateView_post db now user form
    = if MovimientoCajaForm_is_valid form
      then Ok (db, [msg ERROR "No tiene caja abierta."], dashboard)
      else Ok (db, [], Render "operations/movimiento_caja_form.html").
Proof.
  intros db now user form H.
  unfold MovimientoCajaCreateView_post, MovimientoCajaCreateView_form_valid.
  rewrite H. reflexivity.
Qed.

Lemma movimiento_sin_caja_witness :
  sesiones_abiertas db_B 8 = []
  /\ MovimientoCajaCreateView_post db_B 600 8 form_negativo
     = Ok (db_B, [msg ERROR "No tiene caja abierta."], dashboard).
Proof.
  split; [reflexivity|].
  exact (movimiento_sin_caja db_B 600 8 form_negativo eq_refl).
Defined.

(** X13. What the form of a manual movement refuses: a concept that is
    not one of the four manual ones, an amount of more than 15 digits,
    of more than two decimals or of more than 13 integral digits, and a
    description that is blank once stripped; a refused form records
    nothing. *)
Theorem movimiento_form_rechaza :
  forall (form : MovimientoCajaForm),
    (concepto_manual (form_concepto form) = false
     \/ DecimalValidator 15 2 (form_monto form) = false
     \/ strip (form_descripcion form) = ""%string) ->
    MovimientoCajaForm_is_valid form = false
    /\ forall db now user,
         (List.length (sesiones_abiertas db user) <= 1)%nat ->
         MovimientoCajaCreateView_post db now user form
         = Ok (db, [], Render "operations/movimiento_caja_form.html").
Proof.
  intros form H.
  assert (MovimientoCajaForm_is_valid form = false) as Hv.
  { unfold MovimientoCajaForm_is_valid, CharField_clean.
    destruct H as [-> | [-> | ->]].
    - reflexivity.
    - rewrite andb_false_r. reflexivity.
    - cbn [String.length Nat.eqb isSome]. apply andb_false_r. }
  split; [exact Hv|]. intros db now user Hn.
  unfold MovimientoCajaCreateView_post. rewrite Hv.
  destruct (sesiones_abiertas db user) as [|s [|s2 l]]; [reflexivity|reflexivity|].
  cbn [List.length] in Hn. lia.
Qed.

Lemma movimiento_form_rechaza_witness :
  MovimientoCajaForm_is_valid (mkMovForm ingreso venta_pasaje (mkDec 100 (-2)) "x")
  = false
  /\ MovimientoCajaForm_is_valid (mkMovForm ingreso otro (mkDec 1 (-3)) "x")
     = false
  /\ MovimientoCajaForm_is_valid (mkMovForm ingreso otro (mkDec 100 (-2)) "   ")
     = false.
Proof.
  split; [|split].
  - apply (movimiento_form_rechaza
             (mkMovForm ingreso venta_pasaje (mkDec 100 (-2)) "x")).
    left. reflexivity.
  - apply (movimiento_form_rechaza (mkMovForm ingreso otro (mkDec 1 (-3)) "x")).
    right. left. reflexivity.
  - apply (movimiento_form_rechaza
             (mkMovForm ingreso otro (mkDec 100 (-2)) "   ")).
    right. right. reflexivity.
Defined.

(** ** The amount in words of a ticket *)

Lemma int_stored (c : Z) : 0 <= c -> int_ (mkDec c (-2)) = c / 100.
Proof.
  intros Hc. unfold int_. cbn [expo coef].
  change (0 <=? -2) with false. change (10 ^ (- -2)) with 100. cbv iota.
  apply Z.quot_div_nonneg; lia.
Qed.

(** X14. The amount in words of the ticket of an invoice is that of the
    whole guaranies of its total, the cents dropped; it exists for every
    total below one thousand million and raises IndexError from there
    on. *)
Theorem ticket_total_letras :
  forall (f : Factura),
    stored_amount (total f) ->
    0 <= coef (total f) ->
    total_letras f = numero_a_letras (coef (total f) / 100)
    /\ (coef (total f) < 100000000000 ->
        exists texto, total_letras f = Ok (texto ++ " GUARANÍES")%string)
    /\ (100000000000 <= coef (total f) -> total_letras f = Raise IndexError).
Proof.
  intros f [He _] Hc. unfold total_letras.
  destruct (total f) as [c e]. cbn [expo coef] in *. subst e.
  rewrite (int_stored c Hc).
  split; [reflexivity|]. split.
  - intros Hlt. apply numero_a_letras_hasta_mil_millones.
    split; [apply Z.div_pos; lia|apply Z.div_lt_upper_bound; lia].
  - intros Hge. apply numero_a_letras_desde_mil_millones.
    apply Z.div_le_lower_bound; lia.
Qed.

Lemma ticket_total_letras_witness :
  total_letras factura_D = Ok "CIENTO TREINTA Y CINCO MIL GUARANÍES"%string
  /\ total_letras factura_H = Raise IndexError.
Proof.
  assert (stored_amount (total factura_D)) as HD
      by (split; vm_compute; reflexivity).
  assert (stored_amount (total factura_H)) as HH
      by (split; vm_compute; reflexivity).
  assert (0 <= coef (total factura_D)) as H0 by (vm_compute; discriminate).
  assert (0 <= coef (total factura_H)) as H1 by (vm_compute; discriminate).
  split.
  - rewrite (proj1 (ticket_total_letras factura_D HD H0)).
    vm_compute. reflexivity.
  - apply (ticket_total_letras factura_H HH H1). vm_compute. discriminate.
Defined.

(** Scenario F: one ticket and one parcel invoiced in the open session of
    scenario B. *)
Lemma crear_factura_totales_witness :
  exists db' f,
    crear_factura db_F 100 1000 (Some timbrado_A) 5 7 [pasaje_A] [encomienda_D]
      contado (Some sesion_B) 0 = Ok (db', f)
    /\ subtotal_exenta f = mkDec 8000000 (-2)
    /\ subtotal_iva10 f = mkDec 5500000 (-2)
    /\ total f = mkDec 13500000 (-2).
Proof.
  destruct crear_factura_escenario_F as (Hv & Hn & Hpk & Hfk & Hpp & Hpe & Hfew).
  assert ([pasaje_A] <> [] \/ [encomienda_D] <> []) as Hi by (left; discriminate).
  destruct (crear_factura_totales db_F 100 1000 timbrado_A 1 5 7 [pasaje_A]
              [encomienda_D] contado (Some sesion_B) 0 Hv Hn Hi Hpk Hfk Hpp Hpe Hfew)
    as (db' & f & H & Hex & _ & H10 & Ht & _).
  exists db', f. split; [exact H|]. split; [exact Hex|].
  split; [exact H10|exact Ht].
Defined.

Lemma crear_factura_movimiento_witness :
  exists db' f,
    crear_factura db_F 100 1000 (Some timbrado_A) 5 7 [pasaje_A] [encomienda_D]
      contado (Some sesion_B) 0 = Ok (db', f)
    /\ sesiones db' = [sesion_B]
    /\ movimientos db'
       = [mkMovimiento 8 1 ingreso otro (total f)
            ("Venta " ++ numero_completo timbrado_A f) (Some (factura_id f)) 1000].
Proof.
  destruct crear_factura_escenario_F as (Hv & Hn & Hpk & Hfk & Hpp & Hpe & Hfew).
  assert ([pasaje_A] <> [] \/ [encomienda_D] <> []) as Hi by (left; discriminate).
  destruct (crear_factura_movimiento db_F 100 1000 timbrado_A 1 5 7 [pasaje_A]
              [encomienda_D] contado (Some sesion_B) 0 Hv Hn Hi Hpk Hfk Hpp Hpe Hfew)
    as (db' & f & H & Hs & Hm).
  exists db', f. split; [exact H|]. split; [exact Hs|exact Hm].
Defined.

Lemma crear_factura_numeros_unicos_witness :
  facturas_pk_ok db_F
  /\ exists db' f,
       crear_factura db_F 100 1000 (Some timbrado_A) 5 7 [pasaje_A]
         [encomienda_D] contado (Some sesion_B) 0 = Ok (db', f)
       /\ timbrado f = timbrado_id timbrado_A
       /\ numero_factura f <= numero_hasta timbrado_A
       /\ numeros_unicos db'.
Proof.
  assert (facturas_pk_ok db_F) as Hpk by (intros f []).
  assert (exists db' f,
            crear_factura db_F 100 1000 (Some timbrado_A) 5 7 [pasaje_A]
              [encomienda_D] contado (Some sesion_B) 0 = Ok (db', f))
    as (db' & f & H) by (do 2 eexists; vm_compute; reflexivity).
  split; [exact Hpk|]. exists db', f. split; [exact H|].
  destruct (crear_factura_numeros_unicos db_F 100 1000 timbrado_A 5 7 [pasaje_A]
              [encomienda_D] contado (Some sesion_B) 0 db' f Hpk H)
    as (Ht & Hle & _ & Hu & _).
  split; [exact Ht|]. split; [exact Hle|]. apply Hu. constructor.
Defined.

(** ** Cancelling a ticket *)

Section TicketCancellation.

Variables (db : DB) (now : datetime) (user : pk) (p : Pasaje)
  (codigo motivo : string).
Hypothesis guardado : pasaje_guardado p.

Lemma Pasaje_save_guardado :
  mkPasaje (pasaje_id p) (pasaje_origen p) (pasaje_destino p)
    (Dec.stored (pasaje_precio p)) pasaje_cancelado (Some now) (Some motivo)
  = mkPasaje (pasaje_id p) (pasaje_origen p) (pasaje_destino p)
      (pasaje_precio p) pasaje_cancelado (Some now) (Some motivo).
Proof. rewrite (stored_guardado _ (proj1 guardado)). reflexivity. Qed.

End TicketCancellation.

(** X15. Cancelling a ticket with a refund, by a cashier with one open
    session: the ticket is saved as [cancelado] with the timestamp and
    the reason of the form, and one [egreso] of concept [devolucion] is
    posted for the price of the ticket, whatever the status the ticket
    had, one already cancelled included. *)
Theorem pasaje_cancelacion_devolucion :
  forall (db : DB) (now : datetime) (user : pk) (p : Pasaje)
         (codigo motivo : string) (s : SesionCaja),
    pasaje_guardado p ->
    get (sesiones_abiertas db user) = Ok s ->
    exists db',
      PasajeCancelacionView_post db now user p codigo motivo true
      = Ok (db',
            [msg_monto SUCCESS "Pasaje cancelado y dinero devuelto: Gs. "
               (pasaje_precio p)],
            Redirect "operations:pasaje_list" None)
      /\ pasajes db'
         = save_row pasaje_id
             (mkPasaje (pasaje_id p) (pasaje_origen p) (pasaje_destino p)
                (pasaje_precio p) pasaje_cancelado (Some now) (Some motivo))
             (pasajes db)
      /\ movimientos db'
         = movimientos db
           ++ [mkMovimiento (next_pk db) (sesion_id s) egreso devolucion
                 (pasaje_precio p) ("Devolución pasaje " ++ codigo)%string
                 None now]
      /\ sesiones db' = sesiones db.
Proof.
  intros db now user p codigo motivo s Hg Hs.
  unfold PasajeCancelacionView_post.
  cbn [pasaje_id pasaje_origen pasaje_destino pasaje_precio pasaje_estado
       pasaje_fecha_cancelacion pasaje_motivo_cancelacion].
  rewrite (Pasaje_save_guardado now p motivo Hg).
  replace (sesiones_abiertas (set_pasajes db _) user)
    with (sesiones_abiertas db user) by reflexivity.
  rewrite Hs. eexists. split; [reflexivity|].
  unfold MovimientoCaja_create.
  cbn [fresh set_movimientos set_pasajes pasajes movimientos sesiones next_pk].
  rewrite (stored_guardado _ (proj1 Hg)).
  split; [reflexivity|]. split; reflexivity.
Qed.

(** X16. Cancelling a ticket without a refund, or by a cashier without an
    open session: the ticket is saved as [cancelado] and no movement is
    posted; the cashier who asked for a refund and has no open session is
    warned. *)
Theorem pasaje_cancelacion_sin_movimiento :
  forall (db : DB) (now : datetime) (user : pk) (p : Pasaje)
         (codigo motivo : string) (devolver_dinero : bool),
    pasaje_guardado p ->
    devolver_dinero = false \/ sesiones_abiertas db user = [] ->
    exists db',
      PasajeCancelacionView_post db now user p codigo motivo devolver_dinero
      = Ok (db',
            [if devolver_dinero
             then msg WARNING
                    "Pasaje cancelado pero no hay caja abierta para registrar devolución."
             else msg SUCCESS "Pasaje cancelado exitosamente."],
            Redirect "operations:pasaje_list" None)
      /\ pasajes db'
         = save_row pasaje_id
             (mkPasaje (pasaje_id p) (pasaje_origen p) (pasaje_destino p)
                (pasaje_precio p) pasaje_cancelado (Some now) (Some motivo))
             (pasajes db)
      /\ movimientos db' = movimientos db
      /\ sesiones db' = sesiones db.
Proof.
  intros db now user p codigo motivo dev Hg Hcase.
  unfold PasajeCancelacionView_post.
  cbn [pasaje_id pasaje_origen pasaje_destino pasaje_precio pasaje_estado
       pasaje_fecha_cancelacion pasaje_motivo_cancelacion].
  rewrite (Pasaje_save_guardado now p motivo Hg).
  replace (sesiones_abiertas (set_pasajes db _) user)
    with (sesiones_abiertas db user) by reflexivity.
  destruct dev.
  - destruct Hcase as [Hf|Hn]; [discriminate|]. rewrite Hn.
    eexists. split; [reflexivity|]. repeat split.
  - eexists. split; [reflexivity|]. repeat split.
Qed.

(** X17. The ticket of scenario D cancelled twice with a refund by the
    cashier 7: the second cancellation is not refused and the price is
    paid out a second time. *)
Theorem pasaje_cancelado_dos_veces :
  exists db1 db2 m r,
    PasajeCancelacionView_post db_D 800 7 pasaje_A "PAS-A" "no viaja" true
    = Ok (db1, m, r)
    /\ pasajes db1
       = [mkPasaje 1 "Asunción" "Encarnación" (mkDec 8000000 (-2))
            pasaje_cancelado (Some 800) (Some "no viaja"%string)]
    /\ PasajeCancelacionView_post db1 810 7
         (mkPasaje 1 "Asunción" "Encarnación" (mkDec 8000000 (-2))
            pasaje_cancelado (Some 800) (Some "no viaja"%string))
         "PAS-A" "no viaja" true
       = Ok (db2, m, r)
    /\ movimientos db2
       = [mkMovimiento 20 1 egreso devolucion (mkDec 8000000 (-2))
            "Devolución pasaje PAS-A" None 800;
          mkMovimiento 21 1 egreso devolucion (mkDec 8000000 (-2))
            "Devolución pasaje PAS-A" None 810].
Proof.
  do 4 eexists.
  split; [vm_compute; reflexivity|]. split; [reflexivity|].
  split; vm_compute; reflexivity.
Qed.

Lemma pasaje_cancelacion_devolucion_witness :
  pasaje_guardado pasaje_A
  /\ get (sesiones_abiertas db_D 7) = Ok sesion_B
  /\ exists db',
       PasajeCancelacionView_post db_D 800 7 pasaje_A "PAS-A" "no viaja" true
       = Ok (db',
             [msg_monto SUCCESS "Pasaje cancelado y dinero devuelto: Gs. "
                (mkDec 8000000 (-2))],
             Redirect "operations:pasaje_list" None)
       /\ movimientos db'
          = [mkMovimiento 20 1 egreso devolucion (mkDec 8000000 (-2))
               "Devolución pasaje PAS-A" None 800].
Proof.
  assert (pasaje_guardado pasaje_A) as Hg by (split; vm_compute; reflexivity).
  split; [exact Hg|]. split; [reflexivity|].
  destruct (pasaje_cancelacion_devolucion db_D 800 7 pasaje_A "PAS-A" "no viaja"
              sesion_B Hg eq_refl) as (db' & H & _ & Hm & _).
  exists db'. split; [exact H|exact Hm].
Defined.

Lemma pasaje_cancelacion_sin_movimiento_witness :
  pasaje_guardado pasaje_A
  /\ sesiones_abiertas db_D 8 = []
  /\ exists db',
       PasajeCancelacionView_post db_D 800 8 pasaje_A "PAS-A" "no viaja" true
       = Ok (db',
             [msg WARNING
                "Pasaje cancelado pero no hay caja abierta para registrar devolución."],
             Redirect "operations:pasaje_list" None)
       /\ movimientos db' = [].
Proof.
  assert (pasaje_guardado pasaje_A) as Hg by (split; vm_compute; reflexivity).
  assert (true = false \/ sesiones_abiertas db_D 8 = []) as Hc
      by (right; reflexivity).
  split; [exact Hg|]. split; [reflexivity|].
  destruct (pasaje_cancelacion_sin_movimiento db_D 800 8 pasaje_A "PAS-A"
              "no viaja" true Hg Hc) as (db' & H & _ & Hm & _).
  exists db'. split; [exact H|exact Hm].
Defined.

(** ** The forms of the license and of the invoice *)

(** X18. [TimbradoForm.clean] refuses a range whose first number is above
    its last one only when neither number is zero: with dates in order, a
    range of two non-zero bounds passes exactly when [numero_desde <=
    numero_hasta], while a range whose last number is zero passes
    whatever its first number; a license saved with such a range, 5 to 0
    say, is exhausted before its first invoice. *)
Theorem TimbradoForm_clean_rango :
  (forall fi ff nd nh,
     fi <= ff -> nd <> 0 -> nh <> 0 ->
     (TimbradoForm_clean (Some fi) (Some ff) (Some nd) (Some nh) = None
      <-> nd <= nh))
  /\ (forall fi ff nd,
        fi <= ff ->
        TimbradoForm_clean (Some fi) (Some ff) (Some nd) (Some 0) = None)
  /\ (forall fi ff nd nh,
        ff < fi ->
        TimbradoForm_clean (Some fi) (Some ff) nd nh
        = Some "La fecha de inicio debe ser anterior a la fecha de fin."%string)
  /\ (forall db t,
        numero_hasta t < numero_desde t ->
        timbrado_facturas db t = [] ->
        get_siguiente_numero db t = Raise (ValueError msg_agotado)).
Proof.
  split; [|split; [|split]].
  - intros fi ff nd nh Hf Hd Hh. unfold TimbradoForm_clean.
    destruct (Z.gtb_spec fi ff) as [|_]; [lia|].
    destruct (Z.eqb_spec nd 0) as [|_]; [contradiction|].
    destruct (Z.eqb_spec nh 0) as [|_]; [contradiction|].
    cbn [negb andb].
    destruct (Z.gtb_spec nd nh) as [Hgt|Hle]; split; intros H;
      try discriminate; try reflexivity; lia.
  - intros fi ff nd Hf. unfold TimbradoForm_clean.
    destruct (Z.gtb_spec fi ff) as [|_]; [lia|].
    cbn [Z.eqb negb]. rewrite andb_false_r. reflexivity.
  - intros fi ff nd nh Hf. unfold TimbradoForm_clean.
    destruct (Z.gtb_spec fi ff) as [_|]; [reflexivity|lia].
  - intros db t Hr Hn. unfold get_siguiente_numero. rewrite Hn.
    cbn [order_by fold_right first].
    destruct (Z.gtb_spec (numero_desde t) (numero_hasta t)) as [_|];
      [reflexivity|lia].
Qed.

(** X19. [FacturaForm.clean] passes exactly the selections that
    [crear_factura] does not refuse for want of items. *)
Theorem FacturaForm_clean_items :
  forall (ps : list Pasaje) (es : list Encomienda),
    (FacturaForm_clean ps es = None <-> ps <> [] \/ es <> [])
    /\ (FacturaForm_clean ps es
        = Some "Debe seleccionar al menos un pasaje o encomienda para facturar."%string
        <-> forall db hoy now t cl cj cond ses tasa,
              esta_vigente hoy t = true ->
              is_ok (get_siguiente_numero db t) = true ->
              crear_factura db hoy now (Some t) cl cj ps es cond ses tasa
              = Raise (ValueError "Debe incluir al menos un pasaje o encomienda.")).
Proof.
  intros ps es. split.
  - unfold FacturaForm_clean.
    destruct ps as [|p ps]; destruct es as [|e es]; cbn;
      split; intros H; try discriminate; try reflexivity.
    + destruct H as [H|H]; congruence.
    + right. discriminate.
    + left. discriminate.
    + left. discriminate.
  - split.
    + intros H db hoy now t cl cj cond ses tasa Hv Hn.
      assert (ps = [] /\ es = []) as [-> ->].
      { unfold FacturaForm_clean in H.
        destruct ps; destruct es; cbn in H; try discriminate. auto. }
      destruct (get_siguiente_numero db t) as [n|e] eqn:E; [|discriminate].
      unfold crear_factura. rewrite (validar_timbrado_vigente hoy t Hv), E.
      reflexivity.
    + intros H.
      specialize (H db_A 100 1000 timbrado_A 5 7 contado None 0 eq_refl eq_refl).
      destruct ps as [|p ps]; [destruct es as [|e es]|]; [reflexivity| |].
      * rewrite (crear_factura_body db_A 100 1000 timbrado_A 5 7 [] (e :: es)
                   contado None 0 1 eq_refl eq_refl) in H
          by (right; discriminate).
        discriminate.
      * rewrite (crear_factura_body db_A 100 1000 timbrado_A 5 7 (p :: ps) es
                   contado None 0 1 eq_refl eq_refl) in H
          by (left; discriminate).
        discriminate.
Qed.
